(** * Crash game provider: the round engine and its settlement services

    A shallow embedding of [backend/engine/crashEngine.js],
    [backend/services/callbackService.js], [backend/services/betService.js]
    and the constants of [backend/config.js], with the properties the
    specification states about them.

    JavaScript numbers are kept behind the interface [JSNumber], which has
    two interpretations: [Binary64.number] (IEEE 754 binary64, the numbers
    Node computes with, executable) and [Ideal.number] (the real numbers,
    used where a statement is about the mathematical multiplier curve). *)

From Stdlib Require Import ZArith List String Ascii Bool Lia.
From Stdlib Require Import Strings.Byte DecimalString.
From Stdlib Require Import Floats.PrimFloat Floats.FloatOps Floats.SpecFloat.
From Stdlib Require Import Reals Lra.
From Equations Require Import Equations.
Import ListNotations.

Set Implicit Arguments.
Set Warnings "-inexact-float".
Local Open Scope string_scope.
Local Open Scope Z_scope.

(** ** backend/config.js *)

Module config.
Definition PROVIDER_SECRET : string := "your-provider-secret-key-change-in-production".
Definition GAME_TICK_INTERVAL_MS : Z := 50.
Definition GAME_ROUND_DELAY_MS : Z := 3000.
Definition GAME_BETTING_PHASE_MS : Z := 5000.
Definition GAME_MIN_BET : Z := 1.
Definition GAME_MAX_BET : Z := 100000000000.
Definition GAME_MAX_MULTIPLIER : Z := 1000.
Definition CALLBACK_TIMEOUT_MS : Z := 10000.
Definition CALLBACK_RETRY_ATTEMPTS : Z := 3.
Definition CALLBACK_RETRY_DELAY_MS : Z := 1000.
End config.

(** ** JavaScript numbers *)

(** The operations on numbers that the engine and the services use.
    [of_Z] is an integer literal or an integer-valued number (a time stamp,
    a config constant); [Math_pow_2_48] records that [Math.pow(2, 48)],
    which ECMAScript only asks to be an approximation, is the exact power. *)
Class JSNumber : Type := {
  num : Type;
  of_Z : Z -> num;
  nsub : num -> num -> num;
  nmul : num -> num -> num;
  ndiv : num -> num -> num;
  nlt : num -> num -> bool;
  nle : num -> num -> bool;
  isNaN : num -> bool;
  Math_floor : num -> num;
  Math_round : num -> num;
  Math_min : num -> num -> num;
  Math_pow : num -> num -> num;
  Math_E : num;
  Math_pow_2_48 : Math_pow (of_Z 2) (of_Z 48) = of_Z (2 ^ 48)
}.

Declare Scope num_scope.
Delimit Scope num_scope with num.
Bind Scope num_scope with num.
Notation "x - y" := (nsub x y) : num_scope.
Notation "x * y" := (nmul x y) : num_scope.
Notation "x / y" := (ndiv x y) : num_scope.
Notation "x <? y" := (nlt x y) : num_scope.
Notation "x <=? y" := (nle x y) : num_scope.
Notation "x >? y" := (nlt y x) : num_scope.
Notation "x >=? y" := (nle y x) : num_scope.

(** A decimal literal [n/d] of the source, such as [0.99] = [dec 99 100]:
    the number nearest to the quotient. *)
Definition dec `{JSNumber} (n d : Z) : num := (of_Z n / of_Z d)%num.

(** *** IEEE 754 binary64 *)

Module Binary64.

(** The binary64 value nearest to an integer (ties to even). *)
Definition float_of_Z (z : Z) : float :=
  SF2Prim (binary_normalize prec emax z 0 false).

(** [Math.floor]: the integer part is computed on the exact value
    [m * 2^e] of a finite number; zeros, infinities and NaN are returned
    as they are. *)
Definition floor (x : float) : float :=
  match Prim2SF x with
  | S754_finite s m e =>
      if 0 <=? e then x
      else float_of_Z ((if s then Z.neg m else Z.pos m) / 2 ^ (- e))
  | _ => x
  end.

(** [Math.round]: the nearest integer, a tie going up; a negative number
    that rounds to zero gives the negative zero. *)
Definition round (x : float) : float :=
  match Prim2SF x with
  | S754_finite s m e =>
      if 0 <=? e then x
      else
        let q := (2 * (if s then Z.neg m else Z.pos m) + 2 ^ (- e)) / 2 ^ (- e + 1) in
        if (q =? 0) && s then (- 0)%float else float_of_Z q
  | _ => x
  end.

(** [Math.min]: NaN if an argument is; of the two zeros the negative one. *)
Definition min (x y : float) : float :=
  if is_nan x || is_nan y then nan
  else if (x <? y)%float then x
  else if (y <? x)%float then y
  else if get_sign x then x else y.

(** A stand-in for the host's [Math.pow], used to run the model on
    concrete inputs: exact repeated multiplication for a small
    non-negative integer exponent, and the exponential series for base
    [Math.E]. Theorems quantify over every [pow]. *)
Fixpoint pow_nat (x : float) (n : nat) : float :=
  match n with
  | O => 1%float
  | S k => (x * pow_nat x k)%float
  end.

Fixpoint exp_series (y term : float) (k : float) (fuel : nat) : float :=
  match fuel with
  | O => 0%float
  | S f => (term + exp_series y (term * y / k) (k + 1) f)%float
  end.

Definition E : float := 2.718281828459045%float.

Definition sample_pow (x y : float) : float :=
  match Prim2SF y with
  | S754_zero _ => 1%float
  | S754_finite false m e =>
      if (0 <=? e) && (Z.pos m * 2 ^ e <? 1024) then pow_nat x (Z.to_nat (Z.pos m * 2 ^ e))
      else if (e <? 0) && (Z.pos m mod 2 ^ (- e) =? 0) && (Z.pos m / 2 ^ (- e) <? 1024)
      then pow_nat x (Z.to_nat (Z.pos m / 2 ^ (- e)))
      else if Leibniz.eqb x E then exp_series y 1 1 40 else nan
  | _ => if Leibniz.eqb x E then exp_series y 1 1 40 else nan
  end.

Lemma sample_pow_2_48 :
  sample_pow (float_of_Z 2) (float_of_Z 48) = float_of_Z (2 ^ 48).
Proof. vm_compute. reflexivity. Qed.

(** Binary64 numbers with [pow] as the host's [Math.pow]. *)
Definition number (pow : float -> float -> float)
    (pow_2_48 : pow (float_of_Z 2) (float_of_Z 48) = float_of_Z (2 ^ 48)) : JSNumber :=
  {| num := float;
     of_Z := float_of_Z;
     nsub := PrimFloat.sub;
     nmul := PrimFloat.mul;
     ndiv := PrimFloat.div;
     nlt := PrimFloat.ltb;
     nle := PrimFloat.leb;
     isNaN := is_nan;
     Math_floor := floor;
     Math_round := round;
     Math_min := min;
     Math_pow := pow;
     Math_E := E;
     Math_pow_2_48 := pow_2_48 |}.

Definition sample : JSNumber := number sample_pow sample_pow_2_48.

End Binary64.

(** *** Real numbers *)

Module Ideal.

Lemma Rpower_2_48 : Rpower (IZR 2) (IZR 48) = IZR (2 ^ 48).
Proof.
  replace (IZR 48) with (INR 48) by (rewrite INR_IZR_INZ; reflexivity).
  rewrite Rpower_pow by lra.
  rewrite pow_IZR. reflexivity.
Qed.

Definition number : JSNumber :=
  {| num := R;
     of_Z := IZR;
     nsub := Rminus;
     nmul := Rmult;
     ndiv := Rdiv;
     nlt := fun x y => if Rlt_dec x y then true else false;
     nle := fun x y => if Rle_dec x y then true else false;
     isNaN := fun _ => false;
     Math_floor := fun x => IZR (Zfloor x);
     Math_round := fun x => IZR (Zfloor (x + / 2));
     Math_min := Rmin;
     Math_pow := Rpower;
     Math_E := exp 1;
     Math_pow_2_48 := Rpower_2_48 |}.

End Ideal.

(** ** Values shared by the engine and the services *)

(** The outcome of a call: a returned value or a thrown [Error] with its
    message. *)
Inductive result (A : Type) : Type :=
| Return (a : A)
| Throw (message : string).
Arguments Return {A} a.
Arguments Throw {A} message.

Definition is_Throw {A} (r : result A) : bool :=
  match r with Throw _ => true | Return _ => false end.

Definition has_value {A} (o : option A) : bool :=
  match o with Some _ => true | None => false end.

(** The message of the error a call threw. *)
Definition thrown {A} (r : result A) : option string :=
  match r with Throw message => Some message | Return _ => None end.

(** The decimal text of an integer-valued number, as a template literal
    prints it. *)
Definition show_Z (z : Z) : string := NilZero.string_of_int (Z.to_int z).

(** *** A JavaScript [Map] with string keys

    Entries are kept in insertion order, which is the order a [for ... of]
    loop visits them in; [set] on a present key replaces the value in
    place. *)
Module JSMap.

Definition t (V : Type) : Type := list (string * V).

Definition empty {V} : t V := [].

Fixpoint get {V} (k : string) (m : t V) : option V :=
  match m with
  | [] => None
  | (k', v) :: rest => if String.eqb k k' then Some v else get k rest
  end.

Definition has {V} (k : string) (m : t V) : bool :=
  match get k m with Some _ => true | None => false end.

Fixpoint set {V} (k : string) (v : V) (m : t V) : t V :=
  match m with
  | [] => [(k, v)]
  | (k', v') :: rest =>
      if String.eqb k k' then (k, v) :: rest else (k', v') :: set k v rest
  end.

Fixpoint delete {V} (k : string) (m : t V) : t V :=
  match m with
  | [] => []
  | (k', v') :: rest =>
      if String.eqb k k' then rest else (k', v') :: delete k rest
  end.

Definition size {V} (m : t V) : Z := Z.of_nat (List.length m).

End JSMap.

(** *** [Buffer.readUIntBE]

    [readUIntBE buf offset byteLength] reads [byteLength] bytes from
    [offset], most significant first; Node throws a [RangeError] when the
    buffer is too short. *)
Fixpoint readUIntBE_from (bytes : list byte) (byteLength : nat) (acc : Z) {struct byteLength}
    : option Z :=
  match byteLength with
  | O => Some acc
  | S n =>
      match bytes with
      | [] => None
      | b :: rest => readUIntBE_from rest n (acc * 256 + Z.of_N (Byte.to_N b))
      end
  end.

Definition readUIntBE (buf : list byte) (offset byteLength : nat) : result Z :=
  match readUIntBE_from (skipn offset buf) byteLength 0 with
  | Some h => Return h
  | None => Throw "Attempt to access memory outside buffer bounds"
  end.

(** *** [Array.prototype.slice(0, end)]

    For an integer [end]: a negative [end] counts from the end of the
    array, and the result never reaches past the array. *)
Definition slice_to {A} (end_ : Z) (l : list A) : list A :=
  let len := Z.of_nat (List.length l) in
  let final := if end_ <? 0 then Z.max (len + end_) 0 else Z.min end_ len in
  firstn (Z.to_nat final) l.

(** ** Collaborators outside the sources at hand *)

(** The JSON bodies the provider posts to the platform
    ([callbackService.js]): the payloads of [/bet], [/win], [/rollback] and
    [/balance]. A transaction id is absent ([None]) when the field is
    [undefined]. *)
Inductive Payload {N : JSNumber} : Type :=
| BetPayload (requestId roundId playerId sessionId : string) (amount : num)
    (currency : string) (timestamp : Z)
| WinPayload (requestId roundId playerId sessionId : string)
    (betAmount multiplier winAmount : num) (currency : string)
    (betTransactionId : option string) (timestamp : Z)
| RollbackPayload (requestId roundId playerId sessionId : string) (amount : num)
    (currency : string) (originalTransactionId : option string) (reason : string)
    (timestamp : Z)
| BalancePayload (playerId sessionId : string) (timestamp : Z).

(** [util/hmac.js], [engine/seeds.js] and [services/sessionService.js] are
    collaborators the engine and the services only call; they are taken as
    given. [sha256] returns the digest in hex, [hmacSha256Buffer] the
    digest as a [Buffer]; [SeedManager] is the state of the seed chain and
    [SessionService] the state of the session store. *)
Class Hmac {N : JSNumber} : Type := {
  hmacSha256Buffer : string -> string -> list byte;
  sha256 : string -> string;
  generateCallbackSignature : string -> Payload -> string
}.

Class Seeds : Type := {
  SeedManager : Type;
  getCurrentServerSeed : SeedManager -> string;
  getClientSeed : SeedManager -> string;
  getNonce : SeedManager -> Z;
  advanceToNextSeed : SeedManager -> SeedManager
}.

Record Session : Type := mkSession {
  session_playerId : string;
  session_currency : string;
  session_callbackBaseUrl : string
}.

Class Sessions {N : JSNumber} : Type := {
  SessionService : Type;
  validateSession : string -> SessionService -> result Session;
  updateBalance : string -> option num -> SessionService -> SessionService
}.

(** [sessionService.getSessionByPlayerId], which the round service calls
    for each loser: [None] when the player has no session, and otherwise the
    [controlsSocketId] of the session ([Some None] when it has none). *)
Class SessionSockets {N : JSNumber} {SS : Sessions} : Type := {
  getSessionByPlayerId : string -> SessionService -> option (option string)
}.

(** ** backend/engine/crashEngine.js *)

Inductive Status : Type := pending | betting | running | crashed.

Definition Status_eqb (a b : Status) : bool :=
  match a, b with
  | pending, pending | betting, betting | running, running | crashed, crashed => true
  | _, _ => false
  end.

Module crashEngine.
Section CrashEngine.
Context {N : JSNumber} {H : Hmac} {S : Seeds}.

Record Bet : Type := mkBet {
  bet_playerId : string;
  bet_sessionId : string;
  bet_amount : num;
  bet_placedAt : Z
}.

Record Cashout : Type := mkCashout {
  co_playerId : string;
  co_betAmount : num;
  co_multiplier : num;
  co_winAmount : num;
  co_cashedOutAt : Z
}.

Record Round : Type := mkRound {
  id : string;
  serverSeed : string;
  serverSeedHash : string;
  clientSeed : string;
  nonce : Z;
  crashPoint : num;
  startTime : option Z;
  endTime : option Z;
  status : Status;
  currentMultiplier : num;
  bets : JSMap.t Bet;
  cashedOut : JSMap.t Cashout
}.

(** The payload of [round_crash], also returned by [crash]. *)
Record Verification : Type := mkVerification {
  v_roundId : string;
  v_crashPoint : num;
  v_serverSeed : string;
  v_serverSeedHash : string;
  v_clientSeed : string;
  v_nonce : Z
}.

Record HistoryEntry : Type := mkHistoryEntry {
  h_id : string;
  h_crashPoint : num;
  h_serverSeed : string;
  h_serverSeedHash : string;
  h_clientSeed : string;
  h_nonce : Z;
  h_startTime : option Z;
  h_endTime : option Z
}.

(** What [emit] hands to the listeners. *)
Inductive Event : Type :=
| betting_phase (roundId serverSeedHash clientSeed : string) (nonce duration : Z)
| round_start (roundId serverSeedHash : string) (startTime : Z)
| round_tick (roundId : string) (multiplier : num) (elapsed : Z)
| round_crash (verification : Verification).

(** The engine singleton: its fields, the seed manager it drives, and the
    events emitted so far (oldest first). *)
Record CrashEngine : Type := mkCrashEngine {
  currentRound : option Round;
  roundHistory : list HistoryEntry;
  seedManager : SeedManager;
  emitted : list Event
}.

Definition constructor (seeds : SeedManager) : CrashEngine :=
  mkCrashEngine None [] seeds [].

(** Assignments to one field. *)
Definition set_status (s : Status) (r : Round) : Round :=
  mkRound (id r) (serverSeed r) (serverSeedHash r) (clientSeed r) (nonce r)
    (crashPoint r) (startTime r) (endTime r) s (currentMultiplier r) (bets r) (cashedOut r).
Definition set_startTime (t : Z) (r : Round) : Round :=
  mkRound (id r) (serverSeed r) (serverSeedHash r) (clientSeed r) (nonce r)
    (crashPoint r) (Some t) (endTime r) (status r) (currentMultiplier r) (bets r) (cashedOut r).
Definition set_endTime (t : Z) (r : Round) : Round :=
  mkRound (id r) (serverSeed r) (serverSeedHash r) (clientSeed r) (nonce r)
    (crashPoint r) (startTime r) (Some t) (status r) (currentMultiplier r) (bets r) (cashedOut r).
Definition set_currentMultiplier (m : num) (r : Round) : Round :=
  mkRound (id r) (serverSeed r) (serverSeedHash r) (clientSeed r) (nonce r)
    (crashPoint r) (startTime r) (endTime r) (status r) m (bets r) (cashedOut r).
Definition set_bets (b : JSMap.t Bet) (r : Round) : Round :=
  mkRound (id r) (serverSeed r) (serverSeedHash r) (clientSeed r) (nonce r)
    (crashPoint r) (startTime r) (endTime r) (status r) (currentMultiplier r) b (cashedOut r).
Definition set_cashedOut (c : JSMap.t Cashout) (r : Round) : Round :=
  mkRound (id r) (serverSeed r) (serverSeedHash r) (clientSeed r) (nonce r)
    (crashPoint r) (startTime r) (endTime r) (status r) (currentMultiplier r) (bets r) c.

Definition set_currentRound (r : option Round) (e : CrashEngine) : CrashEngine :=
  mkCrashEngine r (roundHistory e) (seedManager e) (emitted e).
Definition set_roundHistory (h : list HistoryEntry) (e : CrashEngine) : CrashEngine :=
  mkCrashEngine (currentRound e) h (seedManager e) (emitted e).
Definition set_seedManager (s : SeedManager) (e : CrashEngine) : CrashEngine :=
  mkCrashEngine (currentRound e) (roundHistory e) s (emitted e).

Definition emit (ev : Event) (e : CrashEngine) : CrashEngine :=
  mkCrashEngine (currentRound e) (roundHistory e) (seedManager e) (emitted e ++ [ev]).

(** A method of the engine: the value it returns or the error it throws,
    and the engine afterwards. [now] arguments are the readings of
    [Date.now()] the method takes. *)
Definition Method (A : Type) : Type := CrashEngine -> result A * CrashEngine.

Definition calculateCrashPoint (serverSeed clientSeed : string) (nonce : Z) : result num :=
  let message := clientSeed ++ ":" ++ show_Z nonce in
  let hash := hmacSha256Buffer serverSeed message in
  match readUIntBE hash 0 6 with
  | Throw e => Throw e
  | Return h =>
      let divisor := Math_pow (of_Z 2) (of_Z 48) in
      let raw := (of_Z h / divisor)%num in
      if (raw <? dec 1 100)%num then Return (of_Z 1)
      else
        let crashPoint :=
          (Math_floor ((dec 99 100 / (of_Z 1 - raw)) * of_Z 100) / of_Z 100)%num in
        Return (Math_min crashPoint (of_Z config.GAME_MAX_MULTIPLIER))
  end.

Definition generateRound (now : Z) : Method Round := fun e =>
  let serverSeed := getCurrentServerSeed (seedManager e) in
  let clientSeed := getClientSeed (seedManager e) in
  let nonce := getNonce (seedManager e) in
  match calculateCrashPoint serverSeed clientSeed nonce with
  | Throw err => (Throw err, e)
  | Return crashPoint =>
      let round :=
        {| id := "R-" ++ show_Z now ++ "-" ++ show_Z nonce;
           serverSeed := serverSeed;
           serverSeedHash := sha256 serverSeed;
           clientSeed := clientSeed;
           nonce := nonce;
           crashPoint := crashPoint;
           startTime := None;
           endTime := None;
           status := pending;
           currentMultiplier := of_Z 1;
           bets := JSMap.empty;
           cashedOut := JSMap.empty |} in
      (Return round, set_currentRound (Some round) e)
  end.

Definition startBettingPhase (now : Z) : Method Round := fun e =>
  let generated :=
    match currentRound e with
    | None => generateRound now e
    | Some r => (Return r, e)
    end in
  match generated with
  | (Throw err, e1) => (Throw err, e1)
  | (Return r, e1) =>
      let r1 := set_status betting r in
      let e2 := set_currentRound (Some r1) e1 in
      let e3 :=
        emit (betting_phase (id r1) (serverSeedHash r1) (clientSeed r1) (nonce r1)
                config.GAME_BETTING_PHASE_MS) e2 in
      (Return r1, e3)
  end.

Definition startRound (now : Z) : Method Round := fun e =>
  match currentRound e with
  | None => (Throw "No round in betting phase", e)
  | Some r =>
      if negb (Status_eqb (status r) betting) then (Throw "No round in betting phase", e)
      else
        let r1 := set_currentMultiplier (of_Z 1) (set_startTime now (set_status running r)) in
        let e1 := set_currentRound (Some r1) e in
        (Return r1, emit (round_start (id r1) (serverSeedHash r1) now) e1)
  end.

Definition calculateMultiplier (elapsedMs : Z) : num :=
  let growthRate := dec 6 100000 in
  let multiplier := Math_pow Math_E (growthRate * of_Z elapsedMs)%num in
  (Math_floor (multiplier * of_Z 100) / of_Z 100)%num.

Record Loser : Type := mkLoser { loser_playerId : string; loser_bet : Bet }.

Record CrashResult : Type := mkCrashResult {
  cr_round : Round;
  cr_losers : list Loser;
  cr_verification : Verification
}.

(** [roundHistory.unshift(entry)], then [pop()] when more than 50 remain. *)
Definition push_history (entry : HistoryEntry) (h : list HistoryEntry) : list HistoryEntry :=
  let h1 := entry :: h in
  if Z.of_nat (List.length h1) >? 50 then removelast h1 else h1.

(** The loop over [bets] that collects the players without a cashout. *)
Fixpoint collect_losers (entries : JSMap.t Bet) (cashed : JSMap.t Cashout) : list Loser :=
  match entries with
  | [] => []
  | (playerId, bet) :: rest =>
      if negb (JSMap.has playerId cashed)
      then mkLoser playerId bet :: collect_losers rest cashed
      else collect_losers rest cashed
  end.

Definition crash (now : Z) : Method (option CrashResult) := fun e =>
  match currentRound e with
  | None => (Return None, e)
  | Some r =>
      let r1 := set_currentMultiplier (crashPoint r) (set_endTime now (set_status crashed r)) in
      let verificationData :=
        {| v_roundId := id r1;
           v_crashPoint := crashPoint r1;
           v_serverSeed := serverSeed r1;
           v_serverSeedHash := serverSeedHash r1;
           v_clientSeed := clientSeed r1;
           v_nonce := nonce r1 |} in
      let e1 := emit (round_crash verificationData) (set_currentRound (Some r1) e) in
      let entry :=
        {| h_id := id r1;
           h_crashPoint := crashPoint r1;
           h_serverSeed := serverSeed r1;
           h_serverSeedHash := serverSeedHash r1;
           h_clientSeed := clientSeed r1;
           h_nonce := nonce r1;
           h_startTime := startTime r1;
           h_endTime := endTime r1 |} in
      let e2 := set_roundHistory (push_history entry (roundHistory e1)) e1 in
      let losers := collect_losers (bets r1) (cashedOut r1) in
      let e3 := set_seedManager (advanceToNextSeed (seedManager e2)) e2 in
      let crashedRound := r1 in
      let e4 := set_currentRound None e3 in
      (Return (Some (mkCrashResult crashedRound losers verificationData)), e4)
  end.

(** What [tick] returns: [null], the crash summary, or
    [{ multiplier, crashed: false }]. *)
Inductive TickResult : Type :=
| TickNull
| TickCrashed (c : CrashResult)
| TickMultiplier (multiplier : num).

Definition tick (now crashNow : Z) : Method TickResult := fun e =>
  match currentRound e with
  | None => (Return TickNull, e)
  | Some r =>
      if negb (Status_eqb (status r) running) then (Return TickNull, e)
      else
        let elapsed := now - match startTime r with Some t => t | None => 0 end in
        let newMultiplier := calculateMultiplier elapsed in
        let r1 := set_currentMultiplier newMultiplier r in
        let e1 := set_currentRound (Some r1) e in
        if (newMultiplier >=? crashPoint r1)%num then
          match crash crashNow e1 with
          | (Return (Some c), e2) => (Return (TickCrashed c), e2)
          | (Return None, e2) => (Return TickNull, e2)
          | (Throw err, e2) => (Throw err, e2)
          end
        else
          (Return (TickMultiplier newMultiplier),
           emit (round_tick (id r1) newMultiplier elapsed) e1)
  end.

Definition addBet (playerId : string) (amount : num) (sessionId : string) (now : Z)
    : Method Bet := fun e =>
  match currentRound e with
  | None => (Throw "No active round", e)
  | Some r =>
      if negb (Status_eqb (status r) betting) then (Throw "Betting phase has ended", e)
      else if JSMap.has playerId (bets r) then (Throw "Already placed a bet this round", e)
      else
        let bet :=
          {| bet_playerId := playerId;
             bet_sessionId := sessionId;
             bet_amount := amount;
             bet_placedAt := now |} in
        (Return bet, set_currentRound (Some (set_bets (JSMap.set playerId bet (bets r)) r)) e)
  end.

Definition cashout (playerId : string) (now : Z) : Method Cashout := fun e =>
  match currentRound e with
  | None => (Throw "No active round", e)
  | Some r =>
      if negb (Status_eqb (status r) running) then (Throw "Round is not running", e)
      else
        match JSMap.get playerId (bets r) with
        | None => (Throw "No bet found for player", e)
        | Some bet =>
            if JSMap.has playerId (cashedOut r) then (Throw "Already cashed out", e)
            else
              let multiplier := currentMultiplier r in
              let winAmount :=
                (Math_floor (bet_amount bet * multiplier * of_Z 100) / of_Z 100)%num in
              let cashoutData :=
                {| co_playerId := playerId;
                   co_betAmount := bet_amount bet;
                   co_multiplier := multiplier;
                   co_winAmount := winAmount;
                   co_cashedOutAt := now |} in
              (Return cashoutData,
               set_currentRound
                 (Some (set_cashedOut (JSMap.set playerId cashoutData (cashedOut r)) r)) e)
        end
  end.

(** The snapshot [getCurrentRound] returns. *)
Record RoundState : Type := mkRoundState {
  rs_id : string;
  rs_status : Status;
  rs_currentMultiplier : num;
  rs_serverSeedHash : string;
  rs_clientSeed : string;
  rs_nonce : Z;
  rs_betsCount : Z;
  rs_startTime : option Z
}.

Definition getCurrentRound (e : CrashEngine) : option RoundState :=
  match currentRound e with
  | None => None
  | Some r =>
      Some {| rs_id := id r;
              rs_status := status r;
              rs_currentMultiplier := currentMultiplier r;
              rs_serverSeedHash := serverSeedHash r;
              rs_clientSeed := clientSeed r;
              rs_nonce := nonce r;
              rs_betsCount := JSMap.size (bets r);
              rs_startTime := startTime r |}
  end.

Definition getPlayerBet (playerId : string) (e : CrashEngine) : option Bet :=
  match currentRound e with
  | None => None
  | Some r => JSMap.get playerId (bets r)
  end.

Definition hasPlayerCashedOut (playerId : string) (e : CrashEngine) : bool :=
  match currentRound e with
  | None => false
  | Some r => JSMap.has playerId (cashedOut r)
  end.

(** [getHistory(limit = 20)]: [None] is an omitted argument. *)
Definition getHistory (limit : option Z) (e : CrashEngine) : list HistoryEntry :=
  let limit := match limit with Some l => l | None => 20 end in
  slice_to limit (roundHistory e).

End CrashEngine.
End crashEngine.

(** ** backend/services/callbackService.js *)

Module callbackService.
Section CallbackService.
Context {N : JSNumber} {H : Hmac}.

(** A response body: the fields the services read. A field is [None]
    when the body has no such property. *)
Record Body : Type := mkBody {
  body_status : option string;
  body_transactionId : option string;
  body_newBalance : option num;
  body_code : option string;
  body_message : option string
}.

(** What [response.json()] resolves to: [null] or a value with
    properties. *)
Inductive Json : Type :=
| JsonNull
| JsonObject (b : Body).

(** One call of [fetch]: it rejects (network failure, or the abort of
    [AbortSignal.timeout]), or resolves to a response whose [json()]
    resolves or rejects. *)
Inductive FetchOutcome : Type :=
| Rejected (message : string)
| Response (ok : bool) (status : Z) (json : result Json).

Record Request : Type := mkRequest {
  req_url : string;
  req_signature : string;
  req_requestId : string;
  req_body : Payload;
  req_timeout : Z
}.

Inductive IO : Type :=
| Fetched (request : Request)
| Delayed (ms : Z).

(** The outside of one logical operation: [platform n] is the outcome
    of its [n]-th [fetch], [clock] what [Date.now()] reads, [io] what it
    has done so far (oldest first). *)
Record World : Type := mkWorld {
  platform : nat -> FetchOutcome;
  fetches : nat;
  clock : Z;
  io : list IO
}.

Definition fetch (request : Request) (w : World) : FetchOutcome * World :=
  (platform w (fetches w),
   mkWorld (platform w) (Datatypes.S (fetches w)) (clock w) (io w ++ [Fetched request])).

Definition delay (ms : Z) (w : World) : World :=
  mkWorld (platform w) (fetches w) (clock w + ms) (io w ++ [Delayed ms]).

Definition payload_requestId (p : Payload) : option string :=
  match p with
  | BetPayload requestId _ _ _ _ _ _ => Some requestId
  | WinPayload requestId _ _ _ _ _ _ _ _ _ => Some requestId
  | RollbackPayload requestId _ _ _ _ _ _ _ _ => Some requestId
  | BalancePayload _ _ _ => None
  end.

(** [a || b] on strings that may be [undefined]: the empty string is falsy. *)
Definition or_else (a : option string) (b : string) : string :=
  match a with
  | Some s => if String.eqb s "" then b else s
  | None => b
  end.

Definition or_else_opt (a b : option string) : option string :=
  match a with
  | Some s => if String.eqb s "" then b else a
  | None => b
  end.

Definition json_message (data : Json) : result (option string) :=
  match data with
  | JsonNull => Throw "Cannot read properties of null (reading 'message')"
  | JsonObject b => Return (body_message b)
  end.

(** The [try] block of [makeRequest]: one attempt. *)
Definition attempt_once (url : string) (payload : Payload) (w : World)
    : result Json * World :=
  let signature := generateCallbackSignature config.PROVIDER_SECRET payload in
  let request :=
    {| req_url := url;
       req_signature := signature;
       req_requestId := or_else (payload_requestId payload) ("REQ-" ++ show_Z (clock w));
       req_body := payload;
       req_timeout := config.CALLBACK_TIMEOUT_MS |} in
  let (outcome, w1) := fetch request w in
  match outcome with
  | Rejected message => (Throw message, w1)
  | Response ok status json =>
      match json with
      | Throw message => (Throw message, w1)
      | Return data =>
          if negb ok then
            match json_message data with
            | Throw message => (Throw message, w1)
            | Return message =>
                (Throw ("HTTP " ++ show_Z status ++ ": " ++ or_else message "Unknown error"), w1)
            end
          else (Return data, w1)
      end
  end.

Definition inspect {A} (a : A) : { b : A | a = b } := exist _ a eq_refl.

Equations? makeRequest (url : string) (payload : Payload) (attempt : Z) (w : World)
    : result Json * World
    by wf (Z.to_nat (config.CALLBACK_RETRY_ATTEMPTS - attempt)) lt :=
  makeRequest url payload attempt w with attempt_once url payload w => {
    | (Return data, w1) := (Return data, w1);
    | (Throw error, w1) with inspect (attempt <? config.CALLBACK_RETRY_ATTEMPTS) => {
        | exist _ true _ :=
            makeRequest url payload (attempt + 1)
              (delay (config.CALLBACK_RETRY_DELAY_MS * attempt) w1);
        | exist _ false _ := (Throw error, w1) } }.
Proof.
  change (Z.to_nat (3 - (attempt + 1)) < Z.to_nat (3 - attempt))%nat.
  apply Z.ltb_lt in e. unfold config.CALLBACK_RETRY_ATTEMPTS in e. lia.
Qed.


Record PendingTransaction : Type := mkPendingTransaction {
  ptx_type : string;
  ptx_payload : Payload;
  ptx_transactionId : option string
}.

(** The [pendingTransactions] map of the service, keyed by request id. *)
Definition Pending : Type := JSMap.t PendingTransaction.

(** What [placeBet], [creditWin] and [rollback] resolve to. *)
Record CallbackResult : Type := mkCallbackResult {
  cb_success : bool;
  cb_transactionId : option string;
  cb_newBalance : option num;
  cb_code : option string;
  cb_message : option string;
  cb_requestId : string
}.

Definition option_string_eqb (a b : option string) : bool :=
  match a, b with
  | Some x, Some y => String.eqb x y
  | None, None => true
  | _, _ => false
  end.

Fixpoint clearPendingTransaction (transactionId : option string) (pending : Pending)
    : Pending :=
  match pending with
  | [] => []
  | (requestId, tx) :: rest =>
      if option_string_eqb (ptx_transactionId tx) transactionId then rest
      else (requestId, tx) :: clearPendingTransaction transactionId rest
  end.

Definition callback_failed (message requestId : string) : CallbackResult :=
  mkCallbackResult false None None (Some "CALLBACK_FAILED") (Some message) requestId.

Definition rejected (b : Body) (requestId : string) : CallbackResult :=
  mkCallbackResult false None None (body_code b) (body_message b) requestId.

Definition placeBet (callbackBaseUrl roundId playerId sessionId : string) (amount : num)
    (currency : string) (pending : Pending) (w : World)
    : CallbackResult * Pending * World :=
  let url := callbackBaseUrl ++ "/bet" in
  let requestId := "BET-" ++ roundId ++ "-" ++ playerId ++ "-" ++ show_Z (clock w) in
  let payload :=
    BetPayload requestId roundId playerId sessionId amount currency (clock w) in
  match makeRequest url payload 1 w with
  | (Return (JsonObject response), w1) =>
      match body_transactionId response with
      | Some transactionId =>
          (mkCallbackResult true (Some transactionId) (body_newBalance response)
             None None requestId,
           JSMap.set requestId (mkPendingTransaction "bet" payload (Some transactionId))
             pending,
           w1)
      | None => (rejected response requestId, pending, w1)
      end
  | (Return JsonNull, w1) =>
      (callback_failed "Cannot read properties of null (reading 'transactionId')" requestId,
       pending, w1)
  | (Throw message, w1) => (callback_failed message requestId, pending, w1)
  end.

Definition creditWin (callbackBaseUrl roundId playerId sessionId : string)
    (betAmount multiplier winAmount : num) (currency : string)
    (betTransactionId : option string) (pending : Pending) (w : World)
    : CallbackResult * Pending * World :=
  let url := callbackBaseUrl ++ "/win" in
  let requestId := "WIN-" ++ roundId ++ "-" ++ playerId ++ "-" ++ show_Z (clock w) in
  let payload :=
    WinPayload requestId roundId playerId sessionId betAmount multiplier winAmount
      currency betTransactionId (clock w) in
  match makeRequest url payload 1 w with
  | (Return (JsonObject response), w1) =>
      match body_transactionId response with
      | Some transactionId =>
          (mkCallbackResult true (Some transactionId) (body_newBalance response)
             None None requestId,
           clearPendingTransaction betTransactionId pending,
           w1)
      | None => (rejected response requestId, pending, w1)
      end
  | (Return JsonNull, w1) =>
      (callback_failed "Cannot read properties of null (reading 'transactionId')" requestId,
       pending, w1)
  | (Throw message, w1) => (callback_failed message requestId, pending, w1)
  end.

Definition rollback (callbackBaseUrl roundId playerId sessionId : string) (amount : num)
    (currency : string) (originalTransactionId : option string) (reason : string)
    (pending : Pending) (w : World)
    : CallbackResult * Pending * World :=
  let url := callbackBaseUrl ++ "/rollback" in
  let requestId := "ROLLBACK-" ++ roundId ++ "-" ++ playerId ++ "-" ++ show_Z (clock w) in
  let payload :=
    RollbackPayload requestId roundId playerId sessionId amount currency
      originalTransactionId reason (clock w) in
  match makeRequest url payload 1 w with
  | (Return (JsonObject response), w1) =>
      if option_string_eqb (body_status response) (Some "OK") then
        (mkCallbackResult true (body_transactionId response) (body_newBalance response)
           None None requestId,
         clearPendingTransaction originalTransactionId pending,
         w1)
      else (rejected response requestId, pending, w1)
  | (Return JsonNull, w1) =>
      (callback_failed "Cannot read properties of null (reading 'status')" requestId,
       pending, w1)
  | (Throw message, w1) => (callback_failed message requestId, pending, w1)
  end.

(** What [getBalance] resolves to: the response itself, on which it has
    set [success] to [true], or the failure object. *)
Inductive BalanceResult : Type :=
| BalanceResponse (response : Body)
| BalanceFailed (code message : string).

Definition getBalance (callbackBaseUrl playerId sessionId : string) (w : World)
    : BalanceResult * World :=
  let url := callbackBaseUrl ++ "/balance" in
  let payload := BalancePayload playerId sessionId (clock w) in
  match makeRequest url payload 1 w with
  | (Return (JsonObject response), w1) => (BalanceResponse response, w1)
  | (Return JsonNull, w1) =>
      (BalanceFailed "CALLBACK_FAILED" "Cannot set properties of null (setting 'success')",
       w1)
  | (Throw message, w1) => (BalanceFailed "CALLBACK_FAILED" message, w1)
  end.

(** [Array.from(this.pendingTransactions.values())]. *)
Definition getPendingTransactions (pending : Pending) : list PendingTransaction :=
  List.map snd pending.

End CallbackService.
End callbackService.

(** ** backend/services/betService.js *)

Module betService.
Section BetService.
Context {N : JSNumber} {H : Hmac} {S : Seeds} {SS : Sessions}.
Import crashEngine.

(** An entry of [activeBets]. *)
Record ActiveBet : Type := mkActiveBet {
  ab_bet : Bet;
  ab_transactionId : option string;
  ab_roundId : string;
  ab_callbackBaseUrl : string;
  ab_currency : string
}.

(** The singletons every task of the event loop works on: the engine,
    the callback service's [pendingTransactions], the bet service's
    [activeBets] and the session store. *)
Record Shared : Type := mkShared {
  engine : CrashEngine;
  pending : callbackService.Pending;
  activeBets : JSMap.t ActiveBet;
  sessions : SessionService
}.

Definition set_engine (e : CrashEngine) (s : Shared) : Shared :=
  mkShared e (pending s) (activeBets s) (sessions s).
Definition set_pending (p : callbackService.Pending) (s : Shared) : Shared :=
  mkShared (engine s) p (activeBets s) (sessions s).
Definition set_activeBets (a : JSMap.t ActiveBet) (s : Shared) : Shared :=
  mkShared (engine s) (pending s) a (sessions s).
Definition set_sessions (x : SessionService) (s : Shared) : Shared :=
  mkShared (engine s) (pending s) (activeBets s) x.

(** What the other tasks of the event loop (ticks, other players'
    requests) do to the singletons while an [async] method is suspended
    in an [await]; it is applied when the awaited call has resolved. *)
Definition Others : Type := Shared -> Shared.

(** An [async] method: the singletons and the outside before, the
    value it resolves to or the error it rejects with, and both after. *)
Definition Task (A : Type) : Type :=
  Shared -> callbackService.World -> result A * Shared * callbackService.World.

Record BetReceipt : Type := mkBetReceipt {
  receipt_amount : num;
  receipt_roundId : string;
  receipt_transactionId : option string;
  receipt_newBalance : option num
}.

Definition placeBet (sessionId : string) (amount : option num)
    (during_debit during_rollback : Others) : Task BetReceipt := fun s w =>
  match validateSession sessionId (sessions s) with
  | Throw err => (Throw err, s, w)
  | Return session =>
      let playerId := session_playerId session in
      let currency := session_currency session in
      let callbackBaseUrl := session_callbackBaseUrl session in
      match amount with
      | None => (Throw "Invalid bet amount", s, w)
      | Some amount =>
          if isNaN amount then (Throw "Invalid bet amount", s, w)
          else if (amount <? of_Z config.GAME_MIN_BET)%num then
            (Throw ("Minimum bet is " ++ show_Z config.GAME_MIN_BET), s, w)
          else if (amount >? of_Z config.GAME_MAX_BET)%num then
            (Throw ("Maximum bet is " ++ show_Z config.GAME_MAX_BET), s, w)
          else
            match getPlayerBet playerId (engine s) with
            | Some _ => (Throw "Already placed a bet this round", s, w)
            | None =>
                match getCurrentRound (engine s) with
                | None => (Throw "No active round", s, w)
                | Some round =>
                    if negb (Status_eqb (rs_status round) betting) then
                      (Throw "Betting phase has ended", s, w)
                    else
                      let roundedAmount := (Math_round (amount * of_Z 100) / of_Z 100)%num in
                      let '(callbackResult, pending1, w1) :=
                        callbackService.placeBet callbackBaseUrl (rs_id round) playerId
                          sessionId roundedAmount currency (pending s) w in
                      let s1 := during_debit (set_pending pending1 s) in
                      if negb (callbackService.cb_success callbackResult) then
                        (Throw
                           (callbackService.or_else
                              (callbackService.or_else_opt
                                 (callbackService.cb_message callbackResult)
                                 (callbackService.cb_code callbackResult))
                              "Bet rejected by platform"),
                         s1, w1)
                      else
                        match
                          addBet playerId roundedAmount sessionId (callbackService.clock w1)
                            (engine s1)
                        with
                        | (Return bet, e2) =>
                            let s2 := set_engine e2 s1 in
                            let s3 :=
                              set_activeBets
                                (JSMap.set playerId
                                   (mkActiveBet bet
                                      (callbackService.cb_transactionId callbackResult)
                                      (rs_id round) callbackBaseUrl currency)
                                   (activeBets s2)) s2 in
                            let s4 :=
                              set_sessions
                                (updateBalance sessionId
                                   (callbackService.cb_newBalance callbackResult)
                                   (sessions s3)) s3 in
                            (Return
                               (mkBetReceipt roundedAmount (rs_id round)
                                  (callbackService.cb_transactionId callbackResult)
                                  (callbackService.cb_newBalance callbackResult)),
                             s4, w1)
                        | (Throw error, e2) =>
                            let s2 := set_engine e2 s1 in
                            let '(_, pending3, w3) :=
                              callbackService.rollback callbackBaseUrl (rs_id round) playerId
                                sessionId roundedAmount currency
                                (callbackService.cb_transactionId callbackResult)
                                "REGISTRATION_FAILED" (pending s2) w1 in
                            (Throw error, during_rollback (set_pending pending3 s2), w3)
                        end
                end
            end
      end
  end.

(** The [cashout] object of the resolved value of [processCashout]. *)
Record CashoutDetail : Type := mkCashoutDetail {
  cd_betAmount : num;
  cd_multiplier : num;
  cd_winAmount : num;
  cd_roundId : string;
  cd_transactionId : option string
}.

(** The resolved value of [processCashout]: [success: true] with the
    new balance, or [success: false] with the error of the credit call;
    both carry the cashout. *)
Record CashoutReport : Type := mkCashoutReport {
  report_success : bool;
  report_error : option string;
  report_cashout : CashoutDetail;
  report_newBalance : option num
}.

Definition processCashout (sessionId : string) (during_credit : Others)
    : Task CashoutReport := fun s w =>
  match validateSession sessionId (sessions s) with
  | Throw err => (Throw err, s, w)
  | Return session =>
      let playerId := session_playerId session in
      let currency := session_currency session in
      let callbackBaseUrl := session_callbackBaseUrl session in
      match JSMap.get playerId (activeBets s) with
      | None => (Throw "No active bet found", s, w)
      | Some activeBet =>
          if hasPlayerCashedOut playerId (engine s) then (Throw "Already cashed out", s, w)
          else
            match getCurrentRound (engine s) with
            | None => (Throw "Round is not running", s, w)
            | Some round =>
                if negb (Status_eqb (rs_status round) running) then
                  (Throw "Round is not running", s, w)
                else
                  match cashout playerId (callbackService.clock w) (engine s) with
                  | (Throw message, e1) => (Throw message, set_engine e1 s, w)
                  | (Return cashoutData, e1) =>
                      let '(callbackResult, pending1, w1) :=
                        callbackService.creditWin callbackBaseUrl (rs_id round) playerId
                          sessionId (co_betAmount cashoutData) (co_multiplier cashoutData)
                          (co_winAmount cashoutData) currency (ab_transactionId activeBet)
                          (pending s) w in
                      let s1 := during_credit (set_pending pending1 (set_engine e1 s)) in
                      if negb (callbackService.cb_success callbackResult) then
                        (Return
                           (mkCashoutReport false
                              (callbackService.or_else_opt
                                 (callbackService.cb_message callbackResult)
                                 (callbackService.cb_code callbackResult))
                              (mkCashoutDetail (co_betAmount cashoutData)
                                 (co_multiplier cashoutData) (co_winAmount cashoutData)
                                 (rs_id round) None)
                              None),
                         s1, w1)
                      else
                        let s2 :=
                          set_sessions
                            (updateBalance sessionId
                               (callbackService.cb_newBalance callbackResult) (sessions s1))
                            s1 in
                        let s3 := set_activeBets (JSMap.delete playerId (activeBets s2)) s2 in
                        (Return
                           (mkCashoutReport true None
                              (mkCashoutDetail (co_betAmount cashoutData)
                                 (co_multiplier cashoutData) (co_winAmount cashoutData)
                                 (rs_id round)
                                 (callbackService.cb_transactionId callbackResult))
                              (callbackService.cb_newBalance callbackResult)),
                         s3, w1)
                  end
            end
      end
  end.

(** [handleRoundCrash]: the losers' entries leave [activeBets]. *)
Fixpoint handleRoundCrash (losers : list Loser) (active : JSMap.t ActiveBet)
    : JSMap.t ActiveBet :=
  match losers with
  | [] => active
  | loser :: rest =>
      handleRoundCrash rest
        (if JSMap.has (loser_playerId loser) active
         then JSMap.delete (loser_playerId loser) active
         else active)
  end.

Definition getActiveBet (playerId : string) (s : Shared) : option ActiveBet :=
  JSMap.get playerId (activeBets s).

Definition hasActiveBet (playerId : string) (s : Shared) : bool :=
  JSMap.has playerId (activeBets s).

Definition clearAllBets (s : Shared) : Shared :=
  set_activeBets JSMap.empty s.

End BetService.
End betService.

(** ** backend/services/roundService.js

    The methods that drive a round: [stop], [startNewRound],
    [startRoundExecution], [processTick], [handleCrash] and the getters.
    [start], [setNamespaces], [setupEngineListeners] and [broadcast] only
    wire the service to the sockets and are left out; the events of the
    engine are those of its [emitted] log. *)

Module roundService.
Section RoundService.
Context {N : JSNumber} {H : Hmac} {S : Seeds} {SS : Sessions} {SK : SessionSockets}.
Import crashEngine.

(** The methods the service hands to [setTimeout] and [setInterval]. *)
Inductive Callback : Type :=
| cb_startRoundExecution
| cb_startNewRound
| cb_processTick.

(** What the service asks of the host's timers and of the controls
    namespace. [ClearInterval None] is [clearInterval(null)]. *)
Inductive Effect : Type :=
| SetTimeout (callback : Callback) (ms : Z)
| SetInterval (callback : Callback) (ms : Z) (handle : nat)
| ClearInterval (handle : option nat)
| Emit_bet_lost (socketId roundId : string) (crashPoint betAmount : num).

(** The fields of the service; a namespace is [true] once it is set. *)
Record RoundService : Type := mkRoundService {
  tickInterval : option nat;
  isRunning : bool;
  gameNamespace : bool;
  controlsNamespace : bool
}.

Definition constructor : RoundService := mkRoundService None false false false.

(** The service, the singletons it works on, what it has asked of the host
    so far (oldest first) and the number of interval handles the host has
    given out. *)
Record State : Type := mkState {
  service : RoundService;
  shared : betService.Shared;
  effects : list Effect;
  handles : nat
}.

Definition set_tickInterval (t : option nat) (st : State) : State :=
  mkState
    (mkRoundService t (isRunning (service st)) (gameNamespace (service st))
       (controlsNamespace (service st)))
    (shared st) (effects st) (handles st).
Definition set_isRunning (b : bool) (st : State) : State :=
  mkState
    (mkRoundService (tickInterval (service st)) b (gameNamespace (service st))
       (controlsNamespace (service st)))
    (shared st) (effects st) (handles st).
Definition set_shared (s : betService.Shared) (st : State) : State :=
  mkState (service st) s (effects st) (handles st).
Definition set_engine (e : CrashEngine) (st : State) : State :=
  set_shared (betService.set_engine e (shared st)) st.
Definition perform (x : Effect) (st : State) : State :=
  mkState (service st) (shared st) (effects st ++ [x]) (handles st).

(** [setInterval]: the host gives out a fresh handle. *)
Definition setInterval (callback : Callback) (ms : Z) (st : State) : nat * State :=
  (handles st,
   mkState (service st) (shared st) (effects st ++ [SetInterval callback ms (handles st)])
     (Datatypes.S (handles st))).

(** A method of the service; an [async] method that throws rejects. *)
Definition Step : Type := State -> result unit * State.

Definition stop : Step := fun st =>
  let st1 := set_isRunning false st in
  match tickInterval (service st1) with
  | Some handle =>
      (Return tt, set_tickInterval None (perform (ClearInterval (Some handle)) st1))
  | None => (Return tt, st1)
  end.

Definition startNewRound (now : Z) : Step := fun st =>
  if negb (isRunning (service st)) then (Return tt, st)
  else
    match generateRound now (betService.engine (shared st)) with
    | (Throw err, e1) => (Throw err, set_engine e1 st)
    | (Return _, e1) =>
        match startBettingPhase now e1 with
        | (Throw err, e2) => (Throw err, set_engine e2 st)
        | (Return _, e2) =>
            (Return tt,
             perform (SetTimeout cb_startRoundExecution config.GAME_BETTING_PHASE_MS)
               (set_engine e2 st))
        end
    end.

Definition startRoundExecution (now : Z) : Step := fun st =>
  if negb (isRunning (service st)) then (Return tt, st)
  else
    match getCurrentRound (betService.engine (shared st)) with
    | None => (Return tt, st)
    | Some round =>
        if negb (Status_eqb (rs_status round) betting) then (Return tt, st)
        else
          match startRound now (betService.engine (shared st)) with
          | (Throw err, e1) => (Throw err, set_engine e1 st)
          | (Return _, e1) =>
              let (handle, st1) :=
                setInterval cb_processTick config.GAME_TICK_INTERVAL_MS (set_engine e1 st) in
              (Return tt, set_tickInterval (Some handle) st1)
          end
    end.

(** The loop of [handleCrash] over the losers: a [bet_lost] for each one
    whose session has a controls socket. *)
Fixpoint notify_losers (roundId : string) (crashPoint : num) (losers : list Loser)
    (st : State) : State :=
  match losers with
  | [] => st
  | loser :: rest =>
      let st1 :=
        match
          getSessionByPlayerId (loser_playerId loser) (betService.sessions (shared st))
        with
        | Some (Some socketId) =>
            if String.eqb socketId "" then st
            else
              perform
                (Emit_bet_lost socketId roundId crashPoint (bet_amount (loser_bet loser)))
                st
        | _ => st
        end in
      notify_losers roundId crashPoint rest st1
  end.

(** [during_cleanup] is what the other tasks do while [handleCrash] awaits
    [betService.handleRoundCrash]. *)
Definition handleCrash (crashResult : CrashResult) (during_cleanup : betService.Others)
    : Step := fun st =>
  let st1 :=
    match tickInterval (service st) with
    | Some handle => set_tickInterval None (perform (ClearInterval (Some handle)) st)
    | None => st
    end in
  let round := cr_round crashResult in
  let losers := cr_losers crashResult in
  let s2 :=
    betService.set_activeBets
      (betService.handleRoundCrash losers (betService.activeBets (shared st1)))
      (shared st1) in
  let st2 := set_shared (during_cleanup s2) st1 in
  let st3 :=
    if controlsNamespace (service st2)
    then notify_losers (id round) (crashPoint round) losers st2
    else st2 in
  (Return tt, perform (SetTimeout cb_startNewRound config.GAME_ROUND_DELAY_MS) st3).

(** The properties of the value of [tick] that [processTick] reads:
    [result.crashed] ([None] when the value has no such property) and
    [result.round]. *)
Definition result_crashed (result : TickResult) : option bool :=
  match result with
  | TickMultiplier _ => Some false
  | _ => None
  end.

Definition result_round (result : TickResult) : option Round :=
  match result with
  | TickCrashed c => Some (cr_round c)
  | _ => None
  end.

Definition processTick (now crashNow : Z) (during_cleanup : betService.Others) : Step :=
  fun st =>
  if negb (isRunning (service st)) then
    (Return tt, perform (ClearInterval (tickInterval (service st))) st)
  else
    match tick now crashNow (betService.engine (shared st)) with
    | (Throw err, e1) => (Throw err, set_engine e1 st)
    | (Return result, e1) =>
        let st1 := set_engine e1 st in
        if match result with TickNull => false | _ => true end
           && has_value (result_crashed result)
           && negb (has_value (result_crashed result))
        then (Return tt, st1)
        else
          match result with
          | TickCrashed c =>
              if Status_eqb (status (cr_round c)) crashed
              then handleCrash c during_cleanup st1
              else (Return tt, st1)
          | _ => (Return tt, st1)
          end
    end.

(** A timer of the host fires. *)
Definition fire (callback : Callback) (now crashNow : Z) (during_cleanup : betService.Others)
    : Step :=
  match callback with
  | cb_startRoundExecution => startRoundExecution now
  | cb_startNewRound => startNewRound now
  | cb_processTick => processTick now crashNow during_cleanup
  end.

(** The timers fire one after the other; a rejection of one does not stop
    the others. *)
Fixpoint fire_all (fired : list (Callback * Z * Z * betService.Others)) (st : State) : State :=
  match fired with
  | [] => st
  | (callback, now, crashNow, others) :: rest =>
      fire_all rest (snd (fire callback now crashNow others st))
  end.

Definition getCurrentRoundState (e : CrashEngine) : option RoundState :=
  getCurrentRound e.

(** [getHistory(limit = 20)]. *)
Definition getHistory (limit : option Z) (e : CrashEngine) : list HistoryEntry :=
  crashEngine.getHistory (Some (match limit with Some l => l | None => 20 end)) e.

(** [round && round.status === 'betting']: [None] is the [null] that the
    expression gives when there is no round. *)
Definition isInBettingPhase (e : CrashEngine) : option bool :=
  match getCurrentRound e with
  | None => None
  | Some round => Some (Status_eqb (rs_status round) betting)
  end.

Definition isRoundRunning (e : CrashEngine) : option bool :=
  match getCurrentRound e with
  | None => None
  | Some round => Some (Status_eqb (rs_status round) running)
  end.

End RoundService.
End roundService.

(** ** backend/ws/gameNamespace.js: [sendCurrentState] *)

Module gameNamespace.
Section GameNamespace.
Context {N : JSNumber} {S : Seeds}.
Import crashEngine.

(** A number made of time stamps and config constants: an integer or
    NaN. *)
Inductive Time : Type :=
| NaN
| Finite (ms : Z).

(** The number a property that may be absent converts to: [undefined]
    gives NaN. *)
Definition to_number (v : option Z) : Time :=
  match v with
  | Some z => Finite z
  | None => NaN
  end.

Definition sub (a b : Time) : Time :=
  match a, b with
  | Finite x, Finite y => Finite (x - y)
  | _, _ => NaN
  end.

Definition Math_max (a b : Time) : Time :=
  match a, b with
  | Finite x, Finite y => Finite (Z.max x y)
  | _, _ => NaN
  end.

(** The two properties [sendCurrentState] reads that the snapshot of
    [getCurrentRound] does not have. *)
Definition bettingPhaseStartTime (round : RoundState) : option Z := None.

Definition round_crashPoint (round : RoundState) : option num := None.

(** What [socket.emit] is called with. *)
Inductive SocketEvent : Type :=
| emit_waiting (message : string)
| emit_betting_phase (roundId serverSeedHash clientSeed : string) (nonce : Z)
    (duration : Time)
| emit_round_running (roundId serverSeedHash : string) (currentMultiplier : num)
    (startTime : option Z)
| emit_round_crashed (roundId : string) (crashPoint : option num).

Definition sendCurrentState (now : Z) (e : CrashEngine) : SocketEvent :=
  match roundService.getCurrentRoundState e with
  | None => emit_waiting "Waiting for next round..."
  | Some round =>
      match rs_status round with
      | betting =>
          let elapsed := sub (Finite now) (to_number (bettingPhaseStartTime round)) in
          let remaining :=
            Math_max (Finite 0) (sub (Finite config.GAME_BETTING_PHASE_MS) elapsed) in
          emit_betting_phase (rs_id round) (rs_serverSeedHash round) (rs_clientSeed round)
            (rs_nonce round) remaining
      | running =>
          emit_round_running (rs_id round) (rs_serverSeedHash round)
            (rs_currentMultiplier round) (rs_startTime round)
      | crashed => emit_round_crashed (rs_id round) (round_crashPoint round)
      | pending => emit_waiting "Waiting for next round..."
      end
  end.

End GameNamespace.
End gameNamespace.

(** ** backend/server.js: the routes that read the engine *)

Module server.
Section Server.
Context {N : JSNumber} {H : Hmac} {S : Seeds}.
Import crashEngine.

(** POST /crash/provably-fair/verify answers 200 with the crash point and
    the hash of the seed, or 400 with the message of the error. *)
Inductive VerifyResponse : Type :=
| verify_valid (crashPoint : num) (serverSeedHash : string)
| verify_invalid (error : string).

Definition provably_fair_verify (serverSeed clientSeed : string) (nonce : Z)
    : VerifyResponse :=
  match calculateCrashPoint serverSeed clientSeed nonce with
  | Return crashPoint => verify_valid crashPoint (sha256 serverSeed)
  | Throw message => verify_invalid message
  end.

(** An element of [recentRounds] in the answer of GET /crash/provably-fair. *)
Record RecentRound : Type := mkRecentRound {
  rr_roundId : string;
  rr_crashPoint : num;
  rr_serverSeed : string;
  rr_serverSeedHash : string;
  rr_clientSeed : string;
  rr_nonce : Z
}.

Definition provably_fair_recentRounds (e : CrashEngine) : list RecentRound :=
  List.map
    (fun r =>
       mkRecentRound (h_id r) (h_crashPoint r) (h_serverSeed r) (h_serverSeedHash r)
         (h_clientSeed r) (h_nonce r))
    (roundService.getHistory (Some 10) e).

(** GET /crash/game/history: the limit is [parseInt(req.query.limit) || 50],
    where [parsed] is [None] when [parseInt] gives NaN. *)
Definition game_history (parsed : option Z) (e : CrashEngine) : list HistoryEntry :=
  let limit :=
    match parsed with
    | Some l => if l =? 0 then 50 else l
    | None => 50
    end in
  roundService.getHistory (Some limit) e.

End Server.
End server.

(** ** Stand-ins for the collaborators, to run the model on concrete inputs *)

Module Sample.

#[export] Instance number : JSNumber := Binary64.sample.

(** Not a hash: the "digest" is the key followed by the message, cut or
    padded with zero bytes to 32 bytes. *)
Definition bytes_of_string (s : string) : list byte :=
  List.map byte_of_ascii (list_ascii_of_string s).

Definition hmac_for (N : JSNumber) : Hmac :=
  {| hmacSha256Buffer := fun key message =>
       firstn 32 (bytes_of_string (key ++ message) ++ repeat x00 32);
     sha256 := fun s => "sha256:" ++ s;
     generateCallbackSignature := fun _ _ => "signature" |}.

#[export] Instance hmac : Hmac := hmac_for number.

(** A seed manager whose state is the nonce; every server seed is the
    text given at construction, followed by the nonce. *)
Definition seeds_of (prefix : string) : Seeds :=
  {| SeedManager := Z;
     getCurrentServerSeed := fun n => prefix ++ show_Z n;
     getClientSeed := fun _ => "client-seed";
     getNonce := fun n => n;
     advanceToNextSeed := fun n => n + 1 |}.

#[export] Instance seeds : Seeds := seeds_of "zeta".

(** A session store with the sessions of two players. *)
#[export] Instance sessions : Sessions :=
  {| SessionService := unit;
     validateSession := fun sessionId _ =>
       if String.eqb sessionId "SESSION-alice" then
         Return (mkSession "alice" "EUR" "https://platform.example/game-callbacks")
       else if String.eqb sessionId "SESSION-bob" then
         Return (mkSession "bob" "EUR" "https://platform.example/game-callbacks")
       else Throw "Invalid or expired session";
     updateBalance := fun _ _ store => store |}.

End Sample.

(** ** The formulas of the specification *)

Module Spec.
Section Spec.
Context {N : JSNumber}.

(** Bytes read as one big-endian integer. *)
Definition big_endian (bytes : list byte) : Z :=
  fold_left (fun acc b => acc * 256 + Z.of_N (Byte.to_N b)) bytes 0.

(** "raw = (first 6 bytes of the digest read big-endian) / 2^48". *)
Definition raw (digest : list byte) : num :=
  (of_Z (big_endian (firstn 6 digest)) / of_Z (2 ^ 48))%num.

(** "exactly 1.00 when raw < 0.01, and otherwise
    floor((0.99 / (1 - raw)) x 100) / 100 capped at the ceiling". *)
Definition crashPoint (raw : num) : num :=
  if (raw <? dec 1 100)%num then of_Z 1
  else
    Math_min (Math_floor (dec 99 100 / (of_Z 1 - raw) * of_Z 100) / of_Z 100)%num
      (of_Z config.GAME_MAX_MULTIPLIER).

(** The same quotient in exact arithmetic, in hundredths, for the reading
    [h] of the six bytes with raw >= 0.01: floor(0.99 / (1 - h / 2^48) * 100)
    = floor(99 * 2^48 / (2^48 - h)). *)
Definition exact_hundredths (h : Z) : Z := (99 * 2 ^ 48) / (2 ^ 48 - h).

(** The crash point in hundredths, in integer arithmetic, for the reading
    [h] of the six bytes: 100 when h / 2^48 < 1/100, and otherwise
    floor(99 * 2^48 / (2^48 - h)) capped at 100 * MAX_MULTIPLIER. *)
Definition hundredths (h : Z) : Z :=
  if 100 * h <? 2 ^ 48 then 100
  else Z.min (Spec.exact_hundredths h) (100 * config.GAME_MAX_MULTIPLIER).

(** "winAmount = floor(betAmount x multiplier x 100) / 100". *)
Definition winAmount (betAmount multiplier : num) : num :=
  (Math_floor (betAmount * multiplier * of_Z 100) / of_Z 100)%num.

End Spec.

Section RetryPolicy.
Context {N : JSNumber} {H : Hmac}.
Import callbackService.

(** An attempt fails when [fetch] rejects, when the body is not JSON, or
    when the status is not 2xx. *)
Definition attempt_failed (outcome : FetchOutcome) : bool :=
  match outcome with
  | Rejected _ => true
  | Response ok _ (Throw _) => true
  | Response ok _ (Return _) => negb ok
  end.

(** The request of an attempt made when the clock reads [now]. *)
Definition request_for (url : string) (payload : Payload) (now : Z) : Request :=
  {| req_url := url;
     req_signature := generateCallbackSignature config.PROVIDER_SECRET payload;
     req_requestId := or_else (payload_requestId payload) ("REQ-" ++ show_Z now);
     req_body := payload;
     req_timeout := config.CALLBACK_TIMEOUT_MS |}.

(** "Fixed number of attempts, linearly increasing backoff": [n] attempts
    from attempt number [attempt] on, with a pause of RETRY_DELAY_MS times
    the attempt number after each attempt but the last. *)
Fixpoint retry_io (url : string) (payload : Payload) (attempt : Z) (n : nat) (now : Z)
    : list IO :=
  match n with
  | O => []
  | Datatypes.S O => [Fetched (request_for url payload now)]
  | Datatypes.S k =>
      Fetched (request_for url payload now)
      :: Delayed (config.CALLBACK_RETRY_DELAY_MS * attempt)
      :: retry_io url payload (attempt + 1) k
           (now + config.CALLBACK_RETRY_DELAY_MS * attempt)
  end.

Definition is_rollback_request (x : IO) : bool :=
  match x with
  | Fetched request =>
      match req_body request with
      | RollbackPayload _ _ _ _ _ _ _ _ _ => true
      | _ => false
      end
  | Delayed _ => false
  end.

End RetryPolicy.
End Spec.

(** ** The calls made on the engine while one round is current *)

Module Lifetime.
Section Lifetime.
Context {N : JSNumber} {H : Hmac} {S : Seeds}.
Import crashEngine.

(** A call of a method of the engine with its arguments and with the
    readings of [Date.now()] it takes. [generateRound] is left out: it
    replaces the round. *)
Inductive Call : Type :=
| CallStartBettingPhase (now : Z)
| CallStartRound (now : Z)
| CallTick (now crashNow : Z)
| CallCrash (now : Z)
| CallAddBet (playerId : string) (amount : num) (sessionId : string) (now : Z)
| CallCashout (playerId : string) (now : Z).

(** What the call returned or threw. *)
Inductive Returned : Type :=
| FromStart (r : result Round)
| FromTick (r : result TickResult)
| FromCrash (r : result (option CrashResult))
| FromAddBet (playerId : string) (r : result Bet)
| FromCashout (playerId : string) (r : result Cashout).

Definition call (c : Call) (e : CrashEngine) : Returned * CrashEngine :=
  match c with
  | CallStartBettingPhase now => let (r, e1) := startBettingPhase now e in (FromStart r, e1)
  | CallStartRound now => let (r, e1) := startRound now e in (FromStart r, e1)
  | CallTick now crashNow => let (r, e1) := tick now crashNow e in (FromTick r, e1)
  | CallCrash now => let (r, e1) := crash now e in (FromCrash r, e1)
  | CallAddBet playerId amount sessionId now =>
      let (r, e1) := addBet playerId amount sessionId now e in (FromAddBet playerId r, e1)
  | CallCashout playerId now =>
      let (r, e1) := cashout playerId now e in (FromCashout playerId r, e1)
  end.

(** The calls are made one after the other for as long as the engine has a
    current round; the run ends with the crash of the round. *)
Fixpoint run_round (calls : list Call) (e : CrashEngine) : list Returned * CrashEngine :=
  match calls with
  | [] => ([], e)
  | c :: rest =>
      match currentRound e with
      | None => ([], e)
      | Some _ =>
          let (out, e1) := call c e in
          let (outs, e2) := run_round rest e1 in
          (out :: outs, e2)
      end
  end.

(** The crash summary a call returned, if it crashed the round. *)
Definition crash_of (out : Returned) : option CrashResult :=
  match out with
  | FromTick (Return (TickCrashed c)) => Some c
  | FromCrash (Return (Some c)) => Some c
  | _ => None
  end.

(** What is fixed when the round is generated. *)
Definition commitment (r : Round) : string * string * string * string * Z * num :=
  (id r, serverSeed r, serverSeedHash r, clientSeed r, nonce r, crashPoint r).

(** A round keeps what it had: its commitment, its bets, its cashouts. *)
Definition keeps (r r' : Round) : Prop :=
  commitment r' = commitment r
  /\ (forall p b, JSMap.get p (bets r) = Some b -> JSMap.get p (bets r') = Some b)
  /\ (forall p x, JSMap.get p (cashedOut r) = Some x -> JSMap.get p (cashedOut r') = Some x).

(** The event carries the seed hash, and at the crash the seed, of the
    round. *)
Definition event_commits (r : Round) (ev : Event) : Prop :=
  match ev with
  | betting_phase _ hash _ _ _ => hash = serverSeedHash r
  | round_start _ hash _ => hash = serverSeedHash r
  | round_tick _ _ _ => True
  | round_crash v => v_serverSeed v = serverSeed r /\ v_serverSeedHash v = serverSeedHash r
  end.

Definition tick_crashed (r : result TickResult) : bool :=
  match r with Return (TickCrashed _) => true | _ => false end.

Definition accepted_bet (playerId : string) (out : Returned) : bool :=
  match out with
  | FromAddBet p (Return _) => String.eqb p playerId
  | _ => false
  end.

Definition accepted_cashout (playerId : string) (out : Returned) : bool :=
  match out with
  | FromCashout p (Return _) => String.eqb p playerId
  | _ => false
  end.

Definition count {A} (f : A -> bool) (l : list A) : nat := List.length (filter f l).

End Lifetime.
End Lifetime.

(** ** Every call on the engine, from its construction *)

Module Trace.
Section Trace.
Context {N : JSNumber} {H : Hmac} {S : Seeds}.
Import crashEngine Lifetime.

(** A call of [generateRound], or of one of the other methods. *)
Inductive Op : Type :=
| Generate (now : Z)
| Method (c : Call).

Definition apply (op : Op) (e : CrashEngine) : Returned * CrashEngine :=
  match op with
  | Generate now => let (r, e1) := generateRound now e in (FromStart r, e1)
  | Method c => call c e
  end.

(** The calls are made one after the other, whatever they return. *)
Fixpoint run (ops : list Op) (e : CrashEngine) : list Returned * CrashEngine :=
  match ops with
  | [] => ([], e)
  | op :: rest =>
      let (out, e1) := apply op e in
      let (outs, e2) := run rest e1 in
      (out :: outs, e2)
  end.

(** What holds of the current round of an engine whose seed manager is
    [sm]: it has not crashed, it was generated from the current seeds, its
    hash and crash point are those of its seeds, no player has two bets or
    two cashouts, and every cashout is the cashout of a bet. *)
Definition round_ok (sm : SeedManager) (r : Round) : Prop :=
  status r <> crashed
  /\ serverSeed r = getCurrentServerSeed sm
  /\ clientSeed r = getClientSeed sm
  /\ nonce r = getNonce sm
  /\ serverSeedHash r = sha256 (serverSeed r)
  /\ calculateCrashPoint (serverSeed r) (clientSeed r) (nonce r) = Return (crashPoint r)
  /\ NoDup (List.map fst (bets r))
  /\ NoDup (List.map fst (cashedOut r))
  /\ (forall p c, JSMap.get p (cashedOut r) = Some c ->
        exists b, JSMap.get p (bets r) = Some b
                  /\ co_playerId c = p /\ co_betAmount c = bet_amount b)
  /\ (forall p b, JSMap.get p (bets r) = Some b -> bet_playerId b = p).

(** What holds of an entry of the history: its hash and crash point are
    those of its seeds, and it has an end time. *)
Definition entry_ok (entry : HistoryEntry) : Prop :=
  h_serverSeedHash entry = sha256 (h_serverSeed entry)
  /\ calculateCrashPoint (h_serverSeed entry) (h_clientSeed entry) (h_nonce entry)
     = Return (h_crashPoint entry)
  /\ h_endTime entry <> None.

Definition engine_ok (e : CrashEngine) : Prop :=
  match currentRound e with
  | Some r => round_ok (seedManager e) r
  | None => True
  end
  /\ (List.length (roundHistory e) <= 50)%nat
  /\ Forall entry_ok (roundHistory e).

(** What holds of the summary of a crash. *)
Definition crash_ok (c : CrashResult) : Prop :=
  status (cr_round c) = crashed
  /\ v_serverSeedHash (cr_verification c) = sha256 (v_serverSeed (cr_verification c))
  /\ calculateCrashPoint (v_serverSeed (cr_verification c))
       (v_clientSeed (cr_verification c)) (v_nonce (cr_verification c))
     = Return (v_crashPoint (cr_verification c))
  /\ (List.length (cr_losers c) + List.length (cashedOut (cr_round c))
      = List.length (bets (cr_round c)))%nat
  /\ (forall p x, JSMap.get p (cashedOut (cr_round c)) = Some x ->
        exists b, JSMap.get p (bets (cr_round c)) = Some b
                  /\ co_betAmount x = bet_amount b).


End Trace.
End Trace.

(** ** What the cashouts of a round are, over the real numbers *)

Module Payout.
Section Payout.
Context {S : Seeds}.
Import crashEngine.
Local Open Scope R_scope.





End Payout.
End Payout.

(** ** What the round service sends and leaves scheduled *)

Module Rounds.
Section Rounds.
Context {N : JSNumber} {H : Hmac} {S : Seeds} {SS : Sessions} {SK : SessionSockets}.
Import crashEngine.

(** The [bet_lost] of one loser, if the player's session has a controls
    socket. *)
Definition bet_lost_for (sessions : SessionService) (roundId : string) (crashPoint : num)
    (loser : Loser) : list roundService.Effect :=
  match getSessionByPlayerId (loser_playerId loser) sessions with
  | Some (Some socketId) =>
      if String.eqb socketId "" then []
      else
        [roundService.Emit_bet_lost socketId roundId crashPoint
           (bet_amount (loser_bet loser))]
  | _ => []
  end.

(** The timers that are [processTick]. *)
Definition is_tick (fired : roundService.Callback * Z * Z * betService.Others) : bool :=
  match fired with
  | (roundService.cb_processTick, _, _, _) => true
  | _ => false
  end.

End Rounds.
End Rounds.

(** ** The error of one attempt of a callback *)

Module CallbackError.
Section CallbackError.
Context {N : JSNumber}.

(** The message of the error that the [try] block of [makeRequest] throws
    for an outcome of [fetch]: the rejection of [fetch] or of
    [response.json()], the [TypeError] of reading [message] off a [null]
    body, or the "HTTP ..." error of a status that is not 2xx; [None] when
    the attempt returns the body. *)
Definition attempt_error (outcome : callbackService.FetchOutcome) : option string :=
  match outcome with
  | callbackService.Rejected message => Some message
  | callbackService.Response _ _ (Throw message) => Some message
  | callbackService.Response false _ (Return callbackService.JsonNull) =>
      Some "Cannot read properties of null (reading 'message')"
  | callbackService.Response false status (Return (callbackService.JsonObject b)) =>
      Some ("HTTP " ++ show_Z status ++ ": "
            ++ callbackService.or_else (callbackService.body_message b) "Unknown error")
  | callbackService.Response true _ (Return _) => None
  end.

End CallbackError.
End CallbackError.

(** ** A round played on the stand-ins *)

Module Scenario.
Import Sample crashEngine.

Definition t0 : Z := 1700000000000.

Definition after {A} (m : Method A) (e : CrashEngine) : CrashEngine := snd (m e).

Definition fresh : CrashEngine := constructor (0 : Z).

(** The server seed is "zeta0": the crash point is 1.89. *)
Definition betting_round : CrashEngine :=
  after (startBettingPhase t0) (after (generateRound t0) fresh).

Definition bets_placed : CrashEngine :=
  after (addBet "bob" 5%float "SESSION-bob" (t0 + 2000))
    (after (addBet "alice" 10%float "SESSION-alice" (t0 + 1000)) betting_round).

(** Started at [t0 + 5000]; the tick five seconds later gives 1.34. *)
Definition running_round : CrashEngine :=
  after (tick (t0 + 10000) (t0 + 10000)) (after (startRound (t0 + 5000)) bets_placed).

Definition alice_cashed_out : CrashEngine :=
  after (cashout "alice" (t0 + 10001)) running_round.

(** The tick at fifteen seconds computes 2.45 and crashes the round. *)
Definition crashed_round : CrashEngine :=
  after (tick (t0 + 20000) (t0 + 20001)) alice_cashed_out.

(** The singletons while bets are open, before alice has bet. *)
Definition shared_betting : betService.Shared :=
  betService.mkShared betting_round [] [] tt.

(** While a debit is awaited the betting phase ends. *)
Definition betting_ends : betService.Others := fun s =>
  betService.set_engine (after (startRound (t0 + 5000)) (betService.engine s)) s.

Definition nothing_else : betService.Others := fun s => s.

(** A platform that accepts every request, and one that is unreachable. *)
Definition platform_accepts : nat -> callbackService.FetchOutcome := fun _ =>
  callbackService.Response true 200
    (Return (callbackService.JsonObject
               (callbackService.mkBody (Some "OK") (Some "TXN-1") (Some 90%float) None None))).

Definition platform_unreachable : nat -> callbackService.FetchOutcome := fun _ =>
  callbackService.Rejected "fetch failed".

Definition world_of (platform : nat -> callbackService.FetchOutcome) (now : Z)
    : callbackService.World :=
  callbackService.mkWorld platform 0 now [].

(** A round running at 2.47x in which alice has staked 10.00. *)
Definition alice_bet : Bet := mkBet "alice" "SESSION-alice" 10%float (t0 + 1000).

Definition round_at_2_47 : Round :=
  mkRound "R-1700000000000-0" "zeta0" "sha256:zeta0" "client-seed" 0 5%float
    (Some (t0 + 5000)) None running 2.47%float [("alice", alice_bet)] [].

Definition shared_running : betService.Shared :=
  betService.mkShared (mkCrashEngine (Some round_at_2_47) [] (0 : Z) [])
    []
    [("alice",
      betService.mkActiveBet alice_bet (Some "TXN-1") "R-1700000000000-0"
        "https://platform.example/game-callbacks" "EUR")]
    tt.

(** A digest that starts with the bytes 01 47 AE 14 7A E1, the integer
    nearest to 0.005 * 2^48 (Scenario A), and one that starts with
    DC 40 FE 31 D3 F3. *)
Definition hmac_with_digest (prefix : list byte) : Hmac (N := Sample.number) :=
  {| hmacSha256Buffer := fun _ _ => (prefix ++ repeat x00 26)%list;
     sha256 := fun s => s;
     generateCallbackSignature := fun _ _ => "" |}.

Definition hmac_scenario_A : Hmac (N := Sample.number) :=
  hmac_with_digest [x01; x47; xae; x14; x7a; xe1].

Definition hmac_near_7_09 : Hmac (N := Sample.number) :=
  hmac_with_digest [xdc; x40; xfe; x31; xd3; xf3].

End Scenario.

(** ** A running round over the real numbers *)

Module IdealScenario.
Import crashEngine.

(** Started at time 0 with crash point 2.00, as [startRound] leaves it. *)
Definition round : Round (N := Ideal.number) :=
  @mkRound Ideal.number "R-0-0" "seed" "sha256:seed" "client-seed" 0 2%R (Some 0) None
    running 1%R JSMap.empty JSMap.empty.

Definition engine : CrashEngine (N := Ideal.number) (S := Sample.seeds) :=
  @mkCrashEngine Ideal.number Sample.seeds (Some round) [] (0 : Z) [].

End IdealScenario.

(** ** A round service over the real numbers, before its first round *)

Module IdealService.
Import crashEngine.

(** A session store without sessions. *)
#[export] Instance sessions : Sessions (N := Ideal.number) :=
  {| SessionService := unit;
     validateSession := fun _ _ => Throw "Invalid or expired session";
     updateBalance := fun _ _ store => store |}.

#[export] Instance sockets : SessionSockets (N := Ideal.number) (SS := sessions) :=
  {| getSessionByPlayerId := fun _ _ => None |}.

(** The service runs; the engine has just been constructed. *)
Definition fresh
    : roundService.State (N := Ideal.number) (S := Sample.seeds) (SS := sessions) :=
  roundService.mkState (roundService.mkRoundService None true true true)
    (betService.mkShared (@constructor Ideal.number Sample.seeds (0 : Z)) [] [] tt) [] 0.

End IdealService.

(** * Properties *)

Import crashEngine Lifetime.

(** ** The crash point (C1) *)

Lemma readUIntBE_from_fold (bytes : list byte) (n : nat) (acc : Z) :
  (n <= List.length bytes)%nat ->
  readUIntBE_from bytes n acc
  = Some (fold_left (fun a b => a * 256 + Z.of_N (Byte.to_N b)) (firstn n bytes) acc).
Proof.
  revert bytes acc.
  induction n as [|n IH]; intros bytes acc Hlen; simpl.
  - reflexivity.
  - destruct bytes as [|b rest]; simpl in *.
    + lia.
    + apply IH. lia.
Qed.

Lemma readUIntBE_first (buf : list byte) (n : nat) :
  (n <= List.length buf)%nat ->
  readUIntBE buf 0 n = Return (Spec.big_endian (firstn n buf)).
Proof.
  intros Hlen. unfold readUIntBE. simpl skipn.
  rewrite readUIntBE_from_fold by exact Hlen. reflexivity.
Qed.

(** The reading of six bytes is below 2^48, so it is an exact number. *)
Lemma big_endian_bound (bytes : list byte) :
  0 <= Spec.big_endian bytes < 256 ^ Z.of_nat (List.length bytes).
Proof.
  unfold Spec.big_endian.
  assert (G : forall l acc k, 0 <= acc < 256 ^ k -> 0 <= k ->
            0 <= fold_left (fun a b => a * 256 + Z.of_N (Byte.to_N b)) l acc
              < 256 ^ (k + Z.of_nat (List.length l))).
  { induction l as [|b l IH]; intros acc k Hacc Hk; simpl fold_left.
    - simpl List.length. rewrite Z.add_0_r. exact Hacc.
    - replace (k + Z.of_nat (List.length (b :: l)))
        with ((k + 1) + Z.of_nat (List.length l)) by (simpl List.length; lia).
      apply IH; [|lia].
      rewrite Z.pow_add_r by lia. change (256 ^ 1) with 256.
      pose proof (Byte.to_N_bounded b) as Hb.
      assert (0 <= Z.of_N (Byte.to_N b) <= 255) by lia.
      nia. }
  apply (G bytes 0 0); simpl; lia.
Qed.

(** C1. For every (serverSeed, clientSeed, nonce) whose HMAC digest has the
    six bytes [readUIntBE(0, 6)] reads, [calculateCrashPoint] returns the
    formula of the specification at raw = (first 6 bytes, big-endian) / 2^48:
    1.00 when raw < 0.01, else floor((0.99 / (1 - raw)) * 100) / 100 capped
    at MAX_MULTIPLIER, each operation being the code's operation on
    numbers; this holds for every interpretation of the numbers; the six
    bytes read a value below 2^48; and in binary64 (whatever the host's
    [Math.pow]) and in the reals raw = 0.005 gives exactly 1.00. *)
Theorem calculateCrashPoint_formula
    (N : JSNumber) (H : Hmac) (serverSeed clientSeed : string) (nonce : Z) :
  let digest := hmacSha256Buffer serverSeed (clientSeed ++ ":" ++ show_Z nonce) in
  (6 <= List.length digest)%nat ->
  calculateCrashPoint serverSeed clientSeed nonce
    = Return (Spec.crashPoint (Spec.raw digest))
  /\ ((Spec.raw digest <? dec 1 100)%num = true ->
      calculateCrashPoint serverSeed clientSeed nonce = Return (of_Z 1))
  /\ ((Spec.raw digest <? dec 1 100)%num = false ->
      calculateCrashPoint serverSeed clientSeed nonce
        = Return (Math_min
                    (Math_floor (dec 99 100 / (of_Z 1 - Spec.raw digest) * of_Z 100)
                       / of_Z 100)%num
                    (of_Z config.GAME_MAX_MULTIPLIER)))
  /\ 0 <= Spec.big_endian (firstn 6 digest) < 2 ^ 48
  /\ (forall pow pow_2_48,
        Spec.crashPoint (N := Binary64.number pow pow_2_48) 0.005%float = 1%float)
  /\ Spec.crashPoint (N := Ideal.number) (5 / 1000)%R = 1%R.
Proof.
  intros digest Hlen.
  assert (Heq : calculateCrashPoint serverSeed clientSeed nonce
                = Return (Spec.crashPoint (Spec.raw digest))).
  { unfold calculateCrashPoint. fold digest.
    rewrite readUIntBE_first by exact Hlen.
    rewrite Math_pow_2_48.
    unfold Spec.crashPoint, Spec.raw.
    destruct (nlt _ _); reflexivity. }
  split; [exact Heq|].
  split; [|split; [|split; [|split]]].
  - intros Hlt. rewrite Heq. unfold Spec.crashPoint. rewrite Hlt. reflexivity.
  - intros Hge. rewrite Heq. unfold Spec.crashPoint. rewrite Hge. reflexivity.
  - pose proof (big_endian_bound (firstn 6 digest)) as Hb.
    rewrite length_firstn, Nat.min_l in Hb by exact Hlen.
    exact Hb.
  - intros pow pow_2_48. vm_compute. reflexivity.
  - unfold Spec.crashPoint, dec. simpl.
    destruct (Rlt_dec (5 / 1000) (1 / 100)) as [_|Hn]; [reflexivity|].
    exfalso. apply Hn. lra.
Qed.

Lemma calculateCrashPoint_formula_witness :
  calculateCrashPoint (H := Scenario.hmac_scenario_A) "server-seed" "client-seed" 7
  = Return 1%float.
Proof.
  refine (proj1 (proj2 (@calculateCrashPoint_formula Sample.number Scenario.hmac_scenario_A
                          "server-seed" "client-seed" 7 _)) _).
  - vm_compute. repeat constructor.
  - vm_compute. reflexivity.
Defined.

(** The formula is the code's only with the code's arithmetic. For the
    digest that starts DC 40 FE 31 D3 F3 the exact quotient
    0.99 / (1 - raw) * 100 is just below 709, binary64 rounds it to 709, and
    the crash point of the code is 7.09 where exact arithmetic gives 7.08. *)
Remark binary64_rounding_reaches_next_hundredth :
  Spec.big_endian [xdc; x40; xfe; x31; xd3; xf3] = 242171700696051
  /\ calculateCrashPoint (H := Scenario.hmac_near_7_09) "server-seed" "client-seed" 7
     = Return 7.09%float
  /\ Spec.exact_hundredths 242171700696051 = 708.
Proof. repeat split; vm_compute; reflexivity. Qed.

(** ** Facts about maps *)

Lemma JSMap_has_get {V} (k : string) (m : JSMap.t V) :
  JSMap.has k m = true <-> exists v, JSMap.get k m = Some v.
Proof.
  unfold JSMap.has. destruct (JSMap.get k m) as [v|].
  - split; [eauto|reflexivity].
  - split; [discriminate|intros [v Hv]; discriminate].
Qed.

Lemma JSMap_has_false {V} (k : string) (m : JSMap.t V) :
  JSMap.has k m = false <-> JSMap.get k m = None.
Proof.
  unfold JSMap.has. destruct (JSMap.get k m); split; congruence.
Qed.

Lemma JSMap_get_set {V} (k k' : string) (v : V) (m : JSMap.t V) :
  JSMap.get k' (JSMap.set k v m) = if String.eqb k' k then Some v else JSMap.get k' m.
Proof.
  induction m as [|[k0 v0] m IH]; simpl.
  - destruct (String.eqb k' k); reflexivity.
  - destruct (String.eqb k k0) eqn:E0; simpl.
    + apply String.eqb_eq in E0. subst k0.
      destruct (String.eqb k' k); reflexivity.
    + destruct (String.eqb k' k0) eqn:E1.
      * apply String.eqb_eq in E1. subst k0.
        rewrite String.eqb_sym in E0. rewrite E0. reflexivity.
      * exact IH.
Qed.

Lemma JSMap_get_set_same {V} (k : string) (v : V) (m : JSMap.t V) :
  JSMap.get k (JSMap.set k v m) = Some v.
Proof. rewrite JSMap_get_set, String.eqb_refl. reflexivity. Qed.

Lemma JSMap_has_set {V} (k k' : string) (v : V) (m : JSMap.t V) :
  JSMap.has k' (JSMap.set k v m) = String.eqb k' k || JSMap.has k' m.
Proof.
  unfold JSMap.has. rewrite JSMap_get_set.
  destruct (String.eqb k' k); reflexivity.
Qed.

(** ** After the crash (C10) *)

(** C10. Once the crash transition has completed, by [crash] or by the
    [tick] that reaches the crash point, the engine holds no current round:
    [getCurrentRound] returns null, [tick] returns null and [addBet] and
    [cashout] throw "No active round", each leaving the whole engine
    (history, seed manager, emitted events) as it was, until
    [generateRound] installs the next round. *)
Theorem no_current_round_after_crash
    (N : JSNumber) (H : Hmac) (S : Seeds) (e e' : CrashEngine) (now crashNow : Z) :
  (currentRound e <> None /\ e' = snd (crash now e))
  \/ (tick_crashed (fst (tick now crashNow e)) = true /\ e' = snd (tick now crashNow e)) ->
  currentRound e' = None
  /\ getCurrentRound e' = None
  /\ (forall t1 t2, tick t1 t2 e' = (Return TickNull, e'))
  /\ (forall playerId amount sessionId t,
        addBet playerId amount sessionId t e' = (Throw "No active round", e'))
  /\ (forall playerId t, cashout playerId t e' = (Throw "No active round", e'))
  /\ (forall t r e'', generateRound t e' = (Return r, e'') -> currentRound e'' = Some r).
Proof.
  intros Hcrash.
  assert (Hnone : currentRound e' = None).
  { destruct Hcrash as [[Hr ->]|[Ht ->]].
    - unfold crash. destruct (currentRound e); [reflexivity|congruence].
    - unfold tick in *. destruct (currentRound e) as [r|]; [|discriminate].
      destruct (negb (Status_eqb (status r) running)); [discriminate|].
      destruct (nle _ _); [|discriminate].
      reflexivity. }
  split; [exact Hnone|].
  split; [unfold getCurrentRound; rewrite Hnone; reflexivity|].
  split; [intros; unfold tick; rewrite Hnone; reflexivity|].
  split; [intros; unfold addBet; rewrite Hnone; reflexivity|].
  split; [intros; unfold cashout; rewrite Hnone; reflexivity|].
  intros t r e'' Hg. unfold generateRound in Hg.
  destruct (calculateCrashPoint _ _ _); [|discriminate].
  injection Hg as <- <-. reflexivity.
Qed.

Lemma no_current_round_after_crash_witness :
  currentRound Scenario.crashed_round = None
  /\ cashout "bob" (Scenario.t0 + 20002) Scenario.crashed_round
     = (Throw "No active round", Scenario.crashed_round).
Proof.
  assert (P := @no_current_round_after_crash Sample.number Sample.hmac Sample.seeds
                 Scenario.alice_cashed_out Scenario.crashed_round
                 (Scenario.t0 + 20000) (Scenario.t0 + 20001)).
  assert (Hyp : tick_crashed
                  (fst (tick (Scenario.t0 + 20000) (Scenario.t0 + 20001)
                          Scenario.alice_cashed_out)) = true
                /\ Scenario.crashed_round
                   = snd (tick (Scenario.t0 + 20000) (Scenario.t0 + 20001)
                            Scenario.alice_cashed_out)).
  { split; [vm_compute; reflexivity|reflexivity]. }
  destruct (P (or_intror Hyp)) as (H1 & _ & _ & _ & H5 & _).
  split; [exact H1|exact (H5 "bob" (Scenario.t0 + 20002))].
Defined.

(** ** One call on the current round *)

Lemma collect_losers_In (N : JSNumber)
    (entries : JSMap.t Bet) (cashed : JSMap.t Cashout) (playerId : string) (bet : Bet) :
  In (mkLoser playerId bet) (collect_losers entries cashed)
  <-> In (playerId, bet) entries /\ JSMap.has playerId cashed = false.
Proof.
  induction entries as [|[p b] rest IH]; simpl.
  - tauto.
  - destruct (JSMap.has p cashed) eqn:Hp; simpl.
    + rewrite IH. split.
      * intros [Hin Hc]. split; [right; exact Hin|exact Hc].
      * intros [[Heq|Hin] Hc]; [|split; assumption].
        injection Heq as -> ->. congruence.
    + rewrite IH. split.
      * intros [Heq|[Hin Hc]].
        -- injection Heq as -> ->. split; [left; reflexivity|exact Hp].
        -- split; [right; exact Hin|exact Hc].
      * intros [[Heq|Hin] Hc].
        -- injection Heq as -> ->. left. reflexivity.
        -- right. split; assumption.
Qed.

(** The losers are the entries of [bets], in their order, whose player has
    no entry in [cashedOut]. *)
Lemma collect_losers_filter (N : JSNumber)
    (entries : JSMap.t Bet) (cashed : JSMap.t Cashout) :
  collect_losers entries cashed
  = List.map (fun pb => mkLoser (fst pb) (snd pb))
      (filter (fun pb => negb (JSMap.has (fst pb) cashed)) entries).
Proof.
  induction entries as [|[p b] rest IH]; simpl; [reflexivity|].
  destruct (JSMap.has p cashed); simpl; rewrite IH; reflexivity.
Qed.

Section CallStep.
Context {N : JSNumber} {H : Hmac} {S : Seeds}.

Lemma keeps_refl (r : Round) : keeps r r.
Proof. repeat split; auto. Qed.

Lemma keeps_trans (r1 r2 r3 : Round) : keeps r1 r2 -> keeps r2 r3 -> keeps r1 r3.
Proof.
  intros (C1 & B1 & X1) (C2 & B2 & X2). repeat split.
  - congruence.
  - auto.
  - auto.
Qed.

Ltac kept := unfold keeps, commitment; simpl; repeat split; auto.

Lemma crash_step (e : CrashEngine) (r : Round) (now : Z) :
  currentRound e = Some r ->
  exists c,
    crash now e = (Return (Some c), snd (crash now e))
    /\ currentRound (snd (crash now e)) = None
    /\ keeps r (cr_round c)
    /\ bets (cr_round c) = bets r
    /\ cashedOut (cr_round c) = cashedOut r
    /\ status (cr_round c) = crashed
    /\ currentMultiplier (cr_round c) = crashPoint r
    /\ cr_losers c = collect_losers (bets r) (cashedOut r)
    /\ cr_verification c
       = mkVerification (id r) (crashPoint r) (serverSeed r) (serverSeedHash r)
           (clientSeed r) (nonce r)
    /\ emitted (snd (crash now e)) = (emitted e ++ [round_crash (cr_verification c)])%list.
Proof.
  intros Hr. unfold crash. rewrite Hr. simpl.
  eexists. split; [reflexivity|]. simpl.
  repeat split; auto.
Qed.

(** What a call does to the current round: the round stays and keeps what
    it had, or the call is the crash of the round. *)
Lemma call_step (c : Call) (e : CrashEngine) (r : Round) :
  currentRound e = Some r ->
  match currentRound (snd (call c e)) with
  | Some r' => keeps r r' /\ crash_of (fst (call c e)) = None
  | None =>
      exists cr, crash_of (fst (call c e)) = Some cr
                 /\ keeps r (cr_round cr)
                 /\ bets (cr_round cr) = bets r
                 /\ cashedOut (cr_round cr) = cashedOut r
  end.
Proof.
  intros Hr. destruct c as [now|now|now crashNow|now|p a sid now|p now]; simpl.
  - unfold startBettingPhase. rewrite Hr. simpl. split; [kept|reflexivity].
  - unfold startRound. rewrite Hr.
    destruct (negb (Status_eqb (status r) betting)); simpl.
    + rewrite Hr. split; [kept|reflexivity].
    + split; [kept|reflexivity].
  - unfold tick. rewrite Hr.
    destruct (negb (Status_eqb (status r) running)); simpl.
    + rewrite Hr. split; [kept|reflexivity].
    + destruct (nle _ _); simpl.
      * eexists. split; [reflexivity|]. simpl. repeat split; auto.
      * split; [kept|reflexivity].
  - destruct (crash_step e now Hr) as (cr & Hc & Hnone & Hk & Hb & Hx & _).
    rewrite Hc in *. simpl in *. rewrite Hnone.
    exists cr. repeat split; try apply Hk; auto.
  - unfold addBet. rewrite Hr.
    destruct (negb (Status_eqb (status r) betting)); simpl.
    + rewrite Hr. split; [kept|reflexivity].
    + destruct (JSMap.has p (bets r)) eqn:Hp; simpl.
      * rewrite Hr. split; [kept|reflexivity].
      * split; [|reflexivity]. repeat split; simpl; auto.
        intros q b Hq. rewrite JSMap_get_set.
        destruct (String.eqb q p) eqn:E; [|exact Hq].
        apply String.eqb_eq in E. subst q.
        apply JSMap_has_false in Hp. congruence.
  - unfold cashout. rewrite Hr.
    destruct (negb (Status_eqb (status r) running)); simpl.
    + rewrite Hr. split; [kept|reflexivity].
    + destruct (JSMap.get p (bets r)) as [bet|]; simpl.
      * destruct (JSMap.has p (cashedOut r)) eqn:Hp; simpl.
        -- rewrite Hr. split; [kept|reflexivity].
        -- split; [|reflexivity]. repeat split; simpl; auto.
           intros q x Hq. rewrite JSMap_get_set.
           destruct (String.eqb q p) eqn:E; [|exact Hq].
           apply String.eqb_eq in E. subst q.
           apply JSMap_has_false in Hp. congruence.
      * rewrite Hr. split; [kept|reflexivity].
Qed.

End CallStep.

(** ** Runs of calls on one round *)

Section Runs.
Context {N : JSNumber} {H : Hmac} {S : Seeds}.

Lemma run_round_cons (c : Call) (rest : list Call) (e : CrashEngine) (r : Round) :
  currentRound e = Some r ->
  run_round (c :: rest) e
  = (fst (call c e) :: fst (run_round rest (snd (call c e))),
     snd (run_round rest (snd (call c e)))).
Proof.
  intros Hr. simpl. rewrite Hr.
  destruct (call c e) as [out e1]. simpl.
  destruct (run_round rest e1) as [outs e2]. reflexivity.
Qed.

Lemma run_round_retired (calls : list Call) (e : CrashEngine) :
  currentRound e = None -> run_round calls e = ([], e).
Proof. intros Hn. destruct calls; simpl; [reflexivity|]. rewrite Hn. reflexivity. Qed.

(** Through a run the round keeps what it had, and so does the round that
    the crash returns. *)
Lemma run_round_keeps (calls : list Call) (e : CrashEngine) (r : Round) :
  currentRound e = Some r ->
  (forall r', currentRound (snd (run_round calls e)) = Some r' -> keeps r r')
  /\ (forall out cr, In out (fst (run_round calls e)) -> crash_of out = Some cr ->
        keeps r (cr_round cr)).
Proof.
  revert e r. induction calls as [|c rest IH]; intros e r Hr.
  - simpl. split.
    + intros r' Hr'. rewrite Hr in Hr'. injection Hr' as <-. apply keeps_refl.
    + intros out cr [].
  - rewrite (run_round_cons c rest e Hr). simpl.
    pose proof (call_step c e Hr) as Hstep.
    destruct (currentRound (snd (call c e))) as [r1|] eqn:Hr1.
    + destruct Hstep as [Hk Hnc].
      destruct (IH _ _ Hr1) as [IH1 IH2]. split.
      * intros r' Hr'. eapply keeps_trans; [exact Hk|]. apply IH1. exact Hr'.
      * intros out cr [<-|Hin] Hc.
        -- congruence.
        -- eapply keeps_trans; [exact Hk|]. eapply IH2; eassumption.
    + destruct Hstep as (cr0 & Hc0 & Hk0 & _).
      rewrite (run_round_retired rest _ Hr1). simpl. split.
      * intros r' Hr'. congruence.
      * intros out cr [<-|[]] Hc. congruence.
Qed.

Lemma accepted_cashout_call (p : string) (c : Call) (e : CrashEngine) (r : Round) :
  currentRound e = Some r ->
  accepted_cashout p (fst (call c e)) = true ->
  JSMap.has p (cashedOut r) = false
  /\ exists r1, currentRound (snd (call c e)) = Some r1
                /\ JSMap.has p (cashedOut r1) = true.
Proof.
  intros Hr. destruct c as [now|now|now crashNow|now|q a sid now|q now]; simpl;
    try (destruct (startBettingPhase _ _)); try (destruct (startRound _ _));
    try (destruct (tick _ _ _)); try (destruct (crash _ _));
    try (destruct (addBet _ _ _ _ _)); simpl; try discriminate.
  unfold cashout. rewrite Hr.
  destruct (negb (Status_eqb (status r) running)); simpl; [discriminate|].
  destruct (JSMap.get q (bets r)); simpl; [|discriminate].
  destruct (JSMap.has q (cashedOut r)) eqn:Hq; simpl; [discriminate|].
  intros E. apply String.eqb_eq in E. subst q. split; [exact Hq|].
  eexists. split; [reflexivity|]. simpl.
  rewrite JSMap_has_set, String.eqb_refl. reflexivity.
Qed.

Lemma accepted_bet_call (p : string) (c : Call) (e : CrashEngine) (r : Round) :
  currentRound e = Some r ->
  accepted_bet p (fst (call c e)) = true ->
  JSMap.has p (bets r) = false
  /\ exists r1, currentRound (snd (call c e)) = Some r1
                /\ JSMap.has p (bets r1) = true.
Proof.
  intros Hr. destruct c as [now|now|now crashNow|now|q a sid now|q now]; simpl;
    try (destruct (startBettingPhase _ _)); try (destruct (startRound _ _));
    try (destruct (tick _ _ _)); try (destruct (crash _ _));
    try (destruct (cashout _ _ _)); simpl; try discriminate.
  unfold addBet. rewrite Hr.
  destruct (negb (Status_eqb (status r) betting)); simpl; [discriminate|].
  destruct (JSMap.has q (bets r)) eqn:Hq; simpl; [discriminate|].
  intros E. apply String.eqb_eq in E. subst q. split; [exact Hq|].
  eexists. split; [reflexivity|]. simpl.
  rewrite JSMap_has_set, String.eqb_refl. reflexivity.
Qed.

Lemma keeps_has_cashedOut (p : string) (r r' : Round) :
  keeps r r' -> JSMap.has p (cashedOut r) = true -> JSMap.has p (cashedOut r') = true.
Proof.
  intros (_ & _ & Hx) Hp. apply JSMap_has_get in Hp. destruct Hp as [x Hp].
  apply JSMap_has_get. exists x. apply Hx. exact Hp.
Qed.

Lemma keeps_has_bets (p : string) (r r' : Round) :
  keeps r r' -> JSMap.has p (bets r) = true -> JSMap.has p (bets r') = true.
Proof.
  intros (_ & Hb & _) Hp. apply JSMap_has_get in Hp. destruct Hp as [x Hp].
  apply JSMap_has_get. exists x. apply Hb. exact Hp.
Qed.

(** Once a player has a cashout, no later call of the round is an accepted
    cashout of that player; likewise for bets. *)
Lemma no_second_cashout (p : string) (calls : list Call) (e : CrashEngine) (r : Round) :
  currentRound e = Some r -> JSMap.has p (cashedOut r) = true ->
  count (accepted_cashout p) (fst (run_round calls e)) = 0%nat.
Proof.
  revert e r. induction calls as [|c rest IH]; intros e r Hr Hp; [reflexivity|].
  rewrite (run_round_cons c rest e Hr). unfold count. simpl.
  destruct (accepted_cashout p (fst (call c e))) eqn:Hacc.
  - destruct (accepted_cashout_call p c e Hr Hacc) as [Hno _]. congruence.
  - pose proof (call_step c e Hr) as Hstep.
    destruct (currentRound (snd (call c e))) as [r1|] eqn:Hr1.
    + destruct Hstep as [Hk _]. apply (IH _ r1 Hr1).
      eapply keeps_has_cashedOut; eassumption.
    + rewrite (run_round_retired rest _ Hr1). reflexivity.
Qed.

Lemma no_second_bet (p : string) (calls : list Call) (e : CrashEngine) (r : Round) :
  currentRound e = Some r -> JSMap.has p (bets r) = true ->
  count (accepted_bet p) (fst (run_round calls e)) = 0%nat.
Proof.
  revert e r. induction calls as [|c rest IH]; intros e r Hr Hp; [reflexivity|].
  rewrite (run_round_cons c rest e Hr). unfold count. simpl.
  destruct (accepted_bet p (fst (call c e))) eqn:Hacc.
  - destruct (accepted_bet_call p c e Hr Hacc) as [Hno _]. congruence.
  - pose proof (call_step c e Hr) as Hstep.
    destruct (currentRound (snd (call c e))) as [r1|] eqn:Hr1.
    + destruct Hstep as [Hk _]. apply (IH _ r1 Hr1).
      eapply keeps_has_bets; eassumption.
    + rewrite (run_round_retired rest _ Hr1). reflexivity.
Qed.

Lemma at_most_one_cashout (p : string) (calls : list Call) (e : CrashEngine) :
  (count (accepted_cashout p) (fst (run_round calls e)) <= 1)%nat.
Proof.
  revert e. induction calls as [|c rest IH]; intros e; [unfold count; simpl; lia|].
  destruct (currentRound e) as [r|] eqn:Hr.
  - rewrite (run_round_cons c rest e Hr). unfold count. simpl.
    destruct (accepted_cashout p (fst (call c e))) eqn:Hacc; [|apply IH].
    destruct (accepted_cashout_call p c e Hr Hacc) as [_ (r1 & Hr1 & Hp1)].
    simpl. pose proof (no_second_cashout p rest _ Hr1 Hp1) as Hz.
    unfold count in Hz. rewrite Hz. lia.
  - rewrite (run_round_retired _ _ Hr). unfold count. simpl. lia.
Qed.

Lemma at_most_one_bet (p : string) (calls : list Call) (e : CrashEngine) :
  (count (accepted_bet p) (fst (run_round calls e)) <= 1)%nat.
Proof.
  revert e. induction calls as [|c rest IH]; intros e; [unfold count; simpl; lia|].
  destruct (currentRound e) as [r|] eqn:Hr.
  - rewrite (run_round_cons c rest e Hr). unfold count. simpl.
    destruct (accepted_bet p (fst (call c e))) eqn:Hacc; [|apply IH].
    destruct (accepted_bet_call p c e Hr Hacc) as [_ (r1 & Hr1 & Hp1)].
    simpl. pose proof (no_second_bet p rest _ Hr1 Hp1) as Hz.
    unfold count in Hz. rewrite Hz. lia.
  - rewrite (run_round_retired _ _ Hr). unfold count. simpl. lia.
Qed.

End Runs.

(** ** Cashout (C6) *)

(** C6, as the claim states it, fails on the code: a player without a bet
    who cashes out while the round is still in its betting phase gets
    "Round is not running", not "No bet found for player", since [cashout]
    checks the status first. *)
Lemma cashout_without_bet_while_betting :
  has_value (getPlayerBet "carol" Scenario.bets_placed) = false
  /\ thrown (fst (cashout "carol" (Scenario.t0 + 3000) Scenario.bets_placed))
     = Some "Round is not running"
  /\ thrown (fst (cashout "carol" (Scenario.t0 + 3000) Scenario.bets_placed))
     <> Some "No bet found for player".
Proof.
  assert (E : thrown (fst (cashout "carol" (Scenario.t0 + 3000) Scenario.bets_placed))
              = Some "Round is not running") by (vm_compute; reflexivity).
  split; [vm_compute; reflexivity|].
  split; [exact E|].
  rewrite E. discriminate.
Qed.

(** C6, amended. [cashout playerId] throws whenever there is no current
    round or its status is not running, whenever the player has no bet in
    the current round (with "No bet found for player" when the round is
    running; the earlier status check answers otherwise), and whenever the
    player already has a cashout; every failure leaves the engine as it
    was; and in the calls made on one round at most one cashout of a
    player is accepted. *)
Theorem cashout_rejections
    (N : JSNumber) (H : Hmac) (S : Seeds) (e : CrashEngine) (playerId : string) (now : Z) :
  (is_Throw (fst (cashout playerId now e)) = true -> snd (cashout playerId now e) = e)
  /\ (currentRound e = None -> fst (cashout playerId now e) = Throw "No active round")
  /\ (forall r, currentRound e = Some r -> status r <> running ->
        fst (cashout playerId now e) = Throw "Round is not running")
  /\ (forall r, currentRound e = Some r -> JSMap.get playerId (bets r) = None ->
        is_Throw (fst (cashout playerId now e)) = true
        /\ (status r = running ->
            fst (cashout playerId now e) = Throw "No bet found for player"))
  /\ (forall r, currentRound e = Some r -> JSMap.has playerId (cashedOut r) = true ->
        is_Throw (fst (cashout playerId now e)) = true)
  /\ (forall calls,
        (count (accepted_cashout playerId) (fst (run_round calls e)) <= 1)%nat).
Proof.
  unfold cashout.
  split; [|split; [|split; [|split; [|split]]]].
  - destruct (currentRound e) as [r|]; [|reflexivity].
    destruct (negb (Status_eqb (status r) running)); [reflexivity|].
    destruct (JSMap.get playerId (bets r)); [|reflexivity].
    destruct (JSMap.has playerId (cashedOut r)); [reflexivity|].
    simpl. discriminate.
  - intros ->. reflexivity.
  - intros r -> Hs. destruct (status r); try congruence; reflexivity.
  - intros r -> Hb. rewrite Hb.
    split.
    + destruct (negb (Status_eqb (status r) running)); reflexivity.
    + intros ->. reflexivity.
  - intros r -> Hc. rewrite Hc.
    destruct (negb (Status_eqb (status r) running)); [reflexivity|].
    destruct (JSMap.get playerId (bets r)); reflexivity.
  - intros calls. apply at_most_one_cashout.
Qed.

(** ** Bets (C7) *)

(** C7, as the claim states it, fails on the code: [addBet] does not look
    at the amount. A bet of 0, below MIN_BET = 1, is registered. *)
Lemma addBet_accepts_amount_below_minimum :
  (0 <? Binary64.float_of_Z config.GAME_MIN_BET)%float = true
  /\ is_Throw (fst (addBet (N := Sample.number) "carol" 0%float "SESSION-carol"
                     (Scenario.t0 + 1500) Scenario.betting_round)) = false
  /\ has_value (getPlayerBet "carol"
                  (snd (addBet (N := Sample.number) "carol" 0%float "SESSION-carol"
                          (Scenario.t0 + 1500) Scenario.betting_round))) = true.
Proof. repeat split; vm_compute; reflexivity. Qed.

Lemma addBet_registers (N : JSNumber) (S : Seeds) (e e1 : CrashEngine)
    (playerId sessionId : string) (amount : num) (now : Z) (bet : Bet) :
  addBet playerId amount sessionId now e = (Return bet, e1) ->
  exists r1, currentRound e1 = Some r1 /\ JSMap.get playerId (bets r1) = Some bet.
Proof.
  unfold addBet. destruct (currentRound e) as [r|]; [|discriminate].
  destruct (negb (Status_eqb (status r) betting)); [discriminate|].
  destruct (JSMap.has playerId (bets r)); [discriminate|].
  intros [= <- <-]. eexists. split; [reflexivity|]. simpl.
  apply JSMap_get_set_same.
Qed.

(** C7, amended. [addBet] throws whenever there is no current round or its
    status is not betting and whenever the player already has a bet in the
    round, leaving the engine as it was, so that in the calls made on one
    round at most one bet of a player is accepted; the bounds MIN_BET and
    MAX_BET are not checked by [addBet] but by [BetService.placeBet], which
    rejects an amount that is not a number or lies outside them before it
    calls the platform or the engine; an accepted bet stays in the [bets]
    map of the round through every later call and in the round the crash
    returns. *)
Theorem addBet_rejections
    (N : JSNumber) (H : Hmac) (S : Seeds) (SS : Sessions) (e : CrashEngine)
    (playerId sessionId : string) (amount : num) (now : Z) :
  (is_Throw (fst (addBet playerId amount sessionId now e)) = true ->
     snd (addBet playerId amount sessionId now e) = e)
  /\ (currentRound e = None ->
        fst (addBet playerId amount sessionId now e) = Throw "No active round")
  /\ (forall r, currentRound e = Some r -> status r <> betting ->
        fst (addBet playerId amount sessionId now e) = Throw "Betting phase has ended")
  /\ (forall r, currentRound e = Some r -> JSMap.has playerId (bets r) = true ->
        is_Throw (fst (addBet playerId amount sessionId now e)) = true)
  /\ (forall calls, (count (accepted_bet playerId) (fst (run_round calls e)) <= 1)%nat)
  /\ (forall during_debit during_rollback s w,
        isNaN amount = true
        \/ (amount <? of_Z config.GAME_MIN_BET)%num = true
        \/ (amount >? of_Z config.GAME_MAX_BET)%num = true ->
        exists message,
          betService.placeBet sessionId (Some amount) during_debit during_rollback s w
          = (Throw message, s, w))
  /\ (forall bet e1 calls,
        addBet playerId amount sessionId now e = (Return bet, e1) ->
        (forall r2, currentRound (snd (run_round calls e1)) = Some r2 ->
           JSMap.get playerId (bets r2) = Some bet)
        /\ (forall out cr, In out (fst (run_round calls e1)) -> crash_of out = Some cr ->
              JSMap.get playerId (bets (cr_round cr)) = Some bet)).
Proof.
  split; [|split; [|split; [|split; [|split; [|split]]]]].
  - unfold addBet. destruct (currentRound e) as [r|]; [|reflexivity].
    destruct (negb (Status_eqb (status r) betting)); [reflexivity|].
    destruct (JSMap.has playerId (bets r)); [reflexivity|].
    simpl. discriminate.
  - unfold addBet. intros ->. reflexivity.
  - unfold addBet. intros r -> Hs. destruct (status r); try congruence; reflexivity.
  - unfold addBet. intros r -> Hb. rewrite Hb.
    destruct (negb (Status_eqb (status r) betting)); reflexivity.
  - intros calls. apply at_most_one_bet.
  - intros during_debit during_rollback s w Hout. unfold betService.placeBet.
    destruct (validateSession sessionId (betService.sessions s)) as [session|err];
      [|eexists; reflexivity].
    destruct (isNaN amount) eqn:Hnan; [eexists; reflexivity|].
    destruct (amount <? of_Z config.GAME_MIN_BET)%num eqn:Hmin; [eexists; reflexivity|].
    destruct (amount >? of_Z config.GAME_MAX_BET)%num eqn:Hmax; [eexists; reflexivity|].
    destruct Hout as [Hx|[Hx|Hx]]; discriminate.
  - intros bet e1 calls Hadd.
    apply addBet_registers in Hadd. destruct Hadd as (r1 & Hr1 & Hget).
    destruct (run_round_keeps calls e1 Hr1) as [K1 K2]. split.
    + intros r2 Hr2. destruct (K1 r2 Hr2) as (_ & Hb & _). apply Hb. exact Hget.
    + intros out cr Hin Hc. destruct (K2 out cr Hin Hc) as (_ & Hb & _).
      apply Hb. exact Hget.
Qed.

(** ** The tick that crashes the round (C8) *)

(** C8, as the claim states it, fails on the code in its last sentence: by
    the time the crash transition has completed the engine has no current
    round, so a cashout attempted then is answered "No active round", not
    "Round is not running". *)
Lemma cashout_after_crash_has_no_round :
  tick_crashed
    (fst (tick (Scenario.t0 + 20000) (Scenario.t0 + 20001) Scenario.alice_cashed_out)) = true
  /\ thrown (fst (cashout "bob" (Scenario.t0 + 20002)
                    (snd (tick (Scenario.t0 + 20000) (Scenario.t0 + 20001)
                            Scenario.alice_cashed_out))))
     = Some "No active round"
  /\ thrown (fst (cashout "bob" (Scenario.t0 + 20002)
                    (snd (tick (Scenario.t0 + 20000) (Scenario.t0 + 20001)
                            Scenario.alice_cashed_out))))
     <> Some "Round is not running".
Proof.
  assert (E : thrown (fst (cashout "bob" (Scenario.t0 + 20002)
                             (snd (tick (Scenario.t0 + 20000) (Scenario.t0 + 20001)
                                     Scenario.alice_cashed_out))))
              = Some "No active round") by (vm_compute; reflexivity).
  split; [vm_compute; reflexivity|].
  split; [exact E|].
  rewrite E. discriminate.
Qed.

(** C8, amended. On a running round, when the multiplier [tick] computes
    has reached the crash point, [tick] performs the crash transition and
    returns the round, now crashed and at its crash point, with losers =
    the entries of [bets], in order, whose player has no entry in
    [cashedOut] (so a player with a recorded cashout is not a loser);
    otherwise it returns the multiplier it computed. After the crash
    transition [cashout] throws "No active round", and
    [BetService.processCashout], for a player who still has an entry in
    [activeBets], rejects with "Round is not running". *)
Theorem tick_crashes_or_reports
    (N : JSNumber) (H : Hmac) (S : Seeds) (SS : Sessions)
    (e : CrashEngine) (r : Round) (now crashNow : Z) :
  currentRound e = Some r ->
  status r = running ->
  let elapsed := now - match startTime r with Some t => t | None => 0 end in
  let newMultiplier := calculateMultiplier elapsed in
  ((newMultiplier >=? crashPoint r)%num = true ->
   exists c,
     tick now crashNow e = (Return (TickCrashed c), snd (tick now crashNow e))
     /\ status (cr_round c) = crashed
     /\ currentMultiplier (cr_round c) = crashPoint r
     /\ cr_losers c
        = List.map (fun pb => mkLoser (fst pb) (snd pb))
            (filter (fun pb => negb (JSMap.has (fst pb) (cashedOut r))) (bets r))
     /\ (forall playerId bet,
           In (mkLoser playerId bet) (cr_losers c)
           <-> In (playerId, bet) (bets r) /\ JSMap.has playerId (cashedOut r) = false)
     /\ currentRound (snd (tick now crashNow e)) = None
     /\ (forall playerId t,
           cashout playerId t (snd (tick now crashNow e))
           = (Throw "No active round", snd (tick now crashNow e)))
     /\ (forall sessionId session activeBet during_credit s w,
           betService.engine s = snd (tick now crashNow e) ->
           validateSession sessionId (betService.sessions s) = Return session ->
           JSMap.get (session_playerId session) (betService.activeBets s) = Some activeBet ->
           betService.processCashout sessionId during_credit s w
           = (Throw "Round is not running", s, w)))
  /\ ((newMultiplier >=? crashPoint r)%num = false ->
      tick now crashNow e
      = (Return (TickMultiplier newMultiplier),
         emit (round_tick (id r) newMultiplier elapsed)
           (set_currentRound (Some (set_currentMultiplier newMultiplier r)) e))).
Proof.
  intros Hr Hs elapsed newMultiplier. split.
  - intros Hge. unfold tick. rewrite Hr, Hs. simpl.
    fold elapsed. fold newMultiplier. rewrite Hge. simpl.
    eexists. split; [reflexivity|]. simpl.
    split; [reflexivity|]. split; [reflexivity|].
    split; [apply collect_losers_filter|].
    split; [intros; apply collect_losers_In|].
    split; [reflexivity|].
    split; [reflexivity|].
    intros sessionId session activeBet during_credit s w He Hv Ha.
    unfold betService.processCashout. rewrite Hv, Ha.
    unfold hasPlayerCashedOut, getCurrentRound. rewrite He. reflexivity.
  - intros Hlt. unfold tick. rewrite Hr, Hs. simpl.
    fold elapsed. fold newMultiplier. rewrite Hlt. reflexivity.
Qed.


(** What a closed computation observes of the current round holds of it. *)
Lemma observe_some {A B} (f : A -> B) (o : option A) (x : A) (v : B) :
  o = Some x -> option_map f o = Some v -> f x = v.
Proof. intros ->. simpl. intros E. injection E as E. exact E. Qed.

Lemma tick_crashes_or_reports_witness :
  exists c,
    tick (Scenario.t0 + 20000) (Scenario.t0 + 20001) Scenario.alice_cashed_out
    = (Return (TickCrashed c), Scenario.crashed_round)
    /\ status (cr_round c) = crashed.
Proof.
  destruct (currentRound Scenario.alice_cashed_out) as [r|] eqn:Hr.
  - assert (A1 : option_map status (currentRound Scenario.alice_cashed_out) = Some running)
      by (vm_compute; reflexivity).
    assert (A2 : option_map
                   (fun r => (calculateMultiplier
                                (Scenario.t0 + 20000
                                 - match startTime r with Some t => t | None => 0 end)
                              >=? crashPoint r)%num)
                   (currentRound Scenario.alice_cashed_out) = Some true)
      by (vm_compute; reflexivity).
    destruct (@tick_crashes_or_reports Sample.number Sample.hmac Sample.seeds Sample.sessions
                Scenario.alice_cashed_out r (Scenario.t0 + 20000) (Scenario.t0 + 20001) Hr
                (observe_some status Hr A1))
      as [P _].
    destruct (P (observe_some _ Hr A2)) as (c & Ht & Hc & _).
    exists c. split; [exact Ht|exact Hc].
  - exfalso.
    assert (A : has_value (currentRound Scenario.alice_cashed_out) = true)
      by (vm_compute; reflexivity).
    rewrite Hr in A. discriminate.
Defined.

(** ** Commitment and reveal (C2) *)

Section Reveal.
Context {N : JSNumber} {H : Hmac} {S : Seeds}.

Lemma event_commits_keeps (r r' : Round) (ev : Event) :
  keeps r r' -> event_commits r' ev -> event_commits r ev.
Proof.
  intros (Hc & _ & _). unfold commitment in Hc. injection Hc as _ Hs Hh _ _ _.
  destruct ev; simpl; rewrite ?Hs, ?Hh; auto.
Qed.

(** A call on the round emits only events that carry its commitment, and a
    crash returns the seed and the hash of the round. *)
Lemma call_events (c : Call) (e : CrashEngine) (r : Round) :
  currentRound e = Some r ->
  (forall ev, In ev (emitted (snd (call c e))) -> In ev (emitted e) \/ event_commits r ev)
  /\ (forall cr, crash_of (fst (call c e)) = Some cr ->
        v_serverSeed (cr_verification cr) = serverSeed r
        /\ v_serverSeedHash (cr_verification cr) = serverSeedHash r
        /\ In (round_crash (cr_verification cr)) (emitted (snd (call c e)))).
Proof.
  intros Hr. destruct c as [now|now|now crashNow|now|p a sid now|p now]; simpl.
  - unfold startBettingPhase. rewrite Hr. simpl. split; [|discriminate].
    intros ev Hin. apply in_app_or in Hin. destruct Hin as [Hin|[<-|[]]]; [auto|].
    right. reflexivity.
  - unfold startRound. rewrite Hr.
    destruct (negb (Status_eqb (status r) betting)); simpl; (split; [|discriminate]).
    + auto.
    + intros ev Hin. apply in_app_or in Hin. destruct Hin as [Hin|[<-|[]]]; [auto|].
      right. reflexivity.
  - unfold tick. rewrite Hr.
    destruct (negb (Status_eqb (status r) running)); simpl.
    + split; [auto|discriminate].
    + destruct (nle _ _); simpl.
      * split.
        -- intros ev Hin. apply in_app_or in Hin. destruct Hin as [Hin|[<-|[]]]; [auto|].
           right. simpl. auto.
        -- intros cr [= <-]. simpl. repeat split. apply in_or_app. right. left. reflexivity.
      * split; [|discriminate].
        intros ev Hin. apply in_app_or in Hin. destruct Hin as [Hin|[<-|[]]]; [auto|].
        right. exact I.
  - unfold crash. rewrite Hr. simpl. split.
    + intros ev Hin. apply in_app_or in Hin. destruct Hin as [Hin|[<-|[]]]; [auto|].
      right. simpl. auto.
    + intros cr [= <-]. simpl. repeat split. apply in_or_app. right. left. reflexivity.
  - unfold addBet. rewrite Hr.
    destruct (negb (Status_eqb (status r) betting)); simpl; [split; [auto|discriminate]|].
    destruct (JSMap.has p (bets r)); simpl; split; auto; discriminate.
  - unfold cashout. rewrite Hr.
    destruct (negb (Status_eqb (status r) running)); simpl; [split; [auto|discriminate]|].
    destruct (JSMap.get p (bets r)); simpl; [|split; [auto|discriminate]].
    destruct (JSMap.has p (cashedOut r)); simpl; split; auto; discriminate.
Qed.

Lemma run_round_events (calls : list Call) (e : CrashEngine) (r : Round) :
  currentRound e = Some r ->
  (forall ev, In ev (emitted (snd (run_round calls e))) ->
     In ev (emitted e) \/ event_commits r ev)
  /\ (forall out cr, In out (fst (run_round calls e)) -> crash_of out = Some cr ->
        v_serverSeed (cr_verification cr) = serverSeed r
        /\ v_serverSeedHash (cr_verification cr) = serverSeedHash r
        /\ In (round_crash (cr_verification cr)) (emitted (snd (run_round calls e)))).
Proof.
  revert e r. induction calls as [|c rest IH]; intros e r Hr.
  - simpl. split; [auto|]. intros out cr [].
  - rewrite (run_round_cons c rest e Hr). simpl.
    destruct (call_events c e Hr) as [E1 E2].
    pose proof (call_step c e Hr) as Hstep.
    destruct (currentRound (snd (call c e))) as [r1|] eqn:Hr1.
    + destruct Hstep as [Hk Hnc].
      destruct (IH _ _ Hr1) as [IH1 IH2]. split.
      * intros ev Hin. destruct (IH1 ev Hin) as [Hin1|Hc].
        -- apply E1. exact Hin1.
        -- right. eapply event_commits_keeps; eassumption.
      * intros out cr [<-|Hin] Hc; [congruence|].
        destruct (IH2 out cr Hin Hc) as (V1 & V2 & V3).
        destruct Hk as (Hcm & _ & _). unfold commitment in Hcm.
        injection Hcm as _ Hs Hh _ _ _.
        repeat split; congruence.
    + rewrite (run_round_retired rest _ Hr1). simpl. split.
      * exact E1.
      * intros out cr [<-|[]] Hc. apply E2. exact Hc.
Qed.

End Reveal.

(** C2. A round generated by [generateRound] has serverSeedHash =
    SHA-256(serverSeed); through every call made on the round neither field
    changes; every event emitted for the round ([betting_phase],
    [round_start]) publishes that hash; and the crash, by [crash] or by
    [tick], returns and emits the same serverSeed with the same hash, so
    that hashing the revealed seed gives the published hash. *)
Theorem revealed_seed_matches_commitment
    (N : JSNumber) (H : Hmac) (S : Seeds) (e0 e1 : CrashEngine) (r : Round) (now : Z)
    (calls : list Call) :
  generateRound now e0 = (Return r, e1) ->
  serverSeed r = getCurrentServerSeed (seedManager e0)
  /\ serverSeedHash r = sha256 (serverSeed r)
  /\ currentRound e1 = Some r
  /\ (forall r', currentRound (snd (run_round calls e1)) = Some r' ->
        serverSeed r' = serverSeed r /\ serverSeedHash r' = serverSeedHash r)
  /\ (forall ev, In ev (emitted (snd (run_round calls e1))) ->
        In ev (emitted e0) \/ event_commits r ev)
  /\ (forall out cr, In out (fst (run_round calls e1)) -> crash_of out = Some cr ->
        sha256 (v_serverSeed (cr_verification cr)) = serverSeedHash r
        /\ v_serverSeedHash (cr_verification cr) = serverSeedHash r
        /\ serverSeed (cr_round cr) = serverSeed r
        /\ serverSeedHash (cr_round cr) = serverSeedHash r
        /\ In (round_crash (cr_verification cr)) (emitted (snd (run_round calls e1)))).
Proof.
  intros Hg. unfold generateRound in Hg.
  destruct (calculateCrashPoint _ _ _) as [cp|]; [|discriminate].
  injection Hg as <- <-. simpl.
  split; [reflexivity|]. split; [reflexivity|]. split; [reflexivity|].
  set (r := mkRound _ _ _ _ _ _ _ _ _ _ _ _).
  set (e1 := set_currentRound (Some r) e0).
  assert (Hr : currentRound e1 = Some r) by reflexivity.
  destruct (run_round_keeps calls e1 Hr) as [K1 K2].
  destruct (run_round_events calls e1 Hr) as [E1 E2].
  split; [|split].
  - intros r' Hr'. destruct (K1 r' Hr') as (Hc & _ & _).
    unfold commitment in Hc. injection Hc as _ Hs Hh _ _ _. split; assumption.
  - exact E1.
  - intros out cr Hin Hc.
    destruct (E2 out cr Hin Hc) as (V1 & V2 & V3).
    destruct (K2 out cr Hin Hc) as (Hcm & _ & _).
    unfold commitment in Hcm. injection Hcm as _ Hs Hh _ _ _.
    repeat split; try assumption.
    rewrite V1. reflexivity.
Qed.

Lemma revealed_seed_matches_commitment_witness :
  exists r e1,
    generateRound (H := Sample.hmac) Scenario.t0 Scenario.fresh = (Return r, e1)
    /\ serverSeedHash r = sha256 (Hmac := Sample.hmac) (serverSeed r)
    /\ forall out cr,
         In out (fst (run_round (H := Sample.hmac) [CallStartBettingPhase Scenario.t0;
                                 CallStartRound (Scenario.t0 + 5000);
                                 CallTick (Scenario.t0 + 20000) (Scenario.t0 + 20001)] e1)) ->
         crash_of out = Some cr ->
         sha256 (Hmac := Sample.hmac) (v_serverSeed (cr_verification cr)) = serverSeedHash r.
Proof.
  destruct (generateRound (H := Sample.hmac) Scenario.t0 Scenario.fresh) as [[r|message] e1] eqn:Hg.
  - exists r, e1. split; [reflexivity|].
    pose proof (@revealed_seed_matches_commitment Sample.number Sample.hmac Sample.seeds
                  Scenario.fresh e1 r Scenario.t0
                  [CallStartBettingPhase Scenario.t0;
                   CallStartRound (Scenario.t0 + 5000);
                   CallTick (Scenario.t0 + 20000) (Scenario.t0 + 20001)] Hg)
      as (_ & Hh & _ & _ & _ & Hc).
    split; [exact Hh|].
    intros out cr Hin Hcr. apply (Hc out cr Hin Hcr).
  - exfalso.
    assert (A : is_Throw (fst (generateRound (H := Sample.hmac) Scenario.t0 Scenario.fresh)) = false)
      by (vm_compute; reflexivity).
    rewrite Hg in A. discriminate.
Defined.

(** ** The multiplier curve (C3) *)

Section IdealMultiplier.
Local Open Scope R_scope.

Lemma Rpower_E (x : R) : Rpower (exp 1) x = exp x.
Proof. unfold Rpower. rewrite ln_exp, Rmult_1_r. reflexivity. Qed.

(** Over the reals [calculateMultiplier] is floor(e^(0.00006 t) * 100) / 100. *)
Lemma calculateMultiplier_ideal (t : Z) :
  calculateMultiplier (N := Ideal.number) t
  = IZR (Zfloor (exp (6 / 100000 * IZR t) * 100)) / 100.
Proof. unfold calculateMultiplier, dec. simpl. rewrite Rpower_E. reflexivity. Qed.

Lemma calculateMultiplier_ideal_0 : calculateMultiplier (N := Ideal.number) 0 = 1.
Proof.
  rewrite calculateMultiplier_ideal.
  replace (6 / 100000 * 0) with 0 by lra. rewrite exp_0.
  replace (1 * 100) with (IZR 100) by lra. rewrite ZfloorZ. lra.
Qed.

Lemma exp_small_bounds (x : R) : 0 <= x < 1 -> 1 <= exp x <= / (1 - x).
Proof.
  intros [H0 H1]. split.
  - pose proof (exp_ineq1_le x). lra.
  - pose proof (exp_ineq1_le (- x)) as Hn. rewrite exp_Ropp in Hn.
    pose proof (exp_pos x) as Hp.
    assert (Hq : 0 < 1 - x) by lra.
    apply Rmult_le_reg_l with (r := 1 - x); [exact Hq|].
    rewrite Rinv_r by lra.
    apply Rmult_le_reg_r with (r := / exp x); [apply Rinv_0_lt_compat; exact Hp|].
    rewrite Rmult_assoc, Rinv_r by lra. lra.
Qed.

Lemma calculateMultiplier_ideal_1 : calculateMultiplier (N := Ideal.number) 1 = 1.
Proof.
  rewrite calculateMultiplier_ideal.
  replace (6 / 100000 * 1) with (6 / 100000) by lra.
  destruct (exp_small_bounds (x := 6 / 100000)) as [Hlo Hhi]; [lra|].
  assert (Hup : / (1 - 6 / 100000) < 101 / 100).
  { apply Rmult_lt_reg_l with (r := 1 - 6 / 100000); [lra|].
    rewrite Rinv_r by lra. lra. }
  rewrite (Zfloor_eq 100); [lra|]. split; lra.
Qed.

Lemma calculateMultiplier_ideal_monotone (t1 t2 : Z) :
  (t1 <= t2)%Z ->
  calculateMultiplier (N := Ideal.number) t1 <= calculateMultiplier (N := Ideal.number) t2.
Proof.
  intros Hle. rewrite !calculateMultiplier_ideal.
  apply Rmult_le_compat_r; [lra|].
  apply IZR_le. apply Zfloor_le.
  apply Rmult_le_compat_r; [lra|].
  apply IZR_le in Hle.
  destruct (Rle_lt_or_eq_dec _ _ Hle) as [Hlt|Heq].
  - left. apply exp_increasing. lra.
  - rewrite Heq. lra.
Qed.

End IdealMultiplier.

(** C3, as the claim states it, fails on the function the code computes:
    the truncation to two decimals makes the multiplier a step function.
    At 0 ms and at 1 ms it is 1.00 both times. *)
Lemma multiplier_is_not_strictly_increasing :
  0 < 1
  /\ calculateMultiplier (N := Ideal.number) 0 = calculateMultiplier (N := Ideal.number) 1
  /\ ~ (calculateMultiplier (N := Ideal.number) 0
        < calculateMultiplier (N := Ideal.number) 1)%R.
Proof.
  rewrite calculateMultiplier_ideal_0, calculateMultiplier_ideal_1.
  split; [lia|]. split; [reflexivity|]. apply Rlt_irrefl.
Qed.

Lemma readUIntBE_from_bound (bytes : list byte) (n : nat) (acc h : Z) :
  readUIntBE_from bytes n acc = Some h ->
  0 <= acc ->
  acc * 256 ^ Z.of_nat n <= h < (acc + 1) * 256 ^ Z.of_nat n.
Proof.
  revert bytes acc. induction n as [|n IH]; intros bytes acc Hread Hacc.
  - simpl in Hread. injection Hread as <-. simpl. lia.
  - simpl in Hread. destruct bytes as [|b rest]; [discriminate|].
    pose proof (Byte.to_N_bounded b) as Hb.
    apply IH in Hread; [|lia].
    rewrite Nat2Z.inj_succ, Z.pow_succ_r by lia.
    assert (0 < 256 ^ Z.of_nat n) by (apply Z.pow_pos_nonneg; lia).
    nia.
Qed.

Section IdealCrashPoint.
Context {H : Hmac (N := Ideal.number)}.
Local Open Scope R_scope.

(** Over the reals the crash point lies between 1.00 and the ceiling. *)
Lemma calculateCrashPoint_ideal_bounds (serverSeed clientSeed : string) (nonce : Z) (cp : R) :
  calculateCrashPoint (N := Ideal.number) serverSeed clientSeed nonce = Return cp ->
  1 <= cp <= 1000.
Proof.
  unfold calculateCrashPoint, readUIntBE.
  destruct (readUIntBE_from _ 6 0) as [h|] eqn:Hread; [|discriminate].
  apply readUIntBE_from_bound in Hread; [|lia].
  rewrite Math_pow_2_48. unfold dec, config.GAME_MAX_MULTIPLIER. cbn -[Z.pow].
  assert (Hh : 0 <= IZR h < IZR (2 ^ 48)).
  { split; [apply IZR_le|apply IZR_lt]; lia. }
  assert (Hpos : 0 < IZR (2 ^ 48)) by (apply IZR_lt; lia).
  set (raw := IZR h / IZR (2 ^ 48)).
  assert (Hraw : 0 <= raw < 1).
  { unfold raw. split.
    - apply Rmult_le_pos; [lra|]. left. apply Rinv_0_lt_compat. exact Hpos.
    - apply Rmult_lt_reg_r with (r := IZR (2 ^ 48)); [exact Hpos|].
      unfold Rdiv. rewrite Rmult_assoc, Rinv_l by lra. lra. }
  destruct (Rlt_dec raw (1 / 100)) as [Hlt|Hge].
  - intros [= <-]. lra.
  - intros [= <-]. split.
    + apply Rmin_glb; [|lra].
      assert (Hq : 1 <= 99 / 100 / (1 - raw)).
      { apply Rmult_le_reg_r with (r := 1 - raw); [lra|].
        unfold Rdiv at 1. rewrite Rmult_assoc, Rinv_l by lra. lra. }
      assert (Hf : (100 <= Zfloor (99 / 100 / (1 - raw) * 100))%Z).
      { apply Zfloor_lub. lra. }
      apply IZR_le in Hf. lra.
    + apply Rmin_r.
Qed.

End IdealCrashPoint.

(** C3, amended. Over the real numbers the multiplier
    floor(e^(0.00006 t) * 100) / 100 is non-decreasing in the elapsed time
    (the curve e^(0.00006 t) under the truncation is strictly increasing),
    it starts at 1.00, which no crash point is below; so, on a running
    round whose [currentMultiplier] is the value of the last tick (or the
    1.00 of [startRound]) and not above the crash point, a tick at a later
    time either sets and emits a multiplier that is not smaller and still
    below the crash point, or crashes the round, and then the round's
    final multiplier and the crash point emitted in [round_crash] are
    exactly [crashPoint], whatever value at or above it the tick computed,
    and no [round_tick] is emitted. *)
Theorem multiplier_across_ticks
    (H : Hmac (N := Ideal.number)) (S : Seeds)
    (e : CrashEngine (N := Ideal.number)) (r : Round (N := Ideal.number))
    (t0 tlast now crashNow : Z) :
  currentRound e = Some r ->
  status r = running ->
  startTime r = Some t0 ->
  currentMultiplier r = calculateMultiplier (N := Ideal.number) (tlast - t0) ->
  (currentMultiplier r <= crashPoint r)%R ->
  tlast <= now ->
  (forall t1 t2, t1 <= t2 ->
     (calculateMultiplier (N := Ideal.number) t1 <= calculateMultiplier (N := Ideal.number) t2)%R)
  /\ (forall t1 t2, t1 < t2 ->
        (exp (6 / 100000 * IZR t1) < exp (6 / 100000 * IZR t2))%R)
  /\ calculateMultiplier (N := Ideal.number) 0 = 1%R
  /\ (forall serverSeed clientSeed nonce cp,
        calculateCrashPoint (N := Ideal.number) serverSeed clientSeed nonce = Return cp ->
        (1 <= cp)%R)
  /\ (forall (N' : JSNumber) (H' : Hmac) (S' : Seeds) (e' : CrashEngine) (r' : Round) t t',
        currentRound e' = Some r' ->
        tick_crashed (fst (tick t t' e')) = true ->
        exists c,
          fst (tick t t' e') = Return (TickCrashed c)
          /\ currentMultiplier (cr_round c) = crashPoint r'
          /\ v_crashPoint (cr_verification c) = crashPoint r'
          /\ emitted (snd (tick t t' e'))
             = (emitted e' ++ [round_crash (cr_verification c)])%list)
  /\ match tick now crashNow e with
     | (Return (TickMultiplier m), e') =>
         m = calculateMultiplier (N := Ideal.number) (now - t0)
         /\ (currentMultiplier r <= m < crashPoint r)%R
         /\ currentRound e' = Some (set_currentMultiplier m r)
         /\ emitted e' = (emitted e ++ [round_tick (id r) m (now - t0)])%list
     | (Return (TickCrashed c), e') =>
         (crashPoint r <= calculateMultiplier (N := Ideal.number) (now - t0))%R
         /\ (currentMultiplier r <= currentMultiplier (cr_round c))%R
         /\ currentMultiplier (cr_round c) = crashPoint r
         /\ v_crashPoint (cr_verification c) = crashPoint r
         /\ emitted e' = (emitted e ++ [round_crash (cr_verification c)])%list
     | _ => False
     end.
Proof.
  intros Hr Hs Ht0 Hm Hcp Hnow.
  split; [intros t1 t2; apply calculateMultiplier_ideal_monotone|].
  split; [intros t1 t2 Hlt; apply exp_increasing; apply IZR_lt in Hlt; lra|].
  split; [exact calculateMultiplier_ideal_0|].
  split; [intros serverSeed clientSeed nonce cp Hc;
          apply (calculateCrashPoint_ideal_bounds _ _ _ Hc)|].
  split.
  { intros N' H' S' e' r' t t' Hr' Hcrashed. unfold tick in *. rewrite Hr' in *.
    destruct (negb (Status_eqb (status r') running)); [discriminate|].
    destruct (nle _ _); [|discriminate].
    simpl. eexists. split; [reflexivity|]. simpl. repeat split. }
  unfold tick. rewrite Hr, Hs, Ht0. cbn [negb Status_eqb].
  remember (calculateMultiplier (N := Ideal.number) (now - t0)) as m eqn:Hmeq.
  assert (Hmono : (currentMultiplier r <= m)%R).
  { rewrite Hm, Hmeq. apply calculateMultiplier_ideal_monotone. lia. }
  change (nle (crashPoint (set_currentMultiplier m r)) m)
    with (if Rle_dec (crashPoint r) m then true else false).
  destruct (Rle_dec (crashPoint r) m) as [Hge|Hlt]; simpl.
  - repeat split; auto.
  - repeat split; auto.
    apply Rnot_le_lt. exact Hlt.
Qed.

Lemma multiplier_across_ticks_witness :
  (calculateMultiplier (N := Ideal.number) 5 <= calculateMultiplier (N := Ideal.number) 10)%R.
Proof.
  refine (proj1 (@multiplier_across_ticks (Sample.hmac_for Ideal.number) Sample.seeds
                   IdealScenario.engine IdealScenario.round 0 0 1000 1000
                   eq_refl eq_refl eq_refl _ _ _) 5 10 _).
  - symmetry. exact calculateMultiplier_ideal_0.
  - simpl. lra.
  - lia.
  - lia.
Defined.

(** ** The retry policy of the callbacks (C9) *)

Section Retry.
Context {N : JSNumber} {H : Hmac}.
Import callbackService.

Lemma makeRequest_unfold (url : string) (payload : Payload) (attempt : Z) (w : World) :
  makeRequest url payload attempt w
  = match attempt_once url payload w with
    | (Return data, w1) => (Return data, w1)
    | (Throw error, w1) =>
        if attempt <? config.CALLBACK_RETRY_ATTEMPTS
        then makeRequest url payload (attempt + 1)
               (delay (config.CALLBACK_RETRY_DELAY_MS * attempt) w1)
        else (Throw error, w1)
    end.
Proof.
  funelim (makeRequest url payload attempt w).
  - rewrite Heq. reflexivity.
  - rewrite Heq, e. reflexivity.
  - rewrite Heq, e. reflexivity.
Qed.

(** One attempt: a fetch of the request, which is logged; the attempt
    returns the body of a 2xx response and throws otherwise. *)
Lemma attempt_once_spec (url : string) (payload : Payload) (w : World) :
  snd (attempt_once url payload w)
  = mkWorld (platform w) (Datatypes.S (fetches w)) (clock w)
      (io w ++ [Fetched (Spec.request_for url payload (clock w))])
  /\ match fst (attempt_once url payload w) with
     | Return data =>
         exists status, platform w (fetches w) = Response true status (Return data)
     | Throw _ => Spec.attempt_failed (platform w (fetches w)) = true
     end.
Proof.
  unfold attempt_once, fetch. simpl.
  destruct (platform w (fetches w)) as [message|ok status [data|message]]; simpl.
  - split; reflexivity.
  - destruct ok; simpl.
    + split; [reflexivity|]. exists status. reflexivity.
    + destruct (json_message data); simpl; split; reflexivity.
  - split; reflexivity.
Qed.

Lemma retry_io_step (url : string) (payload : Payload) (attempt : Z) (k : nat) (now : Z) :
  Spec.retry_io url payload attempt (Datatypes.S (Datatypes.S k)) now
  = Fetched (Spec.request_for url payload now)
    :: Delayed (config.CALLBACK_RETRY_DELAY_MS * attempt)
    :: Spec.retry_io url payload (attempt + 1) (Datatypes.S k)
         (now + config.CALLBACK_RETRY_DELAY_MS * attempt).
Proof. reflexivity. Qed.

(** [makeRequest] from attempt number [attempt] on makes [n] attempts,
    [n] at most RETRY_ATTEMPTS - attempt + 1: all but the last failed, and
    the last succeeded, or failed with the budget used up. *)
Lemma makeRequest_policy (url : string) (payload : Payload) (k : nat) :
  forall (attempt : Z) (w : World),
    attempt <= config.CALLBACK_RETRY_ATTEMPTS ->
    Z.to_nat (config.CALLBACK_RETRY_ATTEMPTS - attempt) = k ->
    exists n : nat,
      (1 <= n)%nat
      /\ Z.of_nat n <= config.CALLBACK_RETRY_ATTEMPTS - attempt + 1
      /\ io (snd (makeRequest url payload attempt w))
         = (io w ++ Spec.retry_io url payload attempt n (clock w))%list
      /\ fetches (snd (makeRequest url payload attempt w)) = (fetches w + n)%nat
      /\ platform (snd (makeRequest url payload attempt w)) = platform w
      /\ (forall j, (j < n - 1)%nat ->
            Spec.attempt_failed (platform w (fetches w + j)%nat) = true)
      /\ match fst (makeRequest url payload attempt w) with
         | Return data =>
             exists status,
               platform w (fetches w + (n - 1))%nat = Response true status (Return data)
         | Throw _ =>
             Z.of_nat n = config.CALLBACK_RETRY_ATTEMPTS - attempt + 1
             /\ Spec.attempt_failed (platform w (fetches w + (n - 1))%nat) = true
         end.
Proof.
  unfold config.CALLBACK_RETRY_ATTEMPTS.
  induction k as [|k IH]; intros attempt w Hle Hk;
    rewrite makeRequest_unfold;
    destruct (attempt_once_spec url payload w) as [Hw Hr];
    destruct (attempt_once url payload w) as [[data|error] w1]; simpl in Hw, Hr; subst w1.
  - exists 1%nat.
    refine (conj _ (conj _ (conj _ (conj _ (conj _ (conj _ _))))));
      try lia; simpl; rewrite ?Nat.add_0_r; try reflexivity; try exact Hr; try lia.
  - unfold config.CALLBACK_RETRY_ATTEMPTS.
    destruct (attempt <? 3) eqn:E; [apply Z.ltb_lt in E; lia|].
    exists 1%nat.
    refine (conj _ (conj _ (conj _ (conj _ (conj _ (conj _ (conj _ _)))))));
      try lia; simpl; rewrite ?Nat.add_0_r; try reflexivity; try exact Hr; try lia.
  - exists 1%nat.
    refine (conj _ (conj _ (conj _ (conj _ (conj _ (conj _ _))))));
      try lia; simpl; rewrite ?Nat.add_0_r; try reflexivity; try exact Hr; try lia.
  - unfold config.CALLBACK_RETRY_ATTEMPTS.
    destruct (attempt <? 3) eqn:E; [apply Z.ltb_lt in E|apply Z.ltb_ge in E; lia].
    set (w2 := delay (config.CALLBACK_RETRY_DELAY_MS * attempt) _).
    destruct (IH (attempt + 1) w2) as (n & Hn1 & Hn2 & Hio & Hf & Hp & Hfail & Hres);
      [lia|lia|].
    exists (Datatypes.S n).
    assert (Hw2 : fetches w2 = Datatypes.S (fetches w)
                  /\ platform w2 = platform w
                  /\ clock w2 = clock w + config.CALLBACK_RETRY_DELAY_MS * attempt
                  /\ io w2 = (io w ++ [Fetched (Spec.request_for url payload (clock w));
                                       Delayed (config.CALLBACK_RETRY_DELAY_MS * attempt)])%list).
    { unfold w2, delay. simpl. repeat split. rewrite <- app_assoc. reflexivity. }
    destruct Hw2 as (Hf2 & Hp2 & Hc2 & Hio2).
    split; [lia|]. split; [lia|].
    split.
    { rewrite Hio, Hio2, Hc2. destruct n as [|n']; [lia|].
      rewrite retry_io_step, <- app_assoc. reflexivity. }
    split; [rewrite Hf, Hf2; lia|].
    split; [rewrite Hp, Hp2; reflexivity|].
    split.
    { intros j Hj. destruct j as [|j'].
      - rewrite Nat.add_0_r. exact Hr.
      - rewrite Hp2, Hf2 in Hfail.
        replace (fetches w + Datatypes.S j')%nat with (Datatypes.S (fetches w) + j')%nat by lia.
        apply Hfail. lia. }
    rewrite Hp2, Hf2 in Hres.
    replace (fetches w + (Datatypes.S n - 1))%nat
      with (Datatypes.S (fetches w) + (n - 1))%nat by lia.
    destruct (fst (makeRequest url payload (attempt + 1) w2)).
    + exact Hres.
    + destruct Hres as [Hn3 Hlast]. split; [lia|exact Hlast].
Qed.

Lemma retry_io_requests (url : string) (payload : Payload) (n : nat) :
  forall (attempt now : Z) (x : IO),
    In x (Spec.retry_io url payload attempt n now) ->
    (exists t, x = Fetched (Spec.request_for url payload t))
    \/ (exists a, attempt <= a < attempt + Z.of_nat n - 1
                  /\ x = Delayed (config.CALLBACK_RETRY_DELAY_MS * a)).
Proof.
  induction n as [|n IH]; intros attempt now x Hin; [destruct Hin|].
  destruct n as [|n'].
  - destruct Hin as [<-|[]]. left. eexists. reflexivity.
  - rewrite retry_io_step in Hin. destruct Hin as [<-|[<-|Hin]].
    + left. eexists. reflexivity.
    + right. exists attempt. split; [lia|reflexivity].
    + destruct (IH _ _ _ Hin) as [Hf|(a & Ha & ->)]; [left; exact Hf|].
      right. exists a. split; [lia|reflexivity].
Qed.

End Retry.

(** C9. A callback request ([makeRequest], first attempt numbered 1) is
    attempted [n] times, 1 <= n <= RETRY_ATTEMPTS = 3: every attempt posts
    the same URL and the same payload (so the same requestId, which is also
    the X-Request-ID header) with the timeout TIMEOUT_MS, attempt number i
    is followed, if it failed, by a pause of RETRY_DELAY_MS * i; an attempt
    fails, and is retried, when [fetch] rejects, the body is not JSON or the
    status is not 2xx; the first 2xx response ends the call with its body,
    and three failures end it with an error. A 2xx body without a
    transactionId is returned by [placeBet] as the platform's rejection
    after that single attempt. *)
Theorem callback_retry_policy
    (N : JSNumber) (H : Hmac) (url : string) (payload : Payload)
    (w : callbackService.World) :
  exists n : nat,
    (1 <= n <= 3)%nat
    /\ callbackService.io (snd (callbackService.makeRequest url payload 1 w))
       = (callbackService.io w
          ++ Spec.retry_io url payload 1 n (callbackService.clock w))%list
    /\ Spec.retry_io url payload 1 3 (callbackService.clock w)
       = [callbackService.Fetched
            (Spec.request_for url payload (callbackService.clock w));
          callbackService.Delayed (config.CALLBACK_RETRY_DELAY_MS * 1);
          callbackService.Fetched
            (Spec.request_for url payload (callbackService.clock w + 1000));
          callbackService.Delayed (config.CALLBACK_RETRY_DELAY_MS * 2);
          callbackService.Fetched
            (Spec.request_for url payload (callbackService.clock w + 1000 + 2000))]
    /\ (forall request,
          In (callbackService.Fetched request)
            (Spec.retry_io url payload 1 n (callbackService.clock w)) ->
          callbackService.req_url request = url
          /\ callbackService.req_body request = payload
          /\ callbackService.req_timeout request = config.CALLBACK_TIMEOUT_MS
          /\ forall requestId,
               callbackService.payload_requestId payload = Some requestId ->
               requestId <> "" ->
               callbackService.req_requestId request = requestId)
    /\ (forall j, (j < n - 1)%nat ->
          Spec.attempt_failed
            (callbackService.platform w (callbackService.fetches w + j)%nat) = true)
    /\ match fst (callbackService.makeRequest url payload 1 w) with
       | Return data =>
           exists status,
             callbackService.platform w (callbackService.fetches w + (n - 1))%nat
             = callbackService.Response true status (Return data)
       | Throw _ =>
           n = 3%nat
           /\ Spec.attempt_failed
                (callbackService.platform w (callbackService.fetches w + 2)%nat) = true
       end
    /\ (forall callbackBaseUrl roundId playerId sessionId amount currency pending status b,
          callbackService.platform w (callbackService.fetches w)
          = callbackService.Response true status
              (Return (callbackService.JsonObject b)) ->
          callbackService.body_transactionId b = None ->
          let requestId :=
            "BET-" ++ roundId ++ "-" ++ playerId ++ "-" ++ show_Z (callbackService.clock w) in
          let request :=
            Spec.request_for (callbackBaseUrl ++ "/bet")
              (BetPayload requestId roundId playerId sessionId amount currency
                 (callbackService.clock w))
              (callbackService.clock w) in
          callbackService.placeBet callbackBaseUrl roundId playerId sessionId amount
            currency pending w
          = (callbackService.rejected b requestId, pending,
             callbackService.mkWorld (callbackService.platform w)
               (Datatypes.S (callbackService.fetches w)) (callbackService.clock w)
               (callbackService.io w ++ [callbackService.Fetched request]))).
Proof.
  destruct (@makeRequest_policy N H url payload 2 1 w)
    as (n & Hn1 & Hn2 & Hio & _ & _ & Hfail & Hres);
    [unfold config.CALLBACK_RETRY_ATTEMPTS; lia|reflexivity|].
  unfold config.CALLBACK_RETRY_ATTEMPTS in Hn2, Hres.
  exists n.
  refine (conj _ (conj Hio (conj _ (conj _ (conj Hfail (conj _ _)))))).
  - lia.
  - reflexivity.
  - intros request Hin.
    destruct (retry_io_requests _ _ _ _ _ _ Hin) as [[t Ht]|(a & _ & Ha)];
      [|discriminate].
    injection Ht as ->. simpl.
    split; [reflexivity|]. split; [reflexivity|]. split; [reflexivity|].
    intros requestId -> Hne. simpl.
    destruct (String.eqb requestId "") eqn:E; [|reflexivity].
    apply String.eqb_eq in E. contradiction.
  - destruct (fst (callbackService.makeRequest url payload 1 w)).
    + exact Hres.
    + destruct Hres as [Hn3 Hlast].
      assert (n = 3%nat) by lia. subst n. split; [reflexivity|exact Hlast].
  - intros callbackBaseUrl roundId playerId sessionId amount currency pending status b
      Hplat Hnone requestId request.
    unfold callbackService.placeBet. fold requestId.
    rewrite makeRequest_unfold.
    unfold callbackService.attempt_once, callbackService.fetch.
    rewrite Hplat. simpl. rewrite Hnone. reflexivity.
Qed.

(** ** What the callbacks of the bet service send *)

Section CallbackIO.
Context {N : JSNumber} {H : Hmac}.
Import callbackService.

Lemma makeRequest_io (url : string) (payload : Payload) (w : World) :
  exists n : nat,
    (1 <= n <= 3)%nat
    /\ io (snd (makeRequest url payload 1 w))
       = (io w ++ Spec.retry_io url payload 1 n (clock w))%list.
Proof.
  destruct (@makeRequest_policy N H url payload 2 1 w) as (n & Hn1 & Hn2 & Hio & _);
    [unfold config.CALLBACK_RETRY_ATTEMPTS; lia|reflexivity|].
  unfold config.CALLBACK_RETRY_ATTEMPTS in Hn2.
  exists n. split; [lia|exact Hio].
Qed.

(** The debit: one request to [/bet], attempted up to three times; a
    success carries the platform's transaction id. *)
Lemma placeBet_io (callbackBaseUrl roundId playerId sessionId : string) (amount : num)
    (currency : string) (pending : Pending) (w : World) :
  let call := placeBet callbackBaseUrl roundId playerId sessionId amount currency pending w in
  let payload :=
    BetPayload ("BET-" ++ roundId ++ "-" ++ playerId ++ "-" ++ show_Z (clock w))
      roundId playerId sessionId amount currency (clock w) in
  (exists n : nat,
     (1 <= n <= 3)%nat
     /\ io (snd call)
        = (io w ++ Spec.retry_io (callbackBaseUrl ++ "/bet") payload 1 n (clock w))%list)
  /\ (cb_success (fst (fst call)) = true ->
      exists transactionId, cb_transactionId (fst (fst call)) = Some transactionId).
Proof.
  intros call payload. unfold call, placeBet. fold payload.
  destruct (makeRequest_io (callbackBaseUrl ++ "/bet") payload w) as (n & Hn & Hio).
  destruct (makeRequest (callbackBaseUrl ++ "/bet") payload 1 w) as [[[|response]|message] w1];
    simpl in *.
  - split; [exists n; auto|discriminate].
  - destruct (body_transactionId response) as [transactionId|]; simpl.
    + split; [exists n; auto|]. intros _. exists transactionId. reflexivity.
    + split; [exists n; auto|discriminate].
  - split; [exists n; auto|discriminate].
Qed.

(** The compensation: one request to [/rollback], attempted up to three
    times, whatever the platform answers. *)
Lemma rollback_io (callbackBaseUrl roundId playerId sessionId : string) (amount : num)
    (currency : string) (originalTransactionId : option string) (reason : string)
    (pending : Pending) (w : World) :
  let call :=
    rollback callbackBaseUrl roundId playerId sessionId amount currency
      originalTransactionId reason pending w in
  let payload :=
    RollbackPayload ("ROLLBACK-" ++ roundId ++ "-" ++ playerId ++ "-" ++ show_Z (clock w))
      roundId playerId sessionId amount currency originalTransactionId reason (clock w) in
  exists n : nat,
    (1 <= n <= 3)%nat
    /\ io (snd call)
       = (io w ++ Spec.retry_io (callbackBaseUrl ++ "/rollback") payload 1 n (clock w))%list.
Proof.
  intros call payload. unfold call, rollback. fold payload.
  destruct (makeRequest_io (callbackBaseUrl ++ "/rollback") payload w) as (n & Hn & Hio).
  destruct (makeRequest (callbackBaseUrl ++ "/rollback") payload 1 w)
    as [[[|response]|message] w1]; simpl in *.
  - exists n; auto.
  - destruct (option_string_eqb (body_status response) (Some "OK")); simpl; exists n; auto.
  - exists n; auto.
Qed.

(** The credit: one request to [/win], which carries the locked cashout. *)
Lemma creditWin_io (callbackBaseUrl roundId playerId sessionId : string)
    (betAmount multiplier winAmount : num) (currency : string)
    (betTransactionId : option string) (pending : Pending) (w : World) :
  let call :=
    creditWin callbackBaseUrl roundId playerId sessionId betAmount multiplier winAmount
      currency betTransactionId pending w in
  let payload :=
    WinPayload ("WIN-" ++ roundId ++ "-" ++ playerId ++ "-" ++ show_Z (clock w))
      roundId playerId sessionId betAmount multiplier winAmount currency betTransactionId
      (clock w) in
  exists n : nat,
    (1 <= n <= 3)%nat
    /\ io (snd call)
       = (io w ++ Spec.retry_io (callbackBaseUrl ++ "/win") payload 1 n (clock w))%list.
Proof.
  intros call payload. unfold call, creditWin. fold payload.
  destruct (makeRequest_io (callbackBaseUrl ++ "/win") payload w) as (n & Hn & Hio).
  destruct (makeRequest (callbackBaseUrl ++ "/win") payload 1 w)
    as [[[|response]|message] w1]; simpl in *.
  - exists n; auto.
  - destruct (body_transactionId response); simpl; exists n; auto.
  - exists n; auto.
Qed.

Lemma filter_none {A} (f : A -> bool) (l : list A) :
  (forall x, In x l -> f x = false) -> filter f l = [].
Proof.
  induction l as [|a l IH]; intros Hall; [reflexivity|].
  simpl. rewrite (Hall a) by (left; reflexivity).
  apply IH. intros x Hin. apply Hall. right. exact Hin.
Qed.

(** The attempts of a request that is not a rollback contain no rollback. *)
Lemma retry_io_no_rollback (url : string) (payload : Payload) (n : nat) (attempt now : Z) :
  (forall a b c d e f g h i, payload <> RollbackPayload a b c d e f g h i) ->
  filter Spec.is_rollback_request (Spec.retry_io url payload attempt n now) = [].
Proof.
  intros Hnot. apply filter_none. intros x Hin.
  destruct (retry_io_requests _ _ _ _ _ _ Hin) as [[t ->]|(a & _ & ->)]; [|reflexivity].
  simpl. destruct payload; try reflexivity.
  exfalso. eapply Hnot. reflexivity.
Qed.

End CallbackIO.

(** ** Bet settlement (C4) *)

Lemma addBet_throw_unchanged (N : JSNumber) (S : Seeds) (e : CrashEngine)
    (playerId sessionId : string) (amount : num) (now : Z) (error : string) :
  fst (addBet playerId amount sessionId now e) = Throw error ->
  snd (addBet playerId amount sessionId now e) = e.
Proof.
  unfold addBet. destruct (currentRound e) as [r|]; [|reflexivity].
  destruct (negb (Status_eqb (status r) betting)); [reflexivity|].
  destruct (JSMap.has playerId (bets r)); [reflexivity|].
  simpl. discriminate.
Qed.

(** C4. When the checks of [BetService.placeBet] have passed it calls the
    debit first. If the debit did not succeed (its attempts were used up,
    or the platform rejected it) [placeBet] throws, the singletons are as
    the other tasks left them (no bet is added) and nothing but the debit
    was sent: no rollback request. If the debit succeeded and [addBet] then
    throws, the bet is not registered, one rollback is sent, to [/rollback]
    with one requestId, referencing the transaction id of the debit and
    attempted at most three times, and [placeBet] throws the error of
    [addBet] whatever the rollback returned. If the debit succeeded and
    [addBet] returns, the bet is registered and tracked with that
    transaction id and nothing more is sent. *)
Theorem bet_settlement_debit_first
    (N : JSNumber) (H : Hmac) (S : Seeds) (SS : Sessions)
    (sessionId : string) (amount : num) (during_debit during_rollback : betService.Others)
    (s : betService.Shared) (w : callbackService.World)
    (session : Session) (round : RoundState) :
  validateSession sessionId (betService.sessions s) = Return session ->
  isNaN amount = false ->
  (amount <? of_Z config.GAME_MIN_BET)%num = false ->
  (amount >? of_Z config.GAME_MAX_BET)%num = false ->
  getPlayerBet (session_playerId session) (betService.engine s) = None ->
  getCurrentRound (betService.engine s) = Some round ->
  rs_status round = betting ->
  let playerId := session_playerId session in
  let currency := session_currency session in
  let callbackBaseUrl := session_callbackBaseUrl session in
  let roundedAmount := (Math_round (amount * of_Z 100) / of_Z 100)%num in
  let debit :=
    callbackService.placeBet callbackBaseUrl (rs_id round) playerId sessionId roundedAmount
      currency (betService.pending s) w in
  let callbackResult := fst (fst debit) in
  let w1 := snd debit in
  let s1 := during_debit (betService.set_pending (snd (fst debit)) s) in
  let registration :=
    addBet playerId roundedAmount sessionId (callbackService.clock w1) (betService.engine s1) in
  let outcome :=
    betService.placeBet sessionId (Some amount) during_debit during_rollback s w in
  (callbackService.cb_success callbackResult = false ->
   is_Throw (fst (fst outcome)) = true
   /\ snd (fst outcome) = s1
   /\ snd outcome = w1
   /\ filter Spec.is_rollback_request (callbackService.io w1)
      = filter Spec.is_rollback_request (callbackService.io w))
  /\ (callbackService.cb_success callbackResult = true ->
      forall error, fst registration = Throw error ->
      fst (fst outcome) = Throw error
      /\ snd registration = betService.engine s1
      /\ (exists transactionId,
            callbackService.cb_transactionId callbackResult = Some transactionId)
      /\ (exists n : nat,
            (1 <= n <= 3)%nat
            /\ callbackService.io (snd outcome)
               = (callbackService.io w1
                  ++ Spec.retry_io (callbackBaseUrl ++ "/rollback")
                       (RollbackPayload
                          ("ROLLBACK-" ++ rs_id round ++ "-" ++ playerId ++ "-"
                           ++ show_Z (callbackService.clock w1))
                          (rs_id round) playerId sessionId roundedAmount currency
                          (callbackService.cb_transactionId callbackResult)
                          "REGISTRATION_FAILED" (callbackService.clock w1))
                       1 n (callbackService.clock w1))%list)
      /\ exists pending3,
           snd (fst outcome)
           = during_rollback (betService.set_pending pending3 s1))
  /\ (callbackService.cb_success callbackResult = true ->
      forall bet, fst registration = Return bet ->
      fst (fst outcome)
      = Return (betService.mkBetReceipt roundedAmount (rs_id round)
                  (callbackService.cb_transactionId callbackResult)
                  (callbackService.cb_newBalance callbackResult))
      /\ snd outcome = w1
      /\ betService.engine (snd (fst outcome)) = snd registration
      /\ JSMap.get playerId (betService.activeBets (snd (fst outcome)))
         = Some (betService.mkActiveBet bet
                   (callbackService.cb_transactionId callbackResult)
                   (rs_id round) callbackBaseUrl currency)).
Proof.
  intros Hv Hnan Hmin Hmax Hbet Hround Hstatus.
  intros playerId currency callbackBaseUrl roundedAmount debit callbackResult w1 s1
    registration outcome.
  assert (Hout : outcome
    = if negb (callbackService.cb_success callbackResult) then
        (Throw
           (callbackService.or_else
              (callbackService.or_else_opt (callbackService.cb_message callbackResult)
                 (callbackService.cb_code callbackResult))
              "Bet rejected by platform"), s1, w1)
      else
        match registration with
        | (Return bet, e2) =>
            let s2 := betService.set_engine e2 s1 in
            let s3 :=
              betService.set_activeBets
                (JSMap.set playerId
                   (betService.mkActiveBet bet
                      (callbackService.cb_transactionId callbackResult)
                      (rs_id round) callbackBaseUrl currency)
                   (betService.activeBets s2)) s2 in
            (Return (betService.mkBetReceipt roundedAmount (rs_id round)
                       (callbackService.cb_transactionId callbackResult)
                       (callbackService.cb_newBalance callbackResult)),
             betService.set_sessions
               (updateBalance sessionId (callbackService.cb_newBalance callbackResult)
                  (betService.sessions s3)) s3,
             w1)
        | (Throw error, e2) =>
            let s2 := betService.set_engine e2 s1 in
            let compensation :=
              callbackService.rollback callbackBaseUrl (rs_id round) playerId sessionId
                roundedAmount currency (callbackService.cb_transactionId callbackResult)
                "REGISTRATION_FAILED" (betService.pending s2) w1 in
            (Throw error,
             during_rollback (betService.set_pending (snd (fst compensation)) s2),
             snd compensation)
        end).
  { unfold outcome, betService.placeBet.
    rewrite Hv. cbv beta iota zeta. rewrite Hnan, Hmin, Hmax, Hbet, Hround, Hstatus.
    cbn [Status_eqb negb].
    unfold s1, callbackResult, w1, registration, s1, w1, debit,
      roundedAmount, playerId, currency, callbackBaseUrl.
    destruct (callbackService.placeBet _ _ _ _ _ _ _ _) as [[cbres p1] wd]. cbn [fst snd].
    destruct (callbackService.cb_success cbres); cbn [negb]; [|reflexivity].
    destruct (addBet _ _ _ _ _) as [[bet|error] e2]; cbn [fst snd].
    - reflexivity.
    - destruct (callbackService.rollback _ _ _ _ _ _ _ _ _ _) as [[res3 p3] w3].
      reflexivity. }
  destruct (placeBet_io callbackBaseUrl (rs_id round) playerId sessionId roundedAmount
              currency (betService.pending s) w) as [(n & Hn & Hio) Htx].
  fold debit in Hio, Htx. fold callbackResult in Htx. fold w1 in Hio.
  split; [|split].
  - intros Hfail. rewrite Hout, Hfail. cbn [negb fst snd is_Throw].
    repeat split.
    rewrite Hio, filter_app, retry_io_no_rollback, app_nil_r; [reflexivity|].
    intros; discriminate.
  - intros Hok error Hreg. rewrite Hout, Hok. cbn [negb].
    pose proof (@addBet_throw_unchanged N S _ _ _ _ _ _ Hreg) as Hsame.
    fold registration in Hsame.
    destruct registration as [[bet|error'] e2]; cbn [fst snd] in *; [discriminate|].
    injection Hreg as ->. subst e2.
    split; [reflexivity|]. split; [reflexivity|]. split; [exact (Htx Hok)|].
    assert (Hs2 : betService.set_engine (betService.engine s1) s1 = s1)
      by (destruct s1; reflexivity).
    rewrite Hs2.
    split.
    + apply rollback_io.
    + eexists. reflexivity.
  - intros Hok bet Hreg. rewrite Hout, Hok. cbn [negb].
    destruct registration as [[bet'|error] e2]; cbn [fst snd] in *; [|discriminate].
    injection Hreg as ->.
    split; [reflexivity|]. split; [reflexivity|]. split; [reflexivity|].
    apply JSMap_get_set_same.
Qed.

Lemma no_value {A} (o : option A) : has_value o = false -> o = None.
Proof. destruct o; [discriminate|reflexivity]. Qed.

Lemma thrown_inv {A} (r : result A) (message : string) :
  thrown r = Some message -> r = Throw message.
Proof. destruct r; simpl; [discriminate|]. intros E. injection E as ->. reflexivity. Qed.

Section ScenarioC.
Import Sample.

(** Scenario C: the debit is accepted, the betting phase ends while it is
    awaited, the registration throws. *)
Lemma bet_settlement_debit_first_witness :
  thrown
    (fst (fst (betService.placeBet (SS := Sample.sessions) "SESSION-alice" (Some 10%float)
                 Scenario.betting_ends Scenario.nothing_else Scenario.shared_betting
                 (Scenario.world_of Scenario.platform_accepts (Scenario.t0 + 4990)))))
  = Some "Betting phase has ended".
Proof.
  set (w := Scenario.world_of Scenario.platform_accepts (Scenario.t0 + 4990)).
  set (session := mkSession "alice" "EUR" "https://platform.example/game-callbacks").
  destruct (getCurrentRound (betService.engine Scenario.shared_betting)) as [round|] eqn:Hround.
  - assert (A1 : option_map rs_status
                   (getCurrentRound (betService.engine Scenario.shared_betting))
                 = Some betting) by (vm_compute; reflexivity).
    assert (A2 : option_map
                   (fun round =>
                      callbackService.cb_success
                        (fst (fst (callbackService.placeBet
                                     (session_callbackBaseUrl session) (rs_id round)
                                     (session_playerId session) "SESSION-alice"
                                     (Math_round (10%float * of_Z 100) / of_Z 100)%num
                                     (session_currency session)
                                     (betService.pending Scenario.shared_betting) w))))
                   (getCurrentRound (betService.engine Scenario.shared_betting))
                 = Some true) by (vm_compute; reflexivity).
    assert (A3 : option_map
                   (fun round =>
                      thrown
                        (fst (addBet (session_playerId session)
                                (Math_round (10%float * of_Z 100) / of_Z 100)%num
                                "SESSION-alice"
                                (callbackService.clock
                                   (snd (callbackService.placeBet
                                           (session_callbackBaseUrl session) (rs_id round)
                                           (session_playerId session) "SESSION-alice"
                                           (Math_round (10%float * of_Z 100) / of_Z 100)%num
                                           (session_currency session)
                                           (betService.pending Scenario.shared_betting) w)))
                                (betService.engine
                                   (Scenario.betting_ends
                                      (betService.set_pending
                                         (snd (fst (callbackService.placeBet
                                                      (session_callbackBaseUrl session)
                                                      (rs_id round)
                                                      (session_playerId session)
                                                      "SESSION-alice"
                                                      (Math_round (10%float * of_Z 100)
                                                       / of_Z 100)%num
                                                      (session_currency session)
                                                      (betService.pending
                                                         Scenario.shared_betting) w)))
                                         Scenario.shared_betting))))))
                   (getCurrentRound (betService.engine Scenario.shared_betting))
                 = Some (Some "Betting phase has ended")) by (vm_compute; reflexivity).
    destruct (@bet_settlement_debit_first Sample.number Sample.hmac Sample.seeds
                Sample.sessions "SESSION-alice" 10%float Scenario.betting_ends
                Scenario.nothing_else Scenario.shared_betting w session round)
      as (_ & Hb & _).
    + vm_compute. reflexivity.
    + vm_compute. reflexivity.
    + vm_compute. reflexivity.
    + vm_compute. reflexivity.
    + apply no_value. vm_compute. reflexivity.
    + exact Hround.
    + exact (observe_some rs_status Hround A1).
    + destruct (Hb (observe_some _ Hround A2) "Betting phase has ended"
                  (thrown_inv _ (observe_some _ Hround A3))) as (Hthrow & _).
      exact (f_equal thrown Hthrow).
  - exfalso.
    assert (A : has_value (getCurrentRound (betService.engine Scenario.shared_betting)) = true)
      by (vm_compute; reflexivity).
    rewrite Hround in A. discriminate.
Defined.

End ScenarioC.

(** ** Cashout settlement (C5) *)

Section CashoutKept.
Context {N : JSNumber} {H : Hmac} {S : Seeds}.

Lemma run_round_In (calls : list Call) (e : CrashEngine) (out : Returned) :
  In out (fst (run_round calls e)) -> exists c e', out = fst (call c e').
Proof.
  revert e. induction calls as [|c rest IH]; intros e Hin; [destruct Hin|].
  destruct (currentRound e) as [r|] eqn:Hr.
  - rewrite (run_round_cons c rest e Hr) in Hin. destruct Hin as [<-|Hin].
    + exists c, e. reflexivity.
    + exact (IH _ Hin).
  - rewrite (run_round_retired _ _ Hr) in Hin. destruct Hin.
Qed.

(** The losers a crash returns are computed from the maps of the round it
    returns. *)
Lemma crash_of_losers (c : Call) (e : CrashEngine) (cr : CrashResult) :
  crash_of (fst (call c e)) = Some cr ->
  cr_losers cr = collect_losers (bets (cr_round cr)) (cashedOut (cr_round cr)).
Proof.
  destruct c as [now|now|now crashNow|now|p a sid now|p now]; simpl.
  - destruct (startBettingPhase now e); discriminate.
  - destruct (startRound now e); discriminate.
  - unfold tick. destruct (currentRound e) as [r|]; [|discriminate].
    destruct (negb (Status_eqb (status r) running)); [discriminate|].
    destruct (nle _ _); [|discriminate].
    simpl. intros [= <-]. reflexivity.
  - unfold crash. destruct (currentRound e) as [r|]; [|discriminate].
    simpl. intros [= <-]. reflexivity.
  - destruct (addBet p a sid now e); discriminate.
  - destruct (cashout p now e); discriminate.
Qed.

(** A recorded cashout stays through the calls made on the round, and keeps
    the player out of the losers. *)
Lemma cashout_kept (calls : list Call) (e : CrashEngine) (r : Round)
    (playerId : string) (data : Cashout) :
  currentRound e = Some r ->
  JSMap.get playerId (cashedOut r) = Some data ->
  (forall r2, currentRound (snd (run_round calls e)) = Some r2 ->
     JSMap.get playerId (cashedOut r2) = Some data)
  /\ (forall out cr, In out (fst (run_round calls e)) -> crash_of out = Some cr ->
        JSMap.get playerId (cashedOut (cr_round cr)) = Some data
        /\ forall bet, ~ In (mkLoser playerId bet) (cr_losers cr)).
Proof.
  intros Hr Hget. destruct (run_round_keeps calls e Hr) as [K1 K2]. split.
  - intros r2 Hr2. destruct (K1 r2 Hr2) as (_ & _ & Hx). apply Hx. exact Hget.
  - intros out cr Hin Hc. destruct (K2 out cr Hin Hc) as (_ & _ & Hx).
    pose proof (Hx _ _ Hget) as Hget'. split; [exact Hget'|].
    intros bet Hl.
    destruct (run_round_In _ _ _ Hin) as (c & e' & ->).
    rewrite (crash_of_losers c e' Hc) in Hl.
    apply collect_losers_In in Hl. destruct Hl as [_ Hno].
    apply JSMap_has_false in Hno. congruence.
Qed.

End CashoutKept.

(** C5. [BetService.processCashout] locks the cashout in the engine first:
    [cashout] records, for the player, the bet amount, the current
    multiplier and winAmount = floor(betAmount * multiplier * 100) / 100;
    only then is the credit sent, carrying these values. If the credit does
    not succeed the method resolves to [success: false] with the full
    cashout (betAmount, multiplier, winAmount, roundId), and does nothing
    else: the singletons are as the lock-in and the other tasks left them,
    the cashout stays recorded through every later call of the round and
    keeps the player out of the losers, [activeBets] gets no entry, and
    another cashout of the player is rejected. In binary64, 10.00 at 2.47
    gives 24.70. *)
Theorem cashout_settlement_locks_first
    (N : JSNumber) (H : Hmac) (S : Seeds) (SS : Sessions)
    (sessionId : string) (during_credit : betService.Others)
    (s : betService.Shared) (w : callbackService.World)
    (session : Session) (activeBet : betService.ActiveBet) (r : Round) (bet : Bet) :
  validateSession sessionId (betService.sessions s) = Return session ->
  JSMap.get (session_playerId session) (betService.activeBets s) = Some activeBet ->
  currentRound (betService.engine s) = Some r ->
  status r = running ->
  JSMap.get (session_playerId session) (bets r) = Some bet ->
  JSMap.has (session_playerId session) (cashedOut r) = false ->
  let playerId := session_playerId session in
  let multiplier := currentMultiplier r in
  let winAmount := Spec.winAmount (bet_amount bet) multiplier in
  let cashoutData :=
    mkCashout playerId (bet_amount bet) multiplier winAmount (callbackService.clock w) in
  let e1 :=
    set_currentRound
      (Some (set_cashedOut (JSMap.set playerId cashoutData (cashedOut r)) r))
      (betService.engine s) in
  let credit :=
    callbackService.creditWin (session_callbackBaseUrl session) (id r) playerId sessionId
      (bet_amount bet) multiplier winAmount (session_currency session)
      (betService.ab_transactionId activeBet) (betService.pending s) w in
  let callbackResult := fst (fst credit) in
  let locked := betService.set_pending (snd (fst credit)) (betService.set_engine e1 s) in
  let outcome := betService.processCashout sessionId during_credit s w in
  cashout playerId (callbackService.clock w) (betService.engine s) = (Return cashoutData, e1)
  /\ (exists n : nat,
        (1 <= n <= 3)%nat
        /\ callbackService.io (snd outcome)
           = (callbackService.io w
              ++ Spec.retry_io (session_callbackBaseUrl session ++ "/win")
                   (WinPayload
                      ("WIN-" ++ id r ++ "-" ++ playerId ++ "-"
                       ++ show_Z (callbackService.clock w))
                      (id r) playerId sessionId (bet_amount bet) multiplier winAmount
                      (session_currency session) (betService.ab_transactionId activeBet)
                      (callbackService.clock w))
                   1 n (callbackService.clock w))%list)
  /\ (callbackService.cb_success callbackResult = false ->
      fst (fst outcome)
      = Return (betService.mkCashoutReport false
                  (callbackService.or_else_opt (callbackService.cb_message callbackResult)
                     (callbackService.cb_code callbackResult))
                  (betService.mkCashoutDetail (bet_amount bet) multiplier winAmount (id r)
                     None)
                  None)
      /\ snd (fst outcome) = during_credit locked
      /\ betService.engine locked = e1
      /\ betService.activeBets locked = betService.activeBets s
      /\ (forall calls,
            (forall r2, currentRound (snd (run_round calls e1)) = Some r2 ->
               JSMap.get playerId (cashedOut r2) = Some cashoutData)
            /\ (forall out cr, In out (fst (run_round calls e1)) ->
                  crash_of out = Some cr ->
                  JSMap.get playerId (cashedOut (cr_round cr)) = Some cashoutData
                  /\ forall b, ~ In (mkLoser playerId b) (cr_losers cr)))
      /\ (forall others w',
            betService.processCashout sessionId others locked w'
            = (Throw "Already cashed out", locked, w')))
  /\ (callbackService.cb_success callbackResult = true ->
      fst (fst outcome)
      = Return (betService.mkCashoutReport true None
                  (betService.mkCashoutDetail (bet_amount bet) multiplier winAmount (id r)
                     (callbackService.cb_transactionId callbackResult))
                  (callbackService.cb_newBalance callbackResult))
      /\ betService.engine (snd (fst outcome)) = betService.engine (during_credit locked)
      /\ betService.activeBets (snd (fst outcome))
         = JSMap.delete playerId (betService.activeBets (during_credit locked)))
  /\ (forall pow pow_2_48,
        Spec.winAmount (N := Binary64.number pow pow_2_48) 10%float 2.47%float = 24.7%float).
Proof.
  intros Hv Hactive Hr Hs Hbet Hno.
  intros playerId multiplier winAmount cashoutData e1 credit callbackResult locked outcome.
  assert (Hcash : cashout playerId (callbackService.clock w) (betService.engine s)
                  = (Return cashoutData, e1)).
  { unfold cashout. rewrite Hr, Hs. cbn [Status_eqb negb].
    fold playerId in Hbet, Hno. rewrite Hbet, Hno. reflexivity. }
  assert (Hout : outcome
    = if negb (callbackService.cb_success callbackResult) then
        (Return (betService.mkCashoutReport false
                   (callbackService.or_else_opt (callbackService.cb_message callbackResult)
                      (callbackService.cb_code callbackResult))
                   (betService.mkCashoutDetail (bet_amount bet) multiplier winAmount (id r)
                      None)
                   None),
         during_credit locked, snd credit)
      else
        let s1 := during_credit locked in
        let s2 :=
          betService.set_sessions
            (updateBalance sessionId (callbackService.cb_newBalance callbackResult)
               (betService.sessions s1)) s1 in
        (Return (betService.mkCashoutReport true None
                   (betService.mkCashoutDetail (bet_amount bet) multiplier winAmount (id r)
                      (callbackService.cb_transactionId callbackResult))
                   (callbackService.cb_newBalance callbackResult)),
         betService.set_activeBets (JSMap.delete playerId (betService.activeBets s2)) s2,
         snd credit)).
  { unfold outcome, betService.processCashout.
    rewrite Hv. cbv beta iota zeta. rewrite Hactive.
    unfold hasPlayerCashedOut, getCurrentRound. rewrite Hr, Hno, Hs.
    cbn [Status_eqb negb rs_status rs_id].
    fold playerId. rewrite Hcash.
    unfold locked, callbackResult, credit. cbn [co_betAmount co_multiplier co_winAmount cashoutData].
    destruct (callbackService.creditWin _ _ _ _ _ _ _ _ _ _ _) as [[cbres p1] w1].
    cbn [fst snd].
    destruct (callbackService.cb_success cbres); reflexivity. }
  split; [exact Hcash|].
  split.
  { destruct (creditWin_io (session_callbackBaseUrl session) (id r) playerId sessionId
                (bet_amount bet) multiplier winAmount (session_currency session)
                (betService.ab_transactionId activeBet) (betService.pending s) w)
      as (n & Hn & Hio).
    exists n. split; [exact Hn|].
    rewrite Hout. fold credit in Hio.
    destruct (negb (callbackService.cb_success callbackResult)); exact Hio. }
  split; [|split].
  - intros Hfail. rewrite Hout, Hfail. cbn [negb fst snd].
    split; [reflexivity|]. split; [reflexivity|]. split; [reflexivity|].
    split; [reflexivity|].
    split.
    + intros calls. apply cashout_kept with (r := set_cashedOut (JSMap.set playerId cashoutData (cashedOut r)) r).
      * reflexivity.
      * apply JSMap_get_set_same.
    + intros others w'. unfold betService.processCashout.
      change (betService.sessions locked) with (betService.sessions s).
      rewrite Hv. cbv beta iota zeta.
      change (betService.activeBets locked) with (betService.activeBets s).
      rewrite Hactive.
      change (betService.engine locked) with e1.
      unfold hasPlayerCashedOut, e1. cbn [currentRound set_currentRound cashedOut set_cashedOut].
      rewrite JSMap_has_set, String.eqb_refl. reflexivity.
  - intros Hok. rewrite Hout, Hok. cbn [negb fst snd].
    split; [reflexivity|]. split; reflexivity.
  - intros pow pow_2_48. vm_compute. reflexivity.
Qed.

Section ScenarioD.
Import Sample.

(** Scenario D: 10.00 locked at 2.47x, the platform unreachable. *)
Lemma cashout_settlement_locks_first_witness :
  exists report,
    fst (fst (betService.processCashout "SESSION-alice" Scenario.nothing_else
                Scenario.shared_running
                (Scenario.world_of Scenario.platform_unreachable (Scenario.t0 + 20071))))
    = Return report
    /\ betService.report_success report = false
    /\ betService.cd_betAmount (betService.report_cashout report) = 10%float
    /\ betService.cd_multiplier (betService.report_cashout report) = 2.47%float
    /\ betService.cd_winAmount (betService.report_cashout report) = 24.7%float.
Proof.
  destruct (@cashout_settlement_locks_first Sample.number Sample.hmac Sample.seeds
              Sample.sessions "SESSION-alice" Scenario.nothing_else Scenario.shared_running
              (Scenario.world_of Scenario.platform_unreachable (Scenario.t0 + 20071))
              (mkSession "alice" "EUR" "https://platform.example/game-callbacks")
              (betService.mkActiveBet Scenario.alice_bet (Some "TXN-1") "R-1700000000000-0"
                 "https://platform.example/game-callbacks" "EUR")
              Scenario.round_at_2_47 Scenario.alice_bet)
    as (_ & _ & Hfail & _).
  - vm_compute. reflexivity.
  - reflexivity.
  - reflexivity.
  - reflexivity.
  - reflexivity.
  - reflexivity.
  - assert (Hcredit :
      callbackService.cb_success
        (fst (fst (callbackService.creditWin "https://platform.example/game-callbacks"
                     (id Scenario.round_at_2_47) "alice" "SESSION-alice"
                     (bet_amount Scenario.alice_bet) (currentMultiplier Scenario.round_at_2_47)
                     (Spec.winAmount (bet_amount Scenario.alice_bet)
                        (currentMultiplier Scenario.round_at_2_47))
                     "EUR" (Some "TXN-1") (betService.pending Scenario.shared_running)
                     (Scenario.world_of Scenario.platform_unreachable
                        (Scenario.t0 + 20071))))) = false)
      by (vm_compute; reflexivity).
    destruct (Hfail Hcredit) as (Hreport & _).
    eexists. split; [exact Hreport|].
    repeat split; vm_compute; reflexivity.
Defined.

End ScenarioD.
(** * Further properties of the code *)

(** ** Maps with string keys *)

Lemma JSMap_get_In {V} (k : string) (v : V) (m : JSMap.t V) :
  JSMap.get k m = Some v -> In (k, v) m.
Proof.
  induction m as [|[k0 v0] m IH]; simpl; [discriminate|].
  destruct (String.eqb k k0) eqn:E.
  - apply String.eqb_eq in E. subst k0. intros [= ->]. left. reflexivity.
  - intros Hg. right. exact (IH Hg).
Qed.

Lemma JSMap_get_None {V} (k : string) (m : JSMap.t V) :
  JSMap.get k m = None <-> ~ In k (List.map fst m).
Proof.
  induction m as [|[k0 v0] m IH]; simpl.
  - split; auto.
  - destruct (String.eqb k k0) eqn:E.
    + apply String.eqb_eq in E. subst k0. split; [discriminate|]. intros Hn. exfalso. auto.
    + apply String.eqb_neq in E. rewrite IH. split.
      * intros Hn [Heq|Hin]; [congruence|auto].
      * intros Hn Hin. apply Hn. right. exact Hin.
Qed.

Lemma JSMap_get_NoDup {V} (k : string) (v : V) (m : JSMap.t V) :
  NoDup (List.map fst m) -> In (k, v) m -> JSMap.get k m = Some v.
Proof.
  induction m as [|[k0 v0] m IH]; simpl; [tauto|].
  intros Hnd Hin. inversion Hnd as [|? ? Hnotin Hnd']; subst.
  destruct Hin as [Heq|Hin].
  - injection Heq as -> ->. rewrite String.eqb_refl. reflexivity.
  - destruct (String.eqb k k0) eqn:E.
    + apply String.eqb_eq in E. subst k0. exfalso. apply Hnotin.
      change k with (fst (k, v)). apply in_map. exact Hin.
    + exact (IH Hnd' Hin).
Qed.

Lemma JSMap_set_fresh {V} (k : string) (v : V) (m : JSMap.t V) :
  JSMap.get k m = None -> JSMap.set k v m = (m ++ [(k, v)])%list.
Proof.
  induction m as [|[k0 v0] m IH]; simpl; [reflexivity|].
  destruct (String.eqb k k0); [discriminate|].
  intros Hg. rewrite (IH Hg). reflexivity.
Qed.

Lemma JSMap_set_fresh_NoDup {V} (k : string) (v : V) (m : JSMap.t V) :
  JSMap.get k m = None -> NoDup (List.map fst m) -> NoDup (List.map fst (JSMap.set k v m)).
Proof.
  intros Hg Hnd. rewrite JSMap_set_fresh by exact Hg. rewrite map_app. simpl.
  apply JSMap_get_None in Hg.
  induction (List.map fst m) as [|x l IH]; simpl.
  - constructor; [auto|constructor].
  - inversion Hnd; subst. constructor.
    + rewrite in_app_iff. simpl. intros [Hin|[Heq|[]]]; [auto|]. subst. apply Hg. left. reflexivity.
    + apply IH; [|assumption]. intros Hin. apply Hg. right. exact Hin.
Qed.

Lemma JSMap_has_fresh {V} (k : string) (m : JSMap.t V) :
  JSMap.has k m = false -> JSMap.get k m = None.
Proof. unfold JSMap.has. destruct (JSMap.get k m); [discriminate|reflexivity]. Qed.

(** ** What every call on the engine keeps *)

Section TraceInvariant.
Context {N : JSNumber} {H : Hmac} {S : Seeds}.
Import Trace.

Lemma round_ok_fields (sm : SeedManager) (r r' : Round) :
  round_ok sm r ->
  status r' <> crashed ->
  commitment r' = commitment r ->
  bets r' = bets r ->
  cashedOut r' = cashedOut r ->
  round_ok sm r'.
Proof.
  unfold round_ok, commitment.
  intros (_ & Hs & Hc & Hn & Hh & Hcp & Hb & Hco & Hsub & Hid) Hst Hcm Hbets Hcash.
  injection Hcm as _ Hs' Hh' Hc' Hn' Hcp'.
  rewrite Hs', Hh', Hc', Hn', Hcp', Hbets, Hcash.
  repeat split; assumption.
Qed.

Lemma constructor_ok (seeds : SeedManager) : engine_ok (constructor seeds).
Proof. unfold engine_ok. simpl. split; [exact I|]. split; [lia|constructor]. Qed.

Lemma generateRound_ok (now : Z) (e : CrashEngine) :
  engine_ok e -> engine_ok (snd (generateRound now e)).
Proof.
  intros (Hr & Hlen & Hall). unfold generateRound.
  destruct (calculateCrashPoint _ _ _) eqn:Hcp; simpl.
  - unfold engine_ok. simpl. split; [|split; assumption].
    unfold round_ok. simpl. repeat split; try assumption; try constructor; try discriminate.
  - unfold engine_ok. auto.
Qed.

Lemma startBettingPhase_ok (now : Z) (e : CrashEngine) :
  engine_ok e -> engine_ok (snd (startBettingPhase now e)).
Proof.
  intros Hok. unfold startBettingPhase.
  assert (Hgen : forall r e1,
             engine_ok e1 -> currentRound e1 = Some r \/ True ->
             round_ok (seedManager e1) r ->
             engine_ok
               (emit (betting_phase (id (set_status betting r))
                        (serverSeedHash (set_status betting r))
                        (clientSeed (set_status betting r)) (nonce (set_status betting r))
                        config.GAME_BETTING_PHASE_MS)
                  (set_currentRound (Some (set_status betting r)) e1))).
  { intros r e1 (_ & Hlen & Hall) _ Hr. unfold engine_ok. simpl.
    split; [|split; assumption].
    apply round_ok_fields with (r := r); try reflexivity; [assumption|discriminate]. }
  destruct (currentRound e) as [r|] eqn:Hcur.
  - simpl. apply Hgen; [assumption|auto|].
    destruct Hok as (Hr & _). rewrite Hcur in Hr. exact Hr.
  - pose proof (generateRound_ok now Hok) as Hg.
    unfold generateRound in *.
    destruct (calculateCrashPoint _ _ _) eqn:Hcp; simpl in *.
    + apply Hgen; [assumption|auto|]. destruct Hg as (Hr & _). simpl in Hr. exact Hr.
    + exact Hok.
Qed.

Lemma startRound_ok (now : Z) (e : CrashEngine) :
  engine_ok e -> engine_ok (snd (startRound now e)).
Proof.
  intros Hok. unfold startRound.
  destruct (currentRound e) as [r|] eqn:Hcur; [|exact Hok].
  destruct (negb (Status_eqb (status r) betting)); [exact Hok|].
  destruct Hok as (Hr & Hlen & Hall). rewrite Hcur in Hr.
  unfold engine_ok. simpl. split; [|split; assumption].
  apply round_ok_fields with (r := r); try reflexivity; [assumption|discriminate].
Qed.

Lemma push_history_firstn (entry : HistoryEntry) (h : list HistoryEntry) :
  (List.length h <= 50)%nat -> push_history entry h = firstn 50 (entry :: h).
Proof.
  intros Hlen. unfold push_history.
  destruct (Z.of_nat (List.length (entry :: h)) >? 50) eqn:E.
  - assert (Hl : List.length (entry :: h) = 51%nat).
    { apply Z.gtb_lt in E. simpl List.length in *. lia. }
    rewrite removelast_firstn_len, Hl. reflexivity.
  - assert (Hl : (List.length (entry :: h) <= 50)%nat).
    { destruct (Z.gtb_spec (Z.of_nat (List.length (entry :: h))) 50); [discriminate|lia]. }
    symmetry. apply firstn_all2. exact Hl.
Qed.

Lemma push_history_length (entry : HistoryEntry) (h : list HistoryEntry) :
  (List.length h <= 50)%nat -> (List.length (push_history entry h) <= 50)%nat.
Proof.
  intros Hlen. rewrite push_history_firstn by exact Hlen.
  rewrite length_firstn. lia.
Qed.

Lemma Forall_removelast {A} (P : A -> Prop) (l : list A) :
  Forall P l -> Forall P (removelast l).
Proof.
  induction 1 as [|x l Hx Hl IH]; simpl; [constructor|].
  destruct l; [constructor|]. constructor; assumption.
Qed.

Lemma push_history_Forall (P : HistoryEntry -> Prop) (entry : HistoryEntry)
    (h : list HistoryEntry) :
  P entry -> Forall P h -> Forall P (push_history entry h).
Proof.
  intros He Hh. unfold push_history.
  destruct (_ >? 50); [apply Forall_removelast|]; constructor; assumption.
Qed.

(** With one bet per player and every cashout the cashout of a bet, the
    bets without a cashout and the cashouts count the bets. *)
Lemma losers_and_cashouts (entries : JSMap.t Bet) (cashed : JSMap.t Cashout) :
  NoDup (List.map fst entries) ->
  NoDup (List.map fst cashed) ->
  (forall p c, JSMap.get p cashed = Some c -> exists b, JSMap.get p entries = Some b) ->
  (List.length (collect_losers entries cashed) + List.length cashed
   = List.length entries)%nat.
Proof.
  intros Hb Hc Hsub.
  rewrite collect_losers_filter, length_map.
  pose proof (filter_length (fun pb : string * Bet => negb (JSMap.has (fst pb) cashed)) entries)
    as Hlen.
  assert (Hin : List.length (filter (fun pb : string * Bet =>
                                       negb (negb (JSMap.has (fst pb) cashed))) entries)
                = List.length cashed).
  { rewrite <- (length_map fst cashed).
    rewrite <- (length_map fst (filter _ entries)).
    assert (Hnd : NoDup (List.map fst
                (filter (fun pb : string * Bet => negb (negb (JSMap.has (fst pb) cashed)))
                   entries))).
    { clear -Hb. induction entries as [|[k b] l IH]; simpl; [constructor|].
      inversion Hb as [|? ? Hnotin Hb']; subst.
      destruct (negb (negb (JSMap.has k cashed))); simpl; [|auto].
      constructor; [|auto]. intros Hin. apply Hnotin.
      apply in_map_iff in Hin. destruct Hin as ([k' b'] & Hk & Hin). simpl in Hk. subst k'.
      apply filter_In in Hin. destruct Hin as (Hin & _).
      change k with (fst (k, b')). apply in_map. exact Hin. }
    apply Nat.le_antisymm; apply NoDup_incl_length; try assumption.
    - intros k Hin. apply in_map_iff in Hin. destruct Hin as ([k' b'] & Hk & Hin).
      simpl in Hk. subst k'. apply filter_In in Hin. destruct Hin as (_ & Hhas).
      simpl in Hhas. rewrite negb_involutive in Hhas.
      unfold JSMap.has in Hhas. destruct (JSMap.get k cashed) as [c|] eqn:Hg; [|discriminate].
      change k with (fst (k, c)). apply in_map. apply JSMap_get_In. exact Hg.
    - intros k Hin. apply in_map_iff in Hin. destruct Hin as ([k' c] & Hk & Hin).
      simpl in Hk. subst k'.
      pose proof (JSMap_get_NoDup _ _ _ Hc Hin) as Hg.
      destruct (Hsub _ _ Hg) as (b & Hgb).
      apply in_map_iff. exists (k, b). split; [reflexivity|].
      apply filter_In. split; [apply JSMap_get_In; exact Hgb|].
      simpl. unfold JSMap.has. rewrite Hg. reflexivity. }
  lia.
Qed.

Lemma crash_ok_step (now : Z) (e : CrashEngine) :
  engine_ok e ->
  engine_ok (snd (crash now e))
  /\ match fst (crash now e) with
     | Return (Some c) => crash_ok c
     | _ => True
     end.
Proof.
  intros Hok. unfold crash.
  destruct (currentRound e) as [r|] eqn:Hcur; [|split; [exact Hok|exact I]].
  destruct Hok as (Hr & Hlen & Hall). rewrite Hcur in Hr.
  destruct Hr as (Hst & Hs & Hc & Hn & Hh & Hcp & Hb & Hco & Hsub & Hid).
  simpl. split.
  - unfold engine_ok. simpl. split; [exact I|]. split.
    + apply push_history_length. exact Hlen.
    + apply push_history_Forall; [|exact Hall].
      unfold entry_ok. simpl. repeat split; [assumption|assumption|discriminate].
  - unfold crash_ok. simpl. repeat split; try assumption.
    + apply losers_and_cashouts; try assumption.
      intros p c Hg. destruct (Hsub _ _ Hg) as (b & Hgb & _). exists b. exact Hgb.
    + intros p x Hg. destruct (Hsub _ _ Hg) as (b & Hgb & _ & Ha). exists b. auto.
Qed.

Lemma tick_ok (now crashNow : Z) (e : CrashEngine) :
  engine_ok e ->
  engine_ok (snd (tick now crashNow e))
  /\ match fst (tick now crashNow e) with
     | Return (TickCrashed c) => crash_ok c
     | _ => True
     end.
Proof.
  intros Hok. unfold tick.
  destruct (currentRound e) as [r|] eqn:Hcur; [|split; [exact Hok|exact I]].
  destruct (negb (Status_eqb (status r) running)) eqn:Hrun; [split; [exact Hok|exact I]|].
  set (r1 := set_currentMultiplier _ r).
  assert (Hok1 : engine_ok (set_currentRound (Some r1) e)).
  { destruct Hok as (Hr & Hlen & Hall). rewrite Hcur in Hr.
    unfold engine_ok. simpl. split; [|split; assumption].
    apply round_ok_fields with (r := r); try reflexivity; [assumption|].
    destruct Hr as (Hst & _). exact Hst. }
  destruct (nle _ _).
  - pose proof (crash_ok_step crashNow Hok1) as (Hk & Hc).
    destruct (crash crashNow (set_currentRound (Some r1) e)) as [[[c|]|err] e2]; simpl in *;
      split; auto.
  - simpl. split; [|exact I].
    destruct Hok1 as (Hr & Hlen & Hall). unfold engine_ok. simpl. auto.
Qed.

Lemma addBet_ok (playerId : string) (amount : num) (sessionId : string) (now : Z)
    (e : CrashEngine) :
  engine_ok e -> engine_ok (snd (addBet playerId amount sessionId now e)).
Proof.
  intros Hok. unfold addBet.
  destruct (currentRound e) as [r|] eqn:Hcur; [|exact Hok].
  destruct (negb (Status_eqb (status r) betting)); [exact Hok|].
  destruct (JSMap.has playerId (bets r)) eqn:Hhas; [exact Hok|].
  apply JSMap_has_fresh in Hhas.
  destruct Hok as (Hr & Hlen & Hall). rewrite Hcur in Hr.
  destruct Hr as (Hst & Hs & Hc & Hn & Hh & Hcp & Hb & Hco & Hsub & Hid).
  unfold engine_ok. simpl. split; [|split; assumption].
  unfold round_ok. simpl. repeat split; try assumption.
  - apply JSMap_set_fresh_NoDup; assumption.
  - intros p c Hg. destruct (Hsub _ _ Hg) as (b & Hgb & Hp & Ha).
    exists b. split; [|split; assumption].
    rewrite JSMap_get_set. destruct (String.eqb p playerId) eqn:E; [|exact Hgb].
    apply String.eqb_eq in E. subst p. congruence.
  - intros p b. rewrite JSMap_get_set. destruct (String.eqb p playerId) eqn:E.
    + apply String.eqb_eq in E. subst p. intros [= <-]. reflexivity.
    + apply Hid.
Qed.

Lemma cashout_ok (playerId : string) (now : Z) (e : CrashEngine) :
  engine_ok e -> engine_ok (snd (cashout playerId now e)).
Proof.
  intros Hok. unfold cashout.
  destruct (currentRound e) as [r|] eqn:Hcur; [|exact Hok].
  destruct (negb (Status_eqb (status r) running)); [exact Hok|].
  destruct (JSMap.get playerId (bets r)) as [bet|] eqn:Hbet; [|exact Hok].
  destruct (JSMap.has playerId (cashedOut r)) eqn:Hhas; [exact Hok|].
  apply JSMap_has_fresh in Hhas.
  destruct Hok as (Hr & Hlen & Hall). rewrite Hcur in Hr.
  destruct Hr as (Hst & Hs & Hc & Hn & Hh & Hcp & Hb & Hco & Hsub & Hid).
  unfold engine_ok. simpl. split; [|split; assumption].
  unfold round_ok. simpl. repeat split; try assumption.
  - apply JSMap_set_fresh_NoDup; assumption.
  - intros p c. rewrite JSMap_get_set. destruct (String.eqb p playerId) eqn:E.
    + apply String.eqb_eq in E. subst p. intros [= <-]. simpl.
      exists bet. repeat split. exact Hbet.
    + apply Hsub.
Qed.

Lemma apply_ok (op : Op) (e : CrashEngine) :
  engine_ok e ->
  engine_ok (snd (apply op e))
  /\ match crash_of (fst (apply op e)) with
     | Some c => crash_ok c
     | None => True
     end.
Proof.
  intros Hok. destruct op as [now|[now|now|now crashNow|now|p a s now|p now]]; simpl.
  - pose proof (generateRound_ok now Hok). destruct (generateRound now e). simpl in *. auto.
  - pose proof (startBettingPhase_ok now Hok). destruct (startBettingPhase now e).
    simpl in *. auto.
  - pose proof (startRound_ok now Hok). destruct (startRound now e). simpl in *. auto.
  - pose proof (tick_ok now crashNow Hok) as (Hk & Hc).
    destruct (tick now crashNow e) as [[[|c|m]|err] e1]; simpl in *; auto.
  - pose proof (crash_ok_step now Hok) as (Hk & Hc).
    destruct (crash now e) as [[[c|]|err] e1]; simpl in *; auto.
  - pose proof (addBet_ok p a s now Hok). destruct (addBet p a s now e). simpl in *. auto.
  - pose proof (cashout_ok p now Hok). destruct (cashout p now e). simpl in *. auto.
Qed.

Lemma run_ok (ops : list Op) (e : CrashEngine) :
  engine_ok e ->
  engine_ok (snd (run ops e))
  /\ Forall (fun out => match crash_of out with Some c => crash_ok c | None => True end)
       (fst (run ops e)).
Proof.
  revert e. induction ops as [|op rest IH]; intros e Hok; simpl.
  - split; [exact Hok|constructor].
  - pose proof (apply_ok op Hok) as (Hk & Hc).
    destruct (apply op e) as [out e1]. simpl in *.
    destruct (IH e1 Hk) as (Hk2 & Hall).
    destruct (run rest e1) as [outs e2]. simpl in *.
    split; [exact Hk2|]. constructor; assumption.
Qed.

End TraceInvariant.

(** ** The history and the verification route *)

Lemma Forall_firstn {A} (P : A -> Prop) (n : nat) (l : list A) :
  Forall P l -> Forall P (firstn n l).
Proof.
  revert n. induction l as [|x l IH]; intros [|n] Hall; simpl; try constructor.
  - inversion Hall; assumption.
  - apply IH. inversion Hall; assumption.
Qed.

Lemma slice_to_firstn {A} (limit : Z) (l : list A) :
  0 <= limit -> slice_to limit l = firstn (Z.to_nat limit) l.
Proof.
  intros Hl. unfold slice_to.
  destruct (Z.ltb_spec limit 0); [lia|].
  destruct (Z.le_gt_cases limit (Z.of_nat (List.length l))).
  - rewrite Z.min_l by lia. reflexivity.
  - rewrite Z.min_r by lia. rewrite Nat2Z.id.
    rewrite firstn_all. symmetry. apply firstn_all2. lia.
Qed.

Lemma slice_to_prefix {A} (limit : Z) (l : list A) :
  exists n, slice_to limit l = firstn n l.
Proof. unfold slice_to. eexists. reflexivity. Qed.

(** X1: every round the engine has kept passes the verification route.
    Whatever calls were made on an engine since its construction, for each
    entry of its history, for each element of [recentRounds] of GET
    /crash/provably-fair and for the summary of each crash, POST
    /crash/provably-fair/verify with the entry's server seed, client seed
    and nonce answers [valid] with exactly the crash point and the seed hash
    the entry carries. *)
Theorem history_passes_verification
    (N : JSNumber) (H : Hmac) (S : Seeds) (seeds : SeedManager) (ops : list Trace.Op) :
  let e := snd (Trace.run ops (constructor seeds)) in
  let verifies serverSeed clientSeed nonce crashPoint serverSeedHash :=
    server.provably_fair_verify serverSeed clientSeed nonce
    = server.verify_valid crashPoint serverSeedHash in
  Forall
    (fun entry =>
       verifies (h_serverSeed entry) (h_clientSeed entry) (h_nonce entry)
         (h_crashPoint entry) (h_serverSeedHash entry))
    (roundHistory e)
  /\ Forall
       (fun rr =>
          verifies (server.rr_serverSeed rr) (server.rr_clientSeed rr) (server.rr_nonce rr)
            (server.rr_crashPoint rr) (server.rr_serverSeedHash rr))
       (server.provably_fair_recentRounds e)
  /\ Forall
       (fun out =>
          match crash_of out with
          | Some c =>
              verifies (v_serverSeed (cr_verification c)) (v_clientSeed (cr_verification c))
                (v_nonce (cr_verification c)) (v_crashPoint (cr_verification c))
                (v_serverSeedHash (cr_verification c))
          | None => True
          end)
       (fst (Trace.run ops (constructor seeds))).
Proof.
  intros e verifies.
  destruct (run_ok ops (constructor_ok seeds)) as ((_ & _ & Hall) & Houts).
  assert (Hhist : Forall
    (fun entry =>
       verifies (h_serverSeed entry) (h_clientSeed entry) (h_nonce entry)
         (h_crashPoint entry) (h_serverSeedHash entry)) (roundHistory e)).
  { apply Forall_impl with (2 := Hall). intros entry (Hh & Hcp & _).
    unfold verifies, server.provably_fair_verify. rewrite Hcp, Hh. reflexivity. }
  split; [exact Hhist|]. split.
  - unfold server.provably_fair_recentRounds, roundService.getHistory, getHistory.
    apply Forall_map. simpl.
    rewrite slice_to_firstn by lia. apply Forall_firstn. exact Hhist.
  - apply Forall_impl with (2 := Houts). intros out.
    destruct (crash_of out) as [c|]; [|auto].
    intros (_ & Hh & Hcp & _).
    unfold verifies, server.provably_fair_verify. rewrite Hcp, Hh. reflexivity.
Qed.

(** X2: the history holds the last 50 crashed rounds, newest first.
    Whatever calls were made since the construction, the history has at
    most 50 entries; a crash puts the entry of the crashed round in front
    and keeps the first 50; [getHistory()] is the first 20 entries,
    [getHistory(limit)] the first [limit] for a limit of 0 or more and all
    but the last [-limit] for a negative one; GET /crash/game/history
    answers the whole history when the limit is missing or 0, and never
    more than 50 entries. *)
Theorem history_keeps_the_last_50
    (N : JSNumber) (H : Hmac) (S : Seeds) (seeds : SeedManager) (ops : list Trace.Op) :
  let e := snd (Trace.run ops (constructor seeds)) in
  (List.length (roundHistory e) <= 50)%nat
  /\ (forall now,
        roundHistory (snd (crash now e))
        = match currentRound e with
          | Some r =>
              firstn 50
                (mkHistoryEntry (id r) (crashPoint r) (serverSeed r) (serverSeedHash r)
                   (clientSeed r) (nonce r) (startTime r) (Some now)
                 :: roundHistory e)
          | None => roundHistory e
          end)
  /\ getHistory None e = firstn 20 (roundHistory e)
  /\ (forall limit, 0 <= limit ->
        getHistory (Some limit) e = firstn (Z.to_nat limit) (roundHistory e))
  /\ (forall limit, limit < 0 ->
        getHistory (Some limit) e
        = firstn (List.length (roundHistory e) - Z.to_nat (- limit)) (roundHistory e))
  /\ server.game_history None e = roundHistory e
  /\ server.game_history (Some 0) e = roundHistory e
  /\ (forall parsed, (List.length (server.game_history parsed e) <= 50)%nat).
Proof.
  intros e.
  destruct (run_ok ops (constructor_ok seeds)) as ((_ & Hlen & _) & _).
  fold e in Hlen.
  assert (Hall : forall limit, 50 <= limit -> slice_to limit (roundHistory e) = roundHistory e).
  { intros limit Hl. rewrite slice_to_firstn by lia. apply firstn_all2. lia. }
  split; [exact Hlen|]. split; [|split; [|split; [|split; [|split; [|split]]]]].
  - intros now. unfold crash. destruct (currentRound e) as [r|]; [|reflexivity].
    simpl. apply push_history_firstn. exact Hlen.
  - unfold getHistory. rewrite slice_to_firstn by lia. reflexivity.
  - intros limit Hl. unfold getHistory. apply slice_to_firstn. exact Hl.
  - intros limit Hl. unfold getHistory, slice_to.
    destruct (Z.ltb_spec limit 0); [|lia]. f_equal. lia.
  - unfold server.game_history, roundService.getHistory, getHistory. apply Hall. lia.
  - unfold server.game_history, roundService.getHistory, getHistory. simpl. apply Hall. lia.
  - intros parsed. unfold server.game_history, roundService.getHistory, getHistory.
    destruct (slice_to_prefix
                match parsed with Some l => if l =? 0 then 50 else l | None => 50 end
                (roundHistory e)) as (n & ->).
    rewrite length_firstn. lia.
Qed.

(** ** The seed manager *)

Section SeedFrame.
Context {N : JSNumber} {H : Hmac} {S : Seeds}.
Import Trace.





End SeedFrame.


(** ** The bets at the crash *)

(** X4: at a crash every bet is accounted for once. Whatever calls were
    made since the construction, in the summary of each crash the losers
    and the cashouts together are as many as the bets of the round, and
    every cashout is the cashout of a bet of the round and carries the
    amount of that bet. *)
Theorem every_bet_is_settled_at_the_crash
    (N : JSNumber) (H : Hmac) (S : Seeds) (seeds : SeedManager) (ops : list Trace.Op) :
  Forall
    (fun out =>
       match crash_of out with
       | Some c =>
           (List.length (cr_losers c) + List.length (cashedOut (cr_round c))
            = List.length (bets (cr_round c)))%nat
           /\ (forall p x, JSMap.get p (cashedOut (cr_round c)) = Some x ->
                 exists b, JSMap.get p (bets (cr_round c)) = Some b
                           /\ co_betAmount x = bet_amount b)
       | None => True
       end)
    (fst (Trace.run ops (constructor seeds))).
Proof.
  destruct (run_ok ops (constructor_ok seeds)) as (_ & Houts).
  apply Forall_impl with (2 := Houts). intros out.
  destruct (crash_of out) as [c|]; [|auto].
  intros (_ & _ & _ & Hcount & Hsub). auto.
Qed.

(** ** The exponential curve *)

Section ExpBound.
Local Open Scope R_scope.

Lemma exp_taylor_3 (y : R) : 0 <= y -> 1 + y + y * y / 2 + y * y * y / 6 <= exp y.
Proof.
  intros Hy.
  assert (Hg : Un_growing (E1 y)).
  { intros n. unfold E1. rewrite tech5.
    assert (0 <= / INR (fact (Datatypes.S n)) * y ^ Datatypes.S n).
    { apply Rmult_le_pos; [left; apply Rinv_0_lt_compat, INR_fact_lt_0|apply pow_le; exact Hy]. }
    lra. }
  pose proof (growing_ineq (E1 y) (exp y) Hg (E1_cvg y) 3%nat) as Hle.
  unfold E1 in Hle. simpl in Hle. lra.
Qed.

Lemma exp_INR_mult (n : nat) (y : R) : exp (INR n * y) = exp y ^ n.
Proof.
  induction n as [|n IH].
  - simpl. rewrite Rmult_0_l. apply exp_0.
  - rewrite S_INR, Rmult_plus_distr_r, Rmult_1_l, exp_plus, IH. simpl. ring.
Qed.

(** e^(0.00006 * 115130) is at least 1000. *)
Lemma exp_reaches_1000 : 1000 <= exp (6 / 100000 * 115130).
Proof.
  set (y := 4317375 / 100000000).
  replace (6 / 100000 * 115130) with (INR 160 * y).
  2:{ unfold y. rewrite INR_IZR_INZ. simpl. lra. }
  rewrite exp_INR_mult.
  set (a := 6264714892758071912109375%Z).
  set (b := 6000000000000000000000000%Z).
  assert (Hb : 0 < IZR b) by (apply IZR_lt; reflexivity).
  assert (HT : IZR a / IZR b <= exp y).
  { eapply Rle_trans; [|apply exp_taylor_3; unfold y; lra].
    unfold a, b, y. lra. }
  assert (Hq : 0 <= IZR a / IZR b).
  { apply Rmult_le_pos; [apply IZR_le; vm_compute; discriminate|].
    left. apply Rinv_0_lt_compat. exact Hb. }
  eapply Rle_trans; [|apply pow_incr; split; [exact Hq|exact HT]].
  unfold Rdiv. rewrite Rpow_mult_distr, pow_inv.
  rewrite !pow_IZR.
  apply Rmult_le_reg_r with (r := IZR (b ^ Z.of_nat 160)).
  { apply IZR_lt. vm_compute. reflexivity. }
  rewrite Rmult_assoc, Rinv_l.
  2:{ apply not_0_IZR. vm_compute. discriminate. }
  rewrite Rmult_1_r, <- mult_IZR. apply IZR_le. vm_compute. discriminate.
Qed.

End ExpBound.

(** ** The crash point in integer arithmetic *)

Lemma Zfloor_div (a b : Z) : 0 < b -> Zfloor (IZR a / IZR b) = a / b.
Proof.
  intros Hb. apply Zfloor_eq.
  assert (Hr : (0 < IZR b)%R) by (apply IZR_lt; lia).
  pose proof (Z.mul_div_le a b Hb) as Hlo.
  pose proof (Z.mul_succ_div_gt a b Hb) as Hhi.
  split.
  - apply Rmult_le_reg_r with (r := IZR b); [exact Hr|].
    unfold Rdiv. rewrite Rmult_assoc, Rinv_l by lra.
    rewrite Rmult_1_r, <- mult_IZR. apply IZR_le. lia.
  - apply Rmult_lt_reg_r with (r := IZR b); [exact Hr|].
    unfold Rdiv at 1. rewrite Rmult_assoc, Rinv_l by lra.
    rewrite Rmult_1_r, <- plus_IZR, <- mult_IZR. apply IZR_lt. lia.
Qed.



Section IdealHundredths.
Context {H : Hmac (N := Ideal.number)}.
Local Open Scope R_scope.

Lemma calculateCrashPoint_hundredths (serverSeed clientSeed : string) (nonce : Z) :
  calculateCrashPoint (N := Ideal.number) serverSeed clientSeed nonce
  = match
      readUIntBE (hmacSha256Buffer (N := Ideal.number) serverSeed (clientSeed ++ ":" ++ show_Z nonce)) 0 6
    with
    | Return h => Return (IZR (Spec.hundredths h) / 100)
    | Throw message => Throw message
    end.
Proof.
  unfold calculateCrashPoint.
  destruct (readUIntBE _ 0 6) as [h|message] eqn:Hread; [|reflexivity].
  unfold readUIntBE in Hread.
  destruct (readUIntBE_from _ 6 0) as [h'|] eqn:Hfrom; [|discriminate].
  injection Hread as ->.
  apply readUIntBE_from_bound in Hfrom; [|lia].
  assert (Hz : (0 <= h < 2 ^ 48)%Z) by (simpl in Hfrom; lia).
  clear Hfrom.
  rewrite Math_pow_2_48.
  unfold dec, Spec.hundredths, Spec.exact_hundredths, config.GAME_MAX_MULTIPLIER.
  cbn -[Z.pow Z.mul Z.div Z.ltb Z.min Z.sub].
  assert (Hh : 0 <= IZR h < IZR (2 ^ 48)).
  { split; [apply IZR_le|apply IZR_lt]; lia. }
  assert (Hpos : 0 < IZR (2 ^ 48)) by (apply IZR_lt; lia).
  assert (Hraw : IZR h / IZR (2 ^ 48) < 1 / 100 <-> (100 * h < 2 ^ 48)%Z).
  { split.
    - intros Hlt. apply lt_IZR. rewrite mult_IZR.
      apply Rmult_lt_compat_r with (r := IZR (2 ^ 48)) in Hlt; [|exact Hpos].
      unfold Rdiv at 1 in Hlt. rewrite Rmult_assoc, Rinv_l in Hlt by lra. lra.
    - intros Hlt. apply IZR_lt in Hlt. rewrite mult_IZR in Hlt.
      apply Rmult_lt_reg_r with (r := IZR (2 ^ 48)); [exact Hpos|].
      unfold Rdiv at 1. rewrite Rmult_assoc, Rinv_l by lra. lra. }
  destruct (Rlt_dec (IZR h / IZR (2 ^ 48)) (1 / 100)) as [Hlt|Hge].
  - apply Hraw in Hlt. apply Z.ltb_lt in Hlt. rewrite Hlt.
    apply (f_equal (@Return R)). lra.
  - assert (Hge' : ~ (100 * h < 2 ^ 48)%Z) by (intros Hlt; apply Hge, Hraw, Hlt).
    apply Z.ltb_nlt in Hge'. rewrite Hge'. apply (f_equal (@Return R)).
    assert (Hd : (0 < 2 ^ 48 - h)%Z) by lia.
    replace (99 / 100 / (1 - IZR h / IZR (2 ^ 48)) * 100)
      with (IZR (99 * 2 ^ 48) / IZR (2 ^ 48 - h)).
    2:{ rewrite minus_IZR, mult_IZR. field. split; lra. }
    rewrite Zfloor_div by exact Hd.
    generalize (99 * 2 ^ 48 / (2 ^ 48 - h))%Z. intros q.
    change (100 * 1000)%Z with 100000%Z.
    destruct (Z.le_gt_cases q 100000) as [Hq|Hq].
    + rewrite Z.min_l by lia. apply Rmin_left. apply IZR_le in Hq. lra.
    + rewrite Z.min_r by lia. rewrite Rmin_right; [lra|].
      assert (Hq' : (100000 <= q)%Z) by lia. apply IZR_le in Hq'. lra.
Qed.

End IdealHundredths.


(** ** The length of a round *)

Section IdealRoundLength.
Local Open Scope R_scope.

Lemma calculateMultiplier_reaches_1000 (elapsed : Z) :
  (115130 <= elapsed)%Z -> 1000 <= calculateMultiplier (N := Ideal.number) elapsed.
Proof.
  intros Hle.
  eapply Rle_trans; [|apply calculateMultiplier_ideal_monotone; exact Hle].
  rewrite calculateMultiplier_ideal.
  assert (Hf : (100000 <= Zfloor (exp (6 / 100000 * 115130) * 100))%Z).
  { apply Zfloor_lub. pose proof exp_reaches_1000. lra. }
  apply IZR_le in Hf. lra.
Qed.

End IdealRoundLength.

(** X6: a running round ends within 115130 ms. Over the real numbers, a
    tick whose clock reading is 115130 ms or more after the start of a
    running round whose crash point is at most MAX_MULTIPLIER = 1000
    crashes the round: [tick] returns the crash summary, the round ends at
    its crash point and the engine has no current round. *)
Theorem round_crashes_within_115130_ms
    (S : Seeds) (e : CrashEngine (N := Ideal.number)) (r : Round (N := Ideal.number))
    (now crashNow : Z) :
  currentRound e = Some r ->
  status r = running ->
  (crashPoint r <= 1000)%R ->
  115130 <= now - match startTime r with Some t => t | None => 0 end ->
  tick_crashed (fst (tick now crashNow e)) = true
  /\ currentRound (snd (tick now crashNow e)) = None
  /\ exists c,
       fst (tick now crashNow e) = Return (TickCrashed c)
       /\ currentMultiplier (cr_round c) = crashPoint r
       /\ endTime (cr_round c) = Some crashNow.
Proof.
  intros Hr Hs Hcp Hel. unfold tick. rewrite Hr, Hs. cbn [negb Status_eqb].
  pose proof (calculateMultiplier_reaches_1000 Hel) as Hm.
  set (m := calculateMultiplier _) in *.
  change (nle (crashPoint (set_currentMultiplier m r)) m)
    with (if Rle_dec (crashPoint r) m then true else false).
  destruct (Rle_dec (crashPoint r) m) as [Hle|Hn]; [|exfalso; apply Hn; lra].
  unfold crash. simpl. repeat split. eexists. repeat split.
Qed.

Lemma round_crashes_within_115130_ms_witness :
  tick_crashed
    (fst (tick 115130 115131 IdealScenario.engine))
  = true.
Proof.
  refine (proj1 (@round_crashes_within_115130_ms Sample.seeds IdealScenario.engine
                   IdealScenario.round 115130 115131 eq_refl eq_refl _ _)).
  - simpl. lra.
  - simpl. lia.
Defined.

(** ** No cashout above the crash point *)

Section IdealTrace.
Context {H : Hmac (N := Ideal.number)} {S : Seeds}.
Import Trace Payout.
Local Open Scope R_scope.











End IdealTrace.


(** ** Reading the round back *)

Lemma JSMap_size_set_fresh {V} (k : string) (v : V) (m : JSMap.t V) :
  JSMap.get k m = None -> JSMap.size (JSMap.set k v m) = JSMap.size m + 1.
Proof.
  intros Hg. unfold JSMap.size. rewrite JSMap_set_fresh by exact Hg.
  rewrite length_app. simpl. lia.
Qed.


(** X8: a bet or a cashout that was accepted is read back. When
    [addBet] returns, the bet is the player's id, session, amount and clock
    reading; the player had no bet before and [getPlayerBet] now returns
    this one; the bets of the other players and every cashout are as
    before, and the snapshot counts one bet more in the same betting round.
    When [cashout] returns, [hasPlayerCashedOut] is true for the player and
    unchanged for the others, the bets and the snapshot are unchanged, and
    the cashout carries the amount of the player's bet. When either throws
    the engine is unchanged. *)
Theorem bets_and_cashouts_are_read_back
    (N : JSNumber) (S : Seeds) (e : CrashEngine) (playerId sessionId : string)
    (amount : num) (now : Z) :
  match addBet playerId amount sessionId now e with
  | (Return bet, e1) =>
      bet = mkBet playerId sessionId amount now
      /\ getPlayerBet playerId e = None
      /\ getPlayerBet playerId e1 = Some bet
      /\ (forall other, other <> playerId -> getPlayerBet other e1 = getPlayerBet other e)
      /\ (forall other, hasPlayerCashedOut other e1 = hasPlayerCashedOut other e)
      /\ match getCurrentRound e, getCurrentRound e1 with
         | Some before, Some after =>
             rs_betsCount after = rs_betsCount before + 1
             /\ rs_id after = rs_id before
             /\ rs_status after = betting
             /\ rs_status before = betting
             /\ rs_currentMultiplier after = rs_currentMultiplier before
         | _, _ => False
         end
  | (Throw _, e1) => e1 = e
  end
  /\ match cashout playerId now e with
     | (Return x, e1) =>
         hasPlayerCashedOut playerId e = false
         /\ hasPlayerCashedOut playerId e1 = true
         /\ (forall other, other <> playerId ->
               hasPlayerCashedOut other e1 = hasPlayerCashedOut other e)
         /\ (forall other, getPlayerBet other e1 = getPlayerBet other e)
         /\ (exists bet,
               getPlayerBet playerId e = Some bet /\ co_betAmount x = bet_amount bet)
         /\ co_playerId x = playerId
         /\ co_cashedOutAt x = now
         /\ getCurrentRound e1 = getCurrentRound e
     | (Throw _, e1) => e1 = e
     end.
Proof.
  split.
  - unfold addBet, getPlayerBet, hasPlayerCashedOut, getCurrentRound.
    destruct (currentRound e) as [r|] eqn:Hcur; [|reflexivity].
    destruct (Status_eqb (status r) betting) eqn:Hst; [|reflexivity]. simpl.
    destruct (JSMap.has playerId (bets r)) eqn:Hhas; [reflexivity|].
    apply JSMap_has_fresh in Hhas. simpl.
    split; [reflexivity|]. split; [exact Hhas|].
    split; [apply JSMap_get_set_same|].
    split.
    { intros other Hne. rewrite JSMap_get_set.
      destruct (String.eqb other playerId) eqn:E; [|reflexivity].
      apply String.eqb_eq in E. contradiction. }
    split; [reflexivity|].
    split; [apply JSMap_size_set_fresh; exact Hhas|].
    destruct (status r); try discriminate. repeat split.
  - unfold cashout, getPlayerBet, hasPlayerCashedOut, getCurrentRound.
    destruct (currentRound e) as [r|] eqn:Hcur; [|reflexivity].
    destruct (negb (Status_eqb (status r) running)); [reflexivity|].
    destruct (JSMap.get playerId (bets r)) as [bet|] eqn:Hbet; [|reflexivity].
    destruct (JSMap.has playerId (cashedOut r)) eqn:Hhas; [reflexivity|]. simpl.
    split; [reflexivity|].
    split; [unfold JSMap.has; rewrite JSMap_get_set_same; reflexivity|].
    split.
    { intros other Hne. unfold JSMap.has. rewrite JSMap_get_set.
      destruct (String.eqb other playerId) eqn:E; [|reflexivity].
      apply String.eqb_eq in E. contradiction. }
    split; [reflexivity|].
    split; [exists bet; split; reflexivity|].
    repeat split.
Qed.

(** ** From betting to running *)

(** X9: from the betting phase to the running round. When
    [startBettingPhase] returns, the returned round is current and in
    status betting; it is the round that was current (of any status, with
    its bets and cashouts) or, if there was none, the round [generateRound]
    makes; one [betting_phase] event with its id, seed hash, client seed,
    nonce and the duration 5000 is emitted; [tick] returns null and
    [cashout] throws "Round is not running"; and [startRound] then returns
    the round as running from its clock reading at multiplier 1.00, emits
    one [round_start], leaves the history alone, after which [addBet]
    throws "Betting phase has ended" and a second [startRound] throws. It
    throws only when there was no round and none could be generated.
    [startRound] on an engine with no round, or with a round that is not in
    betting, throws "No round in betting phase" and changes nothing. *)
Theorem betting_phase_then_round_start
    (N : JSNumber) (H : Hmac) (S : Seeds) (e : CrashEngine) (now : Z) :
  match startBettingPhase now e with
  | (Return r, e1) =>
      currentRound e1 = Some r
      /\ status r = betting
      /\ match currentRound e with
         | Some r0 => r = set_status betting r0
         | None =>
             fst (generateRound now e) = Return (set_status pending r)
             /\ bets r = JSMap.empty /\ cashedOut r = JSMap.empty
         end
      /\ emitted e1
         = (emitted e
            ++ [betting_phase (id r) (serverSeedHash r) (clientSeed r) (nonce r)
                  config.GAME_BETTING_PHASE_MS])%list
      /\ (forall t t', tick t t' e1 = (Return TickNull, e1))
      /\ (forall p t, cashout p t e1 = (Throw "Round is not running", e1))
      /\ forall now',
           let r' := set_currentMultiplier (of_Z 1) (set_startTime now' (set_status running r)) in
           let e2 := snd (startRound now' e1) in
           fst (startRound now' e1) = Return r'
           /\ currentRound e2 = Some r'
           /\ emitted e2 = (emitted e1 ++ [round_start (id r) (serverSeedHash r) now'])%list
           /\ roundHistory e2 = roundHistory e
           /\ (forall p a s t, addBet p a s t e2 = (Throw "Betting phase has ended", e2))
           /\ (forall t, startRound t e2 = (Throw "No round in betting phase", e2))
  | (Throw message, e1) =>
      e1 = e /\ currentRound e = None /\ fst (generateRound now e) = Throw message
  end
  /\ match currentRound e with
     | Some r0 =>
         status r0 = betting
         \/ startRound now e = (Throw "No round in betting phase", e)
     | None => startRound now e = (Throw "No round in betting phase", e)
     end.
Proof.
  split.
  - unfold startBettingPhase.
    assert (Hafter : forall r0 e0,
      let r := set_status betting r0 in
      let e1 :=
        emit (betting_phase (id r) (serverSeedHash r) (clientSeed r) (nonce r)
                config.GAME_BETTING_PHASE_MS)
          (set_currentRound (Some r) e0) in
      (forall t t', tick t t' e1 = (Return TickNull, e1))
      /\ (forall p t, cashout p t e1 = (Throw "Round is not running", e1))
      /\ forall now',
           let r' := set_currentMultiplier (of_Z 1) (set_startTime now' (set_status running r)) in
           let e2 := snd (startRound now' e1) in
           fst (startRound now' e1) = Return r'
           /\ currentRound e2 = Some r'
           /\ emitted e2 = (emitted e1 ++ [round_start (id r) (serverSeedHash r) now'])%list
           /\ roundHistory e2 = roundHistory e0
           /\ (forall p a s t, addBet p a s t e2 = (Throw "Betting phase has ended", e2))
           /\ (forall t, startRound t e2 = (Throw "No round in betting phase", e2))).
    { intros r0 e0 r e1. repeat split. }
    destruct (currentRound e) as [r0|] eqn:Hcur.
    + simpl. split; [reflexivity|]. split; [reflexivity|]. split; [reflexivity|].
      split; [reflexivity|]. apply Hafter.
    + unfold generateRound.
      destruct (calculateCrashPoint _ _ _) as [cp|message]; simpl.
      * split; [reflexivity|]. split; [reflexivity|].
        split; [repeat split|]. split; [reflexivity|].
        match goal with
        | |- context [set_currentRound (Some (set_status betting ?r0)) ?e0] =>
            exact (Hafter r0 e0)
        end.
      * repeat split.
  - unfold startRound. destruct (currentRound e) as [r0|]; [|reflexivity].
    destruct (status r0); simpl; auto.
Qed.

(** ** The pending transactions of the callback service *)

Section PendingTransactions.
Context {N : JSNumber} {H : Hmac}.

Lemma makeRequest_first_ok (url : string) (payload : Payload)
    (w : callbackService.World) (status : Z) (data : callbackService.Json) :
  callbackService.platform w (callbackService.fetches w)
  = callbackService.Response true status (Return data) ->
  callbackService.makeRequest url payload 1 w
  = (Return data,
     callbackService.mkWorld (callbackService.platform w)
       (Datatypes.S (callbackService.fetches w)) (callbackService.clock w)
       (callbackService.io w
        ++ [callbackService.Fetched
              (Spec.request_for url payload (callbackService.clock w))])%list).
Proof.
  intros Hp. rewrite makeRequest_unfold.
  unfold callbackService.attempt_once, callbackService.fetch. rewrite Hp. reflexivity.
Qed.

Lemma option_string_eqb_eq (a b : option string) :
  callbackService.option_string_eqb a b = true <-> a = b.
Proof.
  destruct a as [x|], b as [y|]; simpl; split; try discriminate; try reflexivity.
  - intros E. apply String.eqb_eq in E. subst. reflexivity.
  - intros [= ->]. apply String.eqb_refl.
Qed.

Lemma clearPendingTransaction_absent (transactionId : option string)
    (pending : callbackService.Pending) :
  Forall (fun entry => callbackService.ptx_transactionId (snd entry) <> transactionId)
    pending ->
  callbackService.clearPendingTransaction transactionId pending = pending.
Proof.
  induction 1 as [|[k tx] l Hx Hl IH]; simpl; [reflexivity|].
  destruct (callbackService.option_string_eqb (callbackService.ptx_transactionId tx)
              transactionId) eqn:E.
  - exfalso. apply Hx. simpl. apply option_string_eqb_eq. exact E.
  - rewrite IH. reflexivity.
Qed.

Lemma clearPendingTransaction_first (transactionId : option string)
    (before after : callbackService.Pending) (requestId : string)
    (tx : callbackService.PendingTransaction) :
  Forall (fun entry => callbackService.ptx_transactionId (snd entry) <> transactionId)
    before ->
  callbackService.ptx_transactionId tx = transactionId ->
  callbackService.clearPendingTransaction transactionId
    (before ++ (requestId, tx) :: after)%list
  = (before ++ after)%list.
Proof.
  intros Hb Htx. induction Hb as [|[k v] l Hx Hl IH]; simpl.
  - assert (E : callbackService.option_string_eqb (callbackService.ptx_transactionId tx)
                  transactionId = true) by (apply option_string_eqb_eq; exact Htx).
    rewrite E. reflexivity.
  - destruct (callbackService.option_string_eqb (callbackService.ptx_transactionId v)
                transactionId) eqn:E.
    + exfalso. apply Hx. simpl. apply option_string_eqb_eq. exact E.
    + rewrite IH. reflexivity.
Qed.

End PendingTransactions.

(** X10: a settled bet leaves no pending transaction. If the platform
    answers the first /bet request with a 2xx body that carries a
    transactionId (whatever its status field says), [placeBet] succeeds
    with that id and appends the transaction to the pending ones under the
    request id; if the request id is new and no pending transaction had the
    id before, then a /win for that transaction whose answer carries a
    transactionId, and a /rollback of it whose answer has status "OK",
    succeed and leave the pending transactions as they were before the
    bet, and a /win answer without transactionId or a /rollback answer
    with another status fails and leaves the transaction pending. *)
Theorem settled_bet_leaves_no_pending_transaction
    (N : JSNumber) (H : Hmac)
    (callbackBaseUrl roundId playerId sessionId currency : string) (amount : num)
    (pending : callbackService.Pending) (w : callbackService.World)
    (status : Z) (b : callbackService.Body) (transactionId : string) :
  let requestId :=
    "BET-" ++ roundId ++ "-" ++ playerId ++ "-" ++ show_Z (callbackService.clock w) in
  let payload :=
    BetPayload requestId roundId playerId sessionId amount currency
      (callbackService.clock w) in
  let debit :=
    callbackService.placeBet callbackBaseUrl roundId playerId sessionId amount currency
      pending w in
  let pending1 := snd (fst debit) in
  callbackService.platform w (callbackService.fetches w)
  = callbackService.Response true status (Return (callbackService.JsonObject b)) ->
  callbackService.body_transactionId b = Some transactionId ->
  JSMap.get requestId pending = None ->
  Forall
    (fun entry => callbackService.ptx_transactionId (snd entry) <> Some transactionId)
    pending ->
  callbackService.cb_success (fst (fst debit)) = true
  /\ callbackService.cb_transactionId (fst (fst debit)) = Some transactionId
  /\ pending1
     = (pending
        ++ [(requestId,
             callbackService.mkPendingTransaction "bet" payload (Some transactionId))])%list
  /\ (forall betAmount multiplier winAmount w2 status2 b2,
        callbackService.platform w2 (callbackService.fetches w2)
        = callbackService.Response true status2 (Return (callbackService.JsonObject b2)) ->
        let credit :=
          callbackService.creditWin callbackBaseUrl roundId playerId sessionId betAmount
            multiplier winAmount currency (Some transactionId) pending1 w2 in
        (callbackService.body_transactionId b2 <> None ->
         callbackService.cb_success (fst (fst credit)) = true
         /\ snd (fst credit) = pending)
        /\ (callbackService.body_transactionId b2 = None ->
            callbackService.cb_success (fst (fst credit)) = false
            /\ snd (fst credit) = pending1))
  /\ (forall reason w2 status2 b2,
        callbackService.platform w2 (callbackService.fetches w2)
        = callbackService.Response true status2 (Return (callbackService.JsonObject b2)) ->
        let refund :=
          callbackService.rollback callbackBaseUrl roundId playerId sessionId amount
            currency (Some transactionId) reason pending1 w2 in
        (callbackService.body_status b2 = Some "OK" ->
         callbackService.cb_success (fst (fst refund)) = true
         /\ snd (fst refund) = pending)
        /\ (callbackService.body_status b2 <> Some "OK" ->
            callbackService.cb_success (fst (fst refund)) = false
            /\ snd (fst refund) = pending1)).
Proof.
  intros requestId payload debit pending1 Hp Ht Hfresh Hnone.
  assert (Hdebit : debit
    = (callbackService.mkCallbackResult true (Some transactionId)
         (callbackService.body_newBalance b) None None requestId,
       (pending
        ++ [(requestId,
             callbackService.mkPendingTransaction "bet" payload (Some transactionId))])%list,
       callbackService.mkWorld (callbackService.platform w)
         (Datatypes.S (callbackService.fetches w)) (callbackService.clock w)
         (callbackService.io w
          ++ [callbackService.Fetched
                (Spec.request_for (callbackBaseUrl ++ "/bet") payload
                   (callbackService.clock w))])%list)).
  { unfold debit, callbackService.placeBet.
    fold requestId. fold payload.
    rewrite (makeRequest_first_ok _ _ _ Hp). rewrite Ht.
    rewrite JSMap_set_fresh by exact Hfresh. reflexivity. }
  assert (Hp1 : pending1
    = (pending
       ++ [(requestId,
            callbackService.mkPendingTransaction "bet" payload (Some transactionId))])%list).
  { unfold pending1. rewrite Hdebit. reflexivity. }
  rewrite Hdebit. simpl fst. simpl snd.
  split; [reflexivity|]. split; [reflexivity|]. split; [exact Hp1|].
  assert (Hclear : callbackService.clearPendingTransaction (Some transactionId) pending1
                   = pending).
  { rewrite Hp1.
    rewrite clearPendingTransaction_first; [apply app_nil_r|exact Hnone|reflexivity]. }
  split.
  - intros betAmount multiplier winAmount w2 status2 b2 Hp2 credit.
    unfold credit, callbackService.creditWin.
    rewrite (makeRequest_first_ok _ _ _ Hp2).
    destruct (callbackService.body_transactionId b2) as [t2|]; simpl.
    + split; [intros _; split; [reflexivity|exact Hclear]|discriminate].
    + split; [intros Hn; contradiction|intros _; split; reflexivity].
  - intros reason w2 status2 b2 Hp2 refund.
    unfold refund, callbackService.rollback.
    rewrite (makeRequest_first_ok _ _ _ Hp2).
    destruct (callbackService.option_string_eqb (callbackService.body_status b2) (Some "OK"))
      eqn:E; simpl.
    + split; [intros _; split; [reflexivity|exact Hclear]|].
      intros Hn. exfalso. apply Hn. apply option_string_eqb_eq. exact E.
    + split; [|intros _; split; reflexivity].
      intros Hok. rewrite Hok in E. simpl in E. discriminate.
Qed.

Section ScenarioPending.
Import Sample.

Lemma settled_bet_leaves_no_pending_transaction_witness :
  callbackService.cb_success
    (fst (fst (callbackService.placeBet (H := Sample.hmac)
                 "https://platform.example/game-callbacks" "R-1700000000000-0" "alice"
                 "SESSION-alice" 10%float "EUR" []
                 (Scenario.world_of Scenario.platform_accepts Scenario.t0))))
  = true.
Proof.
  refine (proj1 (@settled_bet_leaves_no_pending_transaction Sample.number Sample.hmac
                   "https://platform.example/game-callbacks" "R-1700000000000-0" "alice"
                   "SESSION-alice" "EUR" 10%float []
                   (Scenario.world_of Scenario.platform_accepts Scenario.t0) 200
                   (callbackService.mkBody (Some "OK") (Some "TXN-1") (Some 90%float)
                      None None)
                   "TXN-1" _ _ _ _)).
  - reflexivity.
  - reflexivity.
  - reflexivity.
  - constructor.
Defined.

End ScenarioPending.

(** ** The balance request *)


(** ** The active bets *)

Lemma JSMap_get_delete {V} (k p : string) (m : JSMap.t V) :
  NoDup (List.map fst m) ->
  JSMap.get p (JSMap.delete k m) = if String.eqb p k then None else JSMap.get p m.
Proof.
  induction m as [|[k0 v0] m IH]; simpl; intros Hnd.
  - destruct (String.eqb p k); reflexivity.
  - inversion Hnd as [|? ? Hnotin Hnd']; subst.
    destruct (String.eqb k k0) eqn:Ek.
    + apply String.eqb_eq in Ek. subst k0.
      destruct (String.eqb p k) eqn:Ep; [|reflexivity].
      apply String.eqb_eq in Ep. subst p. apply JSMap_get_None. exact Hnotin.
    + simpl. destruct (String.eqb p k0) eqn:Ep0.
      * apply String.eqb_eq in Ep0. subst k0.
        destruct (String.eqb p k) eqn:Ep; [|reflexivity].
        apply String.eqb_eq in Ep. subst p. rewrite String.eqb_refl in Ek. discriminate.
      * apply IH. exact Hnd'.
Qed.

Lemma JSMap_delete_incl {V} (k : string) (m : JSMap.t V) :
  incl (JSMap.delete k m) m.
Proof.
  induction m as [|[k0 v0] m IH]; simpl; [apply incl_refl|].
  destruct (String.eqb k k0).
  - apply incl_tl, incl_refl.
  - intros x [<-|Hin]; [left; reflexivity|right; apply IH; exact Hin].
Qed.

Lemma JSMap_delete_NoDup {V} (k : string) (m : JSMap.t V) :
  NoDup (List.map fst m) -> NoDup (List.map fst (JSMap.delete k m)).
Proof.
  induction m as [|[k0 v0] m IH]; simpl; intros Hnd; [constructor|].
  inversion Hnd as [|? ? Hnotin Hnd']; subst.
  destruct (String.eqb k k0); [exact Hnd'|]. simpl. constructor; [|apply IH; exact Hnd'].
  intros Hin. apply Hnotin. apply in_map_iff in Hin. destruct Hin as (x & Hx & Hin).
  apply in_map_iff. exists x. split; [exact Hx|]. apply (JSMap_delete_incl k m). exact Hin.
Qed.

Lemma JSMap_delete_length {V} (k : string) (m : JSMap.t V) :
  (List.length (JSMap.delete k m) <= List.length m)%nat.
Proof.
  induction m as [|[k0 v0] m IH]; simpl; [lia|].
  destruct (String.eqb k k0); simpl; lia.
Qed.

(** X12: [handleRoundCrash] removes the active bets of the losers and no
    others. With one entry per player, after it a player has no active bet
    if the player is among the losers and the same active bet as before
    otherwise; there is still one entry per player and no entry is added. *)
Theorem handleRoundCrash_removes_the_losers
    (N : JSNumber) (losers : list Loser) (active : JSMap.t betService.ActiveBet) :
  NoDup (List.map fst active) ->
  let active' := betService.handleRoundCrash losers active in
  (forall playerId,
     JSMap.get playerId active'
     = if existsb (fun loser => String.eqb playerId (loser_playerId loser)) losers
       then None
       else JSMap.get playerId active)
  /\ NoDup (List.map fst active')
  /\ (List.length active' <= List.length active)%nat.
Proof.
  revert active. induction losers as [|loser rest IH]; intros active Hnd; simpl.
  - split; [reflexivity|]. split; [exact Hnd|lia].
  - set (active1 := if JSMap.has (loser_playerId loser) active
                    then JSMap.delete (loser_playerId loser) active
                    else active).
    assert (Hnd1 : NoDup (List.map fst active1)).
    { unfold active1. destruct (JSMap.has _ active); [apply JSMap_delete_NoDup|];
        exact Hnd. }
    assert (Hget1 : forall p,
               JSMap.get p active1
               = if String.eqb p (loser_playerId loser) then None else JSMap.get p active).
    { intros p. unfold active1.
      destruct (JSMap.has (loser_playerId loser) active) eqn:Hhas.
      - apply JSMap_get_delete. exact Hnd.
      - apply JSMap_has_fresh in Hhas.
        destruct (String.eqb p (loser_playerId loser)) eqn:E; [|reflexivity].
        apply String.eqb_eq in E. subst p. exact Hhas. }
    assert (Hlen1 : (List.length active1 <= List.length active)%nat).
    { unfold active1. destruct (JSMap.has _ active); [apply JSMap_delete_length|lia]. }
    destruct (IH active1 Hnd1) as (Hget & Hnd' & Hlen).
    split; [|split; [exact Hnd'|lia]].
    intros p. rewrite Hget, Hget1.
    destruct (String.eqb p (loser_playerId loser)); simpl; [|reflexivity].
    destruct (existsb _ rest); reflexivity.
Qed.

Section ScenarioLosers.
Import Sample.

Lemma handleRoundCrash_removes_the_losers_witness :
  JSMap.get "alice"
    (betService.handleRoundCrash [mkLoser "alice" Scenario.alice_bet]
       (betService.activeBets Scenario.shared_running))
  = None.
Proof.
  refine (proj1 (@handleRoundCrash_removes_the_losers Sample.number
                   [mkLoser "alice" Scenario.alice_bet]
                   (betService.activeBets Scenario.shared_running) _) "alice").
  simpl. constructor; [intros []|constructor].
Defined.

End ScenarioLosers.

Ltac settle_cases :=
  simpl;
  repeat match goal with
         | |- _ /\ _ => split
         | |- forall _, _ => intro
         | H : Return _ = Return _ |- _ => injection H as <-
         | H : ?a <> ?a |- _ => exfalso; apply H; reflexivity
         | H : _ = _ |- _ => discriminate H
         | H : ?x = _, H' : context [?x] |- _ => rewrite H in H'
         | |- _ = _ => reflexivity
         end;
  try congruence.

(** X13: [processCashout] throws before it touches anything. Whenever it
    rejects, the singletons and the outside are as before: nothing was
    recorded and no request was sent. It rejects with the error of the
    session check; with "No active bet found" for a player without an
    active bet; then with "Already cashed out"; then with "Round is not
    running" unless a round is running; then with "No bet found for player"
    when the active bet has no bet in the running round; and in no other
    case. *)
Theorem processCashout_throws_before_it_touches_anything
    (N : JSNumber) (H : Hmac) (S : Seeds) (SS : Sessions)
    (sessionId : string) (during_credit : betService.Others)
    (s : betService.Shared) (w : callbackService.World) :
  let out := betService.processCashout sessionId during_credit s w in
  (is_Throw (fst (fst out)) = true -> snd (fst out) = s /\ snd out = w)
  /\ (forall message,
        validateSession sessionId (betService.sessions s) = Throw message ->
        fst (fst out) = Throw message)
  /\ (forall session,
        validateSession sessionId (betService.sessions s) = Return session ->
        let playerId := session_playerId session in
        (betService.getActiveBet playerId s = None ->
         fst (fst out) = Throw "No active bet found")
        /\ (betService.hasActiveBet playerId s = true ->
            (hasPlayerCashedOut playerId (betService.engine s) = true ->
             fst (fst out) = Throw "Already cashed out")
            /\ (hasPlayerCashedOut playerId (betService.engine s) = false ->
                (roundService.isRoundRunning (betService.engine s) <> Some true ->
                 fst (fst out) = Throw "Round is not running")
                /\ (roundService.isRoundRunning (betService.engine s) = Some true ->
                    (getPlayerBet playerId (betService.engine s) = None ->
                     fst (fst out) = Throw "No bet found for player")
                    /\ (getPlayerBet playerId (betService.engine s) <> None ->
                        is_Throw (fst (fst out)) = false))))).
Proof.
  intros out. unfold out, betService.processCashout, betService.getActiveBet,
    betService.hasActiveBet, roundService.isRoundRunning, hasPlayerCashedOut,
    getPlayerBet, getCurrentRound.
  destruct (validateSession sessionId (betService.sessions s)) as [session|message0]
    eqn:Hsession; [|settle_cases].
  unfold JSMap.has.
  destruct (JSMap.get (session_playerId session) (betService.activeBets s))
    as [activeBet|] eqn:Hactive; [|settle_cases].
  destruct (currentRound (betService.engine s)) as [r|] eqn:Hcur; [|settle_cases].
  destruct (JSMap.get (session_playerId session) (cashedOut r)) as [x|] eqn:Hco;
    [settle_cases|].
  cbn [rs_status].
  destruct (Status_eqb (status r) running) eqn:Hst; [|settle_cases].
  unfold cashout. rewrite Hcur, Hst. cbn [negb].
  destruct (JSMap.get (session_playerId session) (bets r)) as [bet|] eqn:Hbet.
  2:{ settle_cases. destruct s; reflexivity. }
  unfold JSMap.has. rewrite Hco.
  match goal with
  | |- context [callbackService.creditWin ?a ?b ?c ?d ?e ?f ?g ?h ?i ?j ?k] =>
      destruct (callbackService.creditWin a b c d e f g h i j k) as [[callbackResult p1] w1]
  end.
  destruct (callbackService.cb_success callbackResult); settle_cases.
Qed.

(** ** The round service *)

Section RoundServiceSteps.
Context {N : JSNumber} {H : Hmac} {S : Seeds} {SS : Sessions} {SK : SessionSockets}.

Lemma notify_losers_effects (roundId : string) (crashPoint : num) (losers : list Loser)
    (st : roundService.State) :
  roundService.notify_losers roundId crashPoint losers st
  = roundService.mkState (roundService.service st) (roundService.shared st)
      (roundService.effects st
       ++ flat_map
            (Rounds.bet_lost_for (betService.sessions (roundService.shared st)) roundId
               crashPoint)
            losers)%list
      (roundService.handles st).
Proof.
  revert st. induction losers as [|loser rest IH]; intros st; simpl.
  - rewrite app_nil_r. destruct st. reflexivity.
  - rewrite IH. unfold Rounds.bet_lost_for at 2.
    destruct (getSessionByPlayerId (loser_playerId loser)
                (betService.sessions (roundService.shared st))) as [[socketId|]|];
      simpl; try reflexivity.
    destruct (String.eqb socketId ""); simpl; [reflexivity|].
    rewrite <- app_assoc. reflexivity.
Qed.

Lemma tick_crashed_status (now crashNow : Z) (e e1 : CrashEngine) (c : CrashResult) :
  tick now crashNow e = (Return (TickCrashed c), e1) -> status (cr_round c) = crashed.
Proof.
  unfold tick. destruct (currentRound e) as [r|]; [|discriminate].
  destruct (negb _); [discriminate|]. destruct (nle _ _); [|discriminate].
  unfold crash. simpl. intros [= <- _]. reflexivity.
Qed.

End RoundServiceSteps.

(** X14: [processTick] settles the crash. While the service runs, a tick
    that crashes the round clears the tick interval, removes the active
    bets of the losers, sends, if the controls namespace is set, one
    [bet_lost] with the round id, the crash point and the stake to each
    loser whose session has a controls socket, in the order of the losers,
    and then sets the timeout of [startNewRound] at ROUND_DELAY_MS; any
    other tick only updates the engine. A service that does not run clears
    the interval and leaves the engine alone. *)
Theorem processTick_settles_the_crash
    (N : JSNumber) (H : Hmac) (S : Seeds) (SS : Sessions) (SK : SessionSockets)
    (st : roundService.State) (now crashNow : Z) (during_cleanup : betService.Others) :
  let out := roundService.processTick now crashNow during_cleanup st in
  if roundService.isRunning (roundService.service st) then
    match tick now crashNow (betService.engine (roundService.shared st)) with
    | (Return (TickCrashed c), e1) =>
        let shared' :=
          during_cleanup
            (betService.set_activeBets
               (betService.handleRoundCrash (cr_losers c)
                  (betService.activeBets (roundService.shared st)))
               (betService.set_engine e1 (roundService.shared st))) in
        fst out = Return tt
        /\ roundService.shared (snd out) = shared'
        /\ roundService.tickInterval (roundService.service (snd out)) = None
        /\ roundService.isRunning (roundService.service (snd out)) = true
        /\ roundService.handles (snd out) = roundService.handles st
        /\ roundService.effects (snd out)
           = (roundService.effects st
              ++ match roundService.tickInterval (roundService.service st) with
                 | Some handle => [roundService.ClearInterval (Some handle)]
                 | None => []
                 end
              ++ (if roundService.controlsNamespace (roundService.service st)
                  then
                    flat_map
                      (Rounds.bet_lost_for (betService.sessions shared') (id (cr_round c))
                         (crashPoint (cr_round c)))
                      (cr_losers c)
                  else [])
              ++ [roundService.SetTimeout roundService.cb_startNewRound
                    config.GAME_ROUND_DELAY_MS])%list
    | (Return _, e1) => out = (Return tt, roundService.set_engine e1 st)
    | (Throw message, e1) => out = (Throw message, roundService.set_engine e1 st)
    end
  else
    out
    = (Return tt,
       roundService.perform
         (roundService.ClearInterval
            (roundService.tickInterval (roundService.service st)))
         st).
Proof.
  intros out. unfold out, roundService.processTick.
  destruct (roundService.isRunning (roundService.service st)) eqn:Hrun; [|reflexivity].
  cbn [negb].
  destruct (tick now crashNow (betService.engine (roundService.shared st)))
    as [[[|c|m]|message] e1] eqn:Htick; try reflexivity.
  rewrite (tick_crashed_status _ _ _ Htick). simpl.
  unfold roundService.handleCrash.
  destruct st as [[interval running game controls] shared effects handles].
  simpl in *. subst running.
  destruct interval as [handle|]; simpl;
    destruct controls; simpl; rewrite ?notify_losers_effects; simpl;
    repeat split; rewrite <- ?app_assoc; simpl; try reflexivity.
Qed.

Section StoppedService.
Context {N : JSNumber} {H : Hmac} {S : Seeds} {SS : Sessions} {SK : SessionSockets}.

Lemma fire_all_stopped (fired : list (roundService.Callback * Z * Z * betService.Others))
    (st : roundService.State) :
  roundService.isRunning (roundService.service st) = false ->
  roundService.fire_all fired st
  = roundService.mkState (roundService.service st) (roundService.shared st)
      (roundService.effects st
       ++ repeat
            (roundService.ClearInterval
               (roundService.tickInterval (roundService.service st)))
            (count Rounds.is_tick fired))%list
      (roundService.handles st).
Proof.
  revert st. induction fired as [|[[[callback now] crashNow] others] rest IH];
    intros st Hrun; simpl.
  - unfold count. simpl. rewrite app_nil_r. destruct st. reflexivity.
  - destruct callback; simpl.
    + unfold roundService.startRoundExecution. rewrite Hrun. simpl.
      rewrite IH by exact Hrun. reflexivity.
    + unfold roundService.startNewRound. rewrite Hrun. simpl.
      rewrite IH by exact Hrun. reflexivity.
    + unfold roundService.processTick. rewrite Hrun. simpl.
      rewrite IH by exact Hrun. simpl. unfold count. simpl.
      rewrite <- app_assoc. reflexivity.
Qed.

End StoppedService.

(** X15: a stopped service is inert. [stop] clears the tick interval if
    there is one; after it, whatever timers still fire, the engine, the
    active bets and the service are as [stop] left them, no timer is set,
    and each [processTick] only calls [clearInterval(null)]. *)
Theorem stopped_service_is_inert
    (N : JSNumber) (H : Hmac) (S : Seeds) (SS : Sessions) (SK : SessionSockets)
    (st : roundService.State)
    (fired : list (roundService.Callback * Z * Z * betService.Others)) :
  let stopped := snd (roundService.stop st) in
  let st' := roundService.fire_all fired stopped in
  roundService.isRunning (roundService.service stopped) = false
  /\ roundService.tickInterval (roundService.service stopped) = None
  /\ roundService.effects stopped
     = (roundService.effects st
        ++ match roundService.tickInterval (roundService.service st) with
           | Some handle => [roundService.ClearInterval (Some handle)]
           | None => []
           end)%list
  /\ roundService.shared stopped = roundService.shared st
  /\ roundService.service st' = roundService.service stopped
  /\ roundService.shared st' = roundService.shared st
  /\ roundService.handles st' = roundService.handles st
  /\ roundService.effects st'
     = (roundService.effects stopped
        ++ repeat (roundService.ClearInterval None) (count Rounds.is_tick fired))%list.
Proof.
  intros stopped st'.
  assert (Hstop : roundService.isRunning (roundService.service stopped) = false
                  /\ roundService.tickInterval (roundService.service stopped) = None
                  /\ roundService.effects stopped
                     = (roundService.effects st
                        ++ match roundService.tickInterval (roundService.service st) with
                           | Some handle => [roundService.ClearInterval (Some handle)]
                           | None => []
                           end)%list
                  /\ roundService.shared stopped = roundService.shared st
                  /\ roundService.handles stopped = roundService.handles st).
  { unfold stopped, roundService.stop. destruct st as [[interval running game controls] sh ef hs].
    simpl. destruct interval; simpl; repeat split. symmetry. apply app_nil_r. }
  destruct Hstop as (Hrun & Hint & Hef & Hsh & Hhs).
  unfold st'. rewrite (fire_all_stopped fired stopped Hrun). simpl. rewrite Hint.
  repeat split; assumption.
Qed.

(** X16: a round is opened, then started. While the service runs,
    [startNewRound] makes a new round from the current seeds the current
    round, in status betting and without bets or cashouts, emits its
    [betting_phase], sets the timeout of [startRoundExecution] at
    BETTING_PHASE_MS and leaves the active bets alone; [startRoundExecution]
    then starts that round at its clock reading and sets the interval of
    [processTick] at TICK_INTERVAL_MS, whose handle it keeps. If no round
    can be generated [startNewRound] rejects and schedules nothing; a
    service that does not run does nothing. [startRoundExecution] does
    nothing unless the current round is in betting. *)
Theorem round_is_opened_then_started
    (N : JSNumber) (H : Hmac) (S : Seeds) (SS : Sessions) (SK : SessionSockets)
    (st : roundService.State) (now : Z) :
  let e := betService.engine (roundService.shared st) in
  let opened := roundService.startNewRound now st in
  (if roundService.isRunning (roundService.service st) then
     match generateRound now e with
     | (Return r, _) =>
         let r1 := set_status betting r in
         fst opened = Return tt
         /\ currentRound (betService.engine (roundService.shared (snd opened))) = Some r1
         /\ bets r1 = JSMap.empty /\ cashedOut r1 = JSMap.empty
         /\ serverSeed r1 = getCurrentServerSeed (seedManager e)
         /\ emitted (betService.engine (roundService.shared (snd opened)))
            = (emitted e
               ++ [betting_phase (id r1) (serverSeedHash r1) (clientSeed r1) (nonce r1)
                     config.GAME_BETTING_PHASE_MS])%list
         /\ roundService.effects (snd opened)
            = (roundService.effects st
               ++ [roundService.SetTimeout roundService.cb_startRoundExecution
                     config.GAME_BETTING_PHASE_MS])%list
         /\ betService.activeBets (roundService.shared (snd opened))
            = betService.activeBets (roundService.shared st)
         /\ forall now',
              let started := roundService.startRoundExecution now' (snd opened) in
              let r2 :=
                set_currentMultiplier (of_Z 1) (set_startTime now' (set_status running r1)) in
              fst started = Return tt
              /\ currentRound (betService.engine (roundService.shared (snd started)))
                 = Some r2
              /\ roundService.tickInterval (roundService.service (snd started))
                 = Some (roundService.handles st)
              /\ roundService.handles (snd started) = Datatypes.S (roundService.handles st)
              /\ roundService.effects (snd started)
                 = (roundService.effects (snd opened)
                    ++ [roundService.SetInterval roundService.cb_processTick
                          config.GAME_TICK_INTERVAL_MS (roundService.handles st)])%list
     | (Throw message, _) =>
         fst opened = Throw message
         /\ roundService.effects (snd opened) = roundService.effects st
         /\ betService.engine (roundService.shared (snd opened)) = e
     end
   else opened = (Return tt, st))
  /\ (roundService.isInBettingPhase e <> Some true ->
      roundService.startRoundExecution now st = (Return tt, st)).
Proof.
  intros e opened. split.
  - unfold opened, roundService.startNewRound.
    destruct (roundService.isRunning (roundService.service st)) eqn:Hrun; [|reflexivity].
    cbn [negb]. fold e. unfold generateRound.
    destruct (calculateCrashPoint _ _ _) as [cp|message]; [|simpl; repeat split].
    simpl. repeat split.
    + unfold roundService.startRoundExecution. simpl. rewrite Hrun. reflexivity.
    + unfold roundService.startRoundExecution. simpl. rewrite Hrun. reflexivity.
    + unfold roundService.startRoundExecution. simpl. rewrite Hrun. reflexivity.
    + unfold roundService.startRoundExecution. simpl. rewrite Hrun. reflexivity.
    + unfold roundService.startRoundExecution. simpl. rewrite Hrun. reflexivity.
  - unfold roundService.isInBettingPhase, roundService.startRoundExecution. fold e.
    destruct (negb (roundService.isRunning (roundService.service st))); [reflexivity|].
    destruct (getCurrentRound e) as [round|]; [|reflexivity].
    destruct (Status_eqb (rs_status round) betting); [|reflexivity].
    intros Hn. exfalso. apply Hn. reflexivity.
Qed.

(** ** The state sent to a game socket that connects *)

(** X17: what a game socket that connects is sent. [sendCurrentState]
    sends [waiting] when there is no round or the round is pending,
    [round_running] with the multiplier and the start time when it is
    running, and [betting_phase] when it is in betting, with a duration
    that is NaN whatever the clock reads: the snapshot of [getCurrentRound]
    has no [bettingPhaseStartTime]. [round_crashed] is what it would send
    for a crashed round, and it is never sent for an engine reached by
    calls from its construction. *)
Theorem sendCurrentState_by_status
    (N : JSNumber) (H : Hmac) (S : Seeds) (e : CrashEngine) (now : Z)
    (seeds : SeedManager) (ops : list Trace.Op) :
  match currentRound e with
  | None => gameNamespace.sendCurrentState now e
            = gameNamespace.emit_waiting "Waiting for next round..."
  | Some r =>
      match status r with
      | pending =>
          gameNamespace.sendCurrentState now e
          = gameNamespace.emit_waiting "Waiting for next round..."
      | betting =>
          gameNamespace.sendCurrentState now e
          = gameNamespace.emit_betting_phase (id r) (serverSeedHash r) (clientSeed r)
              (nonce r) gameNamespace.NaN
      | running =>
          gameNamespace.sendCurrentState now e
          = gameNamespace.emit_round_running (id r) (serverSeedHash r)
              (currentMultiplier r) (startTime r)
      | crashed =>
          gameNamespace.sendCurrentState now e
          = gameNamespace.emit_round_crashed (id r) None
      end
  end
  /\ match gameNamespace.sendCurrentState now (snd (Trace.run ops (constructor seeds))) with
     | gameNamespace.emit_round_crashed _ _ => False
     | _ => True
     end.
Proof.
  split.
  - unfold gameNamespace.sendCurrentState, roundService.getCurrentRoundState,
      getCurrentRound.
    destruct (currentRound e) as [r|]; [|reflexivity].
    simpl. destruct (status r); reflexivity.
  - destruct (run_ok ops (constructor_ok seeds)) as ((Hr & _) & _).
    unfold gameNamespace.sendCurrentState, roundService.getCurrentRoundState,
      getCurrentRound.
    destruct (currentRound (snd (Trace.run ops (constructor seeds)))) as [r|]; [|exact I].
    destruct Hr as (Hst & _). simpl. destruct (status r); try exact I.
    apply Hst. reflexivity.
Qed.

(** ** The error of a failed callback *)

Section FailedCallback.
Context {N : JSNumber} {H : Hmac}.

(** The error an attempt throws is decided by the outcome of its fetch. *)
Lemma attempt_once_error (url : string) (payload : Payload) (w : callbackService.World) :
  thrown (fst (callbackService.attempt_once url payload w))
  = CallbackError.attempt_error
      (callbackService.platform w (callbackService.fetches w)).
Proof.
  unfold callbackService.attempt_once, callbackService.fetch.
  destruct (callbackService.platform w (callbackService.fetches w))
    as [message|[|] status [[|b]|message]]; reflexivity.
Qed.

Lemma attempt_once_world (url : string) (payload : Payload) (w : callbackService.World) :
  snd (callbackService.attempt_once url payload w)
  = callbackService.mkWorld (callbackService.platform w)
      (Datatypes.S (callbackService.fetches w)) (callbackService.clock w)
      (callbackService.io w
       ++ [callbackService.Fetched
             (Spec.request_for url payload (callbackService.clock w))])%list.
Proof. exact (proj1 (attempt_once_spec url payload w)). Qed.

Lemma attempt_once_fails (url : string) (payload : Payload) (w : callbackService.World) :
  Spec.attempt_failed (callbackService.platform w (callbackService.fetches w)) = true ->
  exists message,
    fst (callbackService.attempt_once url payload w) = Throw message
    /\ CallbackError.attempt_error
         (callbackService.platform w (callbackService.fetches w)) = Some message.
Proof.
  intros Hf. pose proof (attempt_once_error url payload w) as He.
  destruct (callbackService.platform w (callbackService.fetches w))
    as [message|[|] status [[|b]|message]]; simpl in Hf; try discriminate;
    simpl in He; destruct (fst (callbackService.attempt_once url payload w));
    simpl in He; try discriminate; injection He as ->; eexists; split; reflexivity.
Qed.

(** After three failed attempts the error of the third is thrown. *)
Lemma makeRequest_three_failures (url : string) (payload : Payload)
    (w : callbackService.World) :
  (forall j, (j < 3)%nat ->
     Spec.attempt_failed
       (callbackService.platform w (callbackService.fetches w + j)%nat) = true) ->
  exists message,
    CallbackError.attempt_error
      (callbackService.platform w (callbackService.fetches w + 2)%nat) = Some message
    /\ callbackService.makeRequest url payload 1 w
       = (Throw message,
          callbackService.mkWorld (callbackService.platform w)
            (callbackService.fetches w + 3) (callbackService.clock w + 1000 + 2000)
            (callbackService.io w
             ++ Spec.retry_io url payload 1 3 (callbackService.clock w))%list).
Proof.
  intros Hfail.
  rewrite makeRequest_unfold.
  destruct (callbackService.attempt_once url payload w) as [r1 w1] eqn:E1.
  pose proof (attempt_once_world url payload w) as Hw1. rewrite E1 in Hw1. simpl in Hw1.
  destruct (@attempt_once_fails url payload w) as (m1 & Hm1 & _).
  { rewrite <- (Nat.add_0_r (callbackService.fetches w)). apply Hfail. lia. }
  rewrite E1 in Hm1. simpl in Hm1. subst r1 w1.
  change (1 <? config.CALLBACK_RETRY_ATTEMPTS) with true. cbv iota.
  rewrite makeRequest_unfold.
  match goal with
  | |- context [callbackService.attempt_once url payload ?w2] =>
      set (second := w2)
  end.
  destruct (callbackService.attempt_once url payload second) as [r2 w2] eqn:E2.
  pose proof (attempt_once_world url payload second) as Hw2. rewrite E2 in Hw2.
  simpl in Hw2.
  destruct (@attempt_once_fails url payload second) as (m2 & Hm2 & _).
  { simpl. rewrite <- Nat.add_1_r. apply Hfail. lia. }
  rewrite E2 in Hm2. simpl in Hm2. subst r2 w2.
  change (1 + 1 <? config.CALLBACK_RETRY_ATTEMPTS) with true. cbv iota.
  rewrite makeRequest_unfold.
  match goal with
  | |- context [callbackService.attempt_once url payload ?w3] =>
      set (third := w3)
  end.
  destruct (callbackService.attempt_once url payload third) as [r3 w3] eqn:E3.
  pose proof (attempt_once_world url payload third) as Hw3. rewrite E3 in Hw3.
  simpl in Hw3.
  destruct (@attempt_once_fails url payload third) as (m3 & Hm3 & He3).
  { simpl. replace (Datatypes.S (Datatypes.S (callbackService.fetches w)))
      with (callbackService.fetches w + 2)%nat by lia. apply Hfail. lia. }
  rewrite E3 in Hm3. simpl in Hm3. subst r3 w3.
  change (1 + 1 + 1 <? config.CALLBACK_RETRY_ATTEMPTS) with false. cbv iota.
  exists m3. split.
  - simpl in He3.
    replace (callbackService.fetches w + 2)%nat
      with (Datatypes.S (Datatypes.S (callbackService.fetches w))) by lia.
    exact He3.
  - f_equal. simpl. f_equal; try lia.
    rewrite <- !app_assoc. reflexivity.
Qed.

End FailedCallback.

(** X18: a callback that fails reports the error of the last attempt. If
    the three attempts fail, [placeBet], [creditWin] and [rollback] resolve
    to [success: false] with code CALLBACK_FAILED, their own request id and
    the message of the third attempt's error, leave the pending
    transactions as they were, and [getBalance] resolves to the same code
    and message; the three attempts took 3 fetches and 3000 ms of delay. *)
Theorem failed_callback_reports_the_last_error
    (N : JSNumber) (H : Hmac)
    (callbackBaseUrl roundId playerId sessionId currency : string)
    (pending : callbackService.Pending) (w : callbackService.World) :
  (forall j, (j < 3)%nat ->
     Spec.attempt_failed
       (callbackService.platform w (callbackService.fetches w + j)%nat) = true) ->
  let now := show_Z (callbackService.clock w) in
  exists message,
    CallbackError.attempt_error
      (callbackService.platform w (callbackService.fetches w + 2)%nat) = Some message
    /\ (forall amount,
          let debit :=
            callbackService.placeBet callbackBaseUrl roundId playerId sessionId amount
              currency pending w in
          fst debit
          = (callbackService.callback_failed message
               ("BET-" ++ roundId ++ "-" ++ playerId ++ "-" ++ now),
             pending)
          /\ callbackService.fetches (snd debit) = (callbackService.fetches w + 3)%nat
          /\ callbackService.clock (snd debit) = callbackService.clock w + 3000)
    /\ (forall betAmount multiplier winAmount betTransactionId,
          fst (callbackService.creditWin callbackBaseUrl roundId playerId sessionId
                 betAmount multiplier winAmount currency betTransactionId pending w)
          = (callbackService.callback_failed message
               ("WIN-" ++ roundId ++ "-" ++ playerId ++ "-" ++ now),
             pending))
    /\ (forall amount originalTransactionId reason,
          fst (callbackService.rollback callbackBaseUrl roundId playerId sessionId amount
                 currency originalTransactionId reason pending w)
          = (callbackService.callback_failed message
               ("ROLLBACK-" ++ roundId ++ "-" ++ playerId ++ "-" ++ now),
             pending))
    /\ fst (callbackService.getBalance callbackBaseUrl playerId sessionId w)
       = callbackService.BalanceFailed "CALLBACK_FAILED" message.
Proof.
  intros Hfail now.
  destruct (@makeRequest_three_failures N H "" (BalancePayload "" "" 0) w Hfail)
    as (message & Hm & _).
  assert (Hreq : forall url payload,
             exists w3,
               callbackService.makeRequest url payload 1 w = (Throw message, w3)
               /\ callbackService.fetches w3 = (callbackService.fetches w + 3)%nat
               /\ callbackService.clock w3 = callbackService.clock w + 3000).
  { intros url payload.
    destruct (@makeRequest_three_failures N H url payload w Hfail) as (m & Hm' & Hr).
    assert (m = message) by congruence. subst m.
    eexists. split; [exact Hr|]. simpl. split; [reflexivity|lia]. }
  exists message. split; [exact Hm|].
  split; [|split; [|split]].
  - intros amount debit. unfold debit, callbackService.placeBet.
    match goal with
    | |- context [callbackService.makeRequest ?u ?p 1 w] =>
        destruct (Hreq u p) as (w3 & -> & Hf & Hc)
    end.
    simpl. repeat split; assumption.
  - intros betAmount multiplier winAmount betTransactionId.
    unfold callbackService.creditWin.
    match goal with
    | |- context [callbackService.makeRequest ?u ?p 1 w] =>
        destruct (Hreq u p) as (w3 & -> & Hf & Hc)
    end.
    reflexivity.
  - intros amount originalTransactionId reason.
    unfold callbackService.rollback.
    match goal with
    | |- context [callbackService.makeRequest ?u ?p 1 w] =>
        destruct (Hreq u p) as (w3 & -> & Hf & Hc)
    end.
    reflexivity.
  - unfold callbackService.getBalance.
    match goal with
    | |- context [callbackService.makeRequest ?u ?p 1 w] =>
        destruct (Hreq u p) as (w3 & -> & Hf & Hc)
    end.
    reflexivity.
Qed.

Section ScenarioUnreachable.
Import Sample.

Lemma failed_callback_reports_the_last_error_witness :
  exists message,
    CallbackError.attempt_error (Scenario.platform_unreachable 2%nat) = Some message
    /\ fst (callbackService.getBalance (H := Sample.hmac)
              "https://platform.example/game-callbacks" "alice" "SESSION-alice"
              (Scenario.world_of Scenario.platform_unreachable Scenario.t0))
       = callbackService.BalanceFailed "CALLBACK_FAILED" message.
Proof.
  destruct (@failed_callback_reports_the_last_error Sample.number Sample.hmac
              "https://platform.example/game-callbacks" "R-1700000000000-0" "alice"
              "SESSION-alice" "EUR" []
              (Scenario.world_of Scenario.platform_unreachable Scenario.t0))
    as (message & Hm & _ & _ & _ & Hb).
  - intros j _. reflexivity.
  - exists message. split; [exact Hm|exact Hb].
Defined.

End ScenarioUnreachable.

(** ** The first ticks of a round *)

Section IdealFirstTicks.
Local Open Scope R_scope.

Lemma calculateMultiplier_first_165_ms (elapsed : Z) :
  (0 <= elapsed <= 165)%Z -> calculateMultiplier (N := Ideal.number) elapsed = 1.
Proof.
  intros [H0 H165]. rewrite calculateMultiplier_ideal.
  apply IZR_le in H0. apply IZR_le in H165.
  set (x := 6 / 100000 * IZR elapsed).
  assert (Hx : 0 <= x <= 99 / 10000) by (unfold x; lra).
  destruct (exp_small_bounds (x := x)) as [Hlo Hhi]; [lra|].
  assert (Hup : / (1 - x) < 101 / 100).
  { apply Rmult_lt_reg_l with (r := 1 - x); [lra|].
    rewrite Rinv_r by lra. lra. }
  rewrite (Zfloor_eq 100); [lra|]. split; lra.
Qed.

End IdealFirstTicks.

(** X19: in its first 165 ms a round crashes only if its crash point is
    1.00. Over the real numbers the multiplier is 1.00 for every elapsed
    time from 0 to 165 ms; so a tick of a running round in that time, the
    first three ticks of the 50 ms interval among them, crashes the round
    exactly when its crash point is 1.00 (a crash point being at least
    1.00), and otherwise reports the multiplier 1.00. *)
Theorem first_ticks_crash_only_an_instant_round
    (S : Seeds) (e : CrashEngine (N := Ideal.number)) (r : Round (N := Ideal.number))
    (start now crashNow : Z) :
  currentRound e = Some r ->
  status r = running ->
  startTime r = Some start ->
  (1 <= crashPoint r)%R ->
  0 <= now - start <= 165 ->
  calculateMultiplier (N := Ideal.number) (now - start) = 1%R
  /\ (tick_crashed (fst (tick now crashNow e)) = true <-> crashPoint r = 1%R)
  /\ (crashPoint r <> 1%R -> fst (tick now crashNow e) = Return (TickMultiplier (N := Ideal.number) 1%R)).
Proof.
  intros Hr Hs Ht Hcp Hel.
  pose proof (calculateMultiplier_first_165_ms Hel) as Hm.
  split; [exact Hm|].
  unfold tick. rewrite Hr, Hs, Ht. cbn [negb Status_eqb].
  set (m := calculateMultiplier _) in *.
  change (nle (crashPoint (set_currentMultiplier m r)) m)
    with (if Rle_dec (crashPoint r) m then true else false).
  clearbody m. subst m.
  destruct (Rle_dec (crashPoint r) 1) as [Hle|Hn].
  - unfold crash. simpl. split.
    + split; [intros _; lra|reflexivity].
    + intros Hne. exfalso. apply Hne. lra.
  - simpl. split.
    + split; [discriminate|]. intros Heq. exfalso. apply Hn. lra.
    + reflexivity.
Qed.

Lemma first_ticks_crash_only_an_instant_round_witness :
  calculateMultiplier (N := Ideal.number) (150 - 0) = 1%R.
Proof.
  refine (proj1 (@first_ticks_crash_only_an_instant_round Sample.seeds
                   IdealScenario.engine IdealScenario.round 0 150 150
                   eq_refl eq_refl eq_refl _ _)).
  - simpl. lra.
  - lia.
Defined.

(** ** The amount of a bet *)


(** ** One round of the service *)

(** X21: a round without bets runs its cycle. Over the real numbers, on a
    service that runs and has no tick interval, if the digest of the
    current seeds has six bytes or more, the three timers [startNewRound],
    [startRoundExecution] and a [processTick] 115130 ms or more after the
    start leave the engine without a current round, with the seed manager
    advanced once and the entry of the round in front of the history; the
    engine has emitted [betting_phase], [round_start] and [round_crash] of
    one round whose revealed seed is the seed the round was generated
    from; and the service has set the timeout of [startRoundExecution] at
    5000 ms, set and cleared the tick interval of 50 ms, and set the
    timeout of [startNewRound] at 3000 ms. *)
Theorem a_round_runs_its_cycle
    (H : Hmac (N := Ideal.number)) (S : Seeds) (SS : Sessions (N := Ideal.number))
    (SK : SessionSockets (N := Ideal.number) (SS := SS))
    (st : roundService.State (N := Ideal.number) (S := S) (SS := SS))
    (opened started ticked crashNow : Z)
    (d1 d2 during_cleanup : betService.Others (N := Ideal.number) (S := S) (SS := SS)) :
  let e := betService.engine (roundService.shared st) in
  let sm := seedManager e in
  let digest :=
    hmacSha256Buffer (Hmac := H) (getCurrentServerSeed sm)
      (getClientSeed sm ++ ":" ++ show_Z (getNonce sm)) in
  let roundId := "R-" ++ show_Z opened ++ "-" ++ show_Z (getNonce sm) in
  let hash := sha256 (Hmac := H) (getCurrentServerSeed sm) in
  let st' :=
    roundService.fire_all (H := H) (SK := SK)
      [(roundService.cb_startNewRound, opened, opened, d1);
       (roundService.cb_startRoundExecution, started, started, d2);
       (roundService.cb_processTick, ticked, crashNow, during_cleanup)]
      st in
  roundService.isRunning (roundService.service st) = true ->
  roundService.tickInterval (roundService.service st) = None ->
  (6 <= List.length digest)%nat ->
  115130 <= ticked - started ->
  exists (e' : CrashEngine (N := Ideal.number)) (cp : R),
    roundService.shared st' = during_cleanup (betService.set_engine e' (roundService.shared st))
    /\ calculateCrashPoint (H := H) (getCurrentServerSeed sm) (getClientSeed sm)
         (getNonce sm)
       = Return cp
    /\ currentRound e' = None
    /\ seedManager e' = advanceToNextSeed sm
    /\ roundHistory e'
       = push_history
           (mkHistoryEntry (N := Ideal.number) roundId cp (getCurrentServerSeed sm) hash
              (getClientSeed sm) (getNonce sm) (Some started) (Some crashNow))
           (roundHistory e)
    /\ emitted e'
       = (emitted e
          ++ [betting_phase roundId hash (getClientSeed sm) (getNonce sm)
                config.GAME_BETTING_PHASE_MS;
              round_start roundId hash started;
              round_crash
                (mkVerification (N := Ideal.number) roundId cp (getCurrentServerSeed sm) hash
                   (getClientSeed sm) (getNonce sm))])%list
    /\ roundService.effects st'
       = (roundService.effects st
          ++ [roundService.SetTimeout roundService.cb_startRoundExecution
                config.GAME_BETTING_PHASE_MS;
              roundService.SetInterval roundService.cb_processTick
                config.GAME_TICK_INTERVAL_MS (roundService.handles st);
              roundService.ClearInterval (Some (roundService.handles st));
              roundService.SetTimeout roundService.cb_startNewRound
                config.GAME_ROUND_DELAY_MS])%list
    /\ roundService.tickInterval (roundService.service st') = None
    /\ roundService.isRunning (roundService.service st') = true.
Proof.
  intros e sm digest roundId hash st' Hrun Hint Hlen Hel.
  destruct (calculateCrashPoint (H := H) (getCurrentServerSeed sm)
              (getClientSeed sm) (getNonce sm)) as [cp|message] eqn:Hcp.
  2:{ exfalso. rewrite calculateCrashPoint_hundredths in Hcp.
      fold digest in Hcp. rewrite (readUIntBE_first digest Hlen) in Hcp. discriminate. }
  pose proof (calculateCrashPoint_ideal_bounds _ _ _ Hcp) as Hb.
  pose proof (calculateMultiplier_reaches_1000 Hel) as Hm.
  assert (Hc : nle cp (calculateMultiplier (N := Ideal.number) (ticked - started)) = true).
  { change (nle cp (calculateMultiplier (N := Ideal.number) (ticked - started)))
      with (if Rle_dec cp (calculateMultiplier (N := Ideal.number) (ticked - started))
            then true else false).
    destruct (Rle_dec cp _) as [Hle|Hn]; [reflexivity|]. exfalso. apply Hn. lra. }
  destruct st as [[interval running game controls] sh ef hs].
  simpl in Hrun, Hint. subst running interval.
  unfold roundId, hash, sm, e in *. clear roundId hash digest Hlen.
  cbn -[calculateCrashPoint] in Hcp.
  eassert (Hst : st' = _).
  { unfold st'. cbn [roundService.fire_all roundService.fire].
    match goal with |- context [roundService.startNewRound ?n ?s] =>
      eassert (Hopen : roundService.startNewRound (H := H) n s = _) end.
    { unfold roundService.startNewRound.
      cbn -[calculateCrashPoint calculateMultiplier nle push_history].
      unfold generateRound. rewrite Hcp.
      cbn -[calculateCrashPoint calculateMultiplier nle push_history].
      reflexivity. }
    rewrite Hopen. clear Hopen. cbn [snd].
    match goal with |- context [roundService.startRoundExecution ?n ?s] =>
      eassert (Hstart : roundService.startRoundExecution n s = _) end.
    { unfold roundService.startRoundExecution.
      cbn -[calculateCrashPoint calculateMultiplier nle push_history].
      reflexivity. }
    rewrite Hstart. clear Hstart. cbn [snd].
    match goal with |- context [roundService.processTick ?n ?c ?d ?s] =>
      eassert (Htick : roundService.processTick (SK := SK) n c d s = _) end.
    { unfold roundService.processTick.
      cbn -[calculateCrashPoint calculateMultiplier nle push_history tick].
      unfold tick.
      cbn -[calculateCrashPoint calculateMultiplier nle push_history].
      rewrite Hc.
      cbn -[calculateCrashPoint calculateMultiplier nle push_history].
      reflexivity. }
    rewrite Htick. clear Htick. cbn [snd].
    reflexivity. }
  clearbody st'. subst st'.
  destruct controls;
    cbn -[calculateCrashPoint calculateMultiplier nle push_history];
    eexists; exists cp; (split; [reflexivity|]);
    cbn -[calculateCrashPoint calculateMultiplier nle push_history];
    repeat split; rewrite <- ?app_assoc; reflexivity.
Qed.


Lemma a_round_runs_its_cycle_witness :
  roundService.tickInterval
    (roundService.service
       (roundService.fire_all (H := Sample.hmac_for Ideal.number)
          (SK := IdealService.sockets)
          [(roundService.cb_startNewRound, 0, 0, fun s => s);
           (roundService.cb_startRoundExecution, 5000, 5000, fun s => s);
           (roundService.cb_processTick, 120130, 120131, fun s => s)]
          IdealService.fresh))
  = None.
Proof.
  destruct (@a_round_runs_its_cycle (Sample.hmac_for Ideal.number) Sample.seeds
              IdealService.sessions IdealService.sockets IdealService.fresh
              0 5000 120130 120131 (fun s => s) (fun s => s) (fun s => s))
    as (e' & cp & _ & _ & _ & _ & _ & _ & _ & Hint & _).
  - reflexivity.
  - reflexivity.
  - vm_compute. repeat constructor.
  - lia.
  - exact Hint.
Defined.

(** ** The checks of [BetService.placeBet] *)

Lemma retry_io_first {N : JSNumber} {H : Hmac} (url : string)
    (payload : Payload) (attempt : Z) (n : nat) (now : Z) :
  (1 <= n)%nat ->
  exists more,
    Spec.retry_io url payload attempt n now
    = callbackService.Fetched (Spec.request_for url payload now) :: more.
Proof.
  destruct n as [|[|k]]; [lia| |]; intros _; simpl; eexists; reflexivity.
Qed.

(** X22: [BetService.placeBet] rejects a bet that fails one of its checks
    before anything is debited: it throws, the singletons and the outside
    are as before and no request was sent. The checks are made in this
    order: the session; the amount, which must be a number and not NaN
    ("Invalid bet amount"), at least MIN_BET and at most MAX_BET; the player
    must have no bet in the current round ("Already placed a bet this
    round", whatever the status of the round); there must be a current round
    ("No active round") and it must be in status betting ("Betting phase has
    ended"). When every check passes, the first thing sent is the request to
    [/bet] for the amount rounded to hundredths. *)
Theorem placeBet_rejects_before_the_debit
    (N : JSNumber) (H : Hmac) (S : Seeds) (SS : Sessions)
    (sessionId : string) (amount : option num)
    (during_debit during_rollback : betService.Others)
    (s : betService.Shared) (w : callbackService.World) :
  let out := betService.placeBet sessionId amount during_debit during_rollback s w in
  let e := betService.engine s in
  (forall message,
     validateSession sessionId (betService.sessions s) = Throw message ->
     out = (Throw message, s, w))
  /\ (forall session,
        validateSession sessionId (betService.sessions s) = Return session ->
        let playerId := session_playerId session in
        match amount with
        | None => out = (Throw "Invalid bet amount", s, w)
        | Some a =>
            (isNaN a = true -> out = (Throw "Invalid bet amount", s, w))
            /\ (isNaN a = false ->
                ((a <? of_Z config.GAME_MIN_BET)%num = true ->
                 out = (Throw ("Minimum bet is " ++ show_Z config.GAME_MIN_BET), s, w))
                /\ ((a <? of_Z config.GAME_MIN_BET)%num = false ->
                    ((a >? of_Z config.GAME_MAX_BET)%num = true ->
                     out = (Throw ("Maximum bet is " ++ show_Z config.GAME_MAX_BET), s, w))
                    /\ ((a >? of_Z config.GAME_MAX_BET)%num = false ->
                        (getPlayerBet playerId e <> None ->
                         out = (Throw "Already placed a bet this round", s, w))
                        /\ (getPlayerBet playerId e = None ->
                            (getCurrentRound e = None ->
                             out = (Throw "No active round", s, w))
                            /\ (forall round,
                                  getCurrentRound e = Some round ->
                                  (rs_status round <> betting ->
                                   out = (Throw "Betting phase has ended", s, w))
                                  /\ (rs_status round = betting ->
                                      exists more,
                                        callbackService.io (snd out)
                                        = (callbackService.io w
                                           ++ callbackService.Fetched
                                                (Spec.request_for
                                                   (session_callbackBaseUrl session ++ "/bet")
                                                   (BetPayload
                                                      ("BET-" ++ rs_id round ++ "-" ++ playerId
                                                       ++ "-"
                                                       ++ show_Z (callbackService.clock w))
                                                      (rs_id round) playerId sessionId
                                                      (Math_round (a * of_Z 100) / of_Z 100)%num
                                                      (session_currency session)
                                                      (callbackService.clock w))
                                                   (callbackService.clock w))
                                           :: more)%list))))))
        end).
Proof.
  intros out e. unfold out, e, betService.placeBet. split.
  { intros message ->. reflexivity. }
  intros session ->. cbv zeta. destruct amount as [a|]; [|reflexivity].
  split; [intros ->; reflexivity|]. intros ->.
  split; [intros ->; reflexivity|]. intros ->.
  split; [intros ->; reflexivity|]. intros ->.
  split.
  { destruct (getPlayerBet _ _); [reflexivity|congruence]. }
  intros ->. split; [intros ->; reflexivity|].
  intros round ->. split.
  { intros Hst. destruct (rs_status round); try reflexivity. congruence. }
  intros ->. cbn [Status_eqb negb].
  match goal with
  | |- context [callbackService.placeBet ?a ?b ?c ?d ?f ?g ?h ?i] =>
      destruct (@placeBet_io N H a b c d f g h i) as [(n & Hn & Hio) _];
      destruct (callbackService.placeBet a b c d f g h i) as [[callbackResult p1] w1]
  end.
  cbn [fst snd] in Hio.
  destruct (retry_io_first (session_callbackBaseUrl session ++ "/bet")
              (BetPayload
                 ("BET-" ++ rs_id round ++ "-" ++ session_playerId session ++ "-"
                  ++ show_Z (callbackService.clock w))
                 (rs_id round) (session_playerId session) sessionId
                 (Math_round (a * of_Z 100) / of_Z 100)%num (session_currency session)
                 (callbackService.clock w)) 1 (callbackService.clock w) (proj1 Hn))
    as (more & Hmore).
  rewrite Hmore in Hio.
  destruct (negb (callbackService.cb_success callbackResult)).
  { exists more. exact Hio. }
  destruct (addBet _ _ _ _ _) as [[bet|error] e2].
  { exists more. exact Hio. }
  match goal with
  | |- context [callbackService.rollback ?a ?b ?c ?d ?f ?g ?h ?i ?j ?k] =>
      destruct (@rollback_io N H a b c d f g h i j k) as (m & _ & Hio3);
      destruct (callbackService.rollback a b c d f g h i j k) as [[r3 p3] w3]
  end.
  cbn [fst snd] in Hio3 |- *. rewrite Hio3, Hio. rewrite <- app_assoc.
  eexists. reflexivity.
Qed.
